(** * ntfsparser: a shallow embedding of the NTFS on-disk decoder

    The Python sources under [src/ntfs_parser/src] are embedded as Rocq
    functions: [core/errors.py], [ntfs/mft.py], [ntfs/boot_sector.py],
    [ntfs/split_volume.py], [ntfs/volume.py] and [ntfs/attributes.py].

    Conventions of the embedding.
    - [bytes] is [list byte]; Python integers are [Z].
    - An expression that can raise a Python exception has type [option _],
      [None] standing for "an exception was raised".  Where such an
      expression of the sources sits under an [except Exception] handler,
      the handler is written out at its place.
    - [print] and [logger] calls have no effect on results and are left out;
      the message string of a [Result] is left out as well.
    - [while] loops run through the combinator [loop], which takes the
      number of iterations it may perform; [None] from a loop means that
      this budget was used up.  Loops that provably end get a budget
      computed from their input and a lemma that it is never used up. *)

From Stdlib Require Import ZArith List Lia Bool Sorted.
From Stdlib Require Import Strings.Byte.
From stdpp Require Import base option list gmap.

Local Open Scope Z_scope.

(** ** Python values *)

Definition bytes := list byte.

#[global] Instance byte_eq : EqDecision byte := Byte.byte_eq_dec.

Definition byteZ (b : byte) : Z := Z.of_N (Byte.to_N b).

(** [len(d)] *)
Definition len {A} (d : list A) : Z := Z.of_nat (length d).

(** [d[i]]: a negative index counts from the end, an index out of range
    raises IndexError. *)
Definition norm_index {A} (d : list A) (i : Z) : option nat :=
  let j := if i <? 0 then i + len d else i in
  if (0 <=? j) && (j <? len d) then Some (Z.to_nat j) else None.

Definition getitem {A} (d : list A) (i : Z) : option A :=
  match norm_index d i with
  | Some j => d !! j
  | None => None
  end.

(** The clamping Python applies to a slice bound. *)
Definition clamp {A} (d : list A) (i : Z) : Z :=
  if i <? 0 then Z.max 0 (i + len d) else Z.min i (len d).

(** [d[a:b]] *)
Definition slice {A} (d : list A) (a b : Z) : list A :=
  let a' := clamp d a in
  let b' := clamp d b in
  take (Z.to_nat (b' - a')) (drop (Z.to_nat a') d).

(** [int.from_bytes(bs, 'little')] *)
Fixpoint int_from_bytes (bs : bytes) : Z :=
  match bs with
  | [] => 0
  | b :: rest => byteZ b + 256 * int_from_bytes rest
  end.

(** [int.from_bytes(bs, 'little', signed=True)] *)
Definition int_from_bytes_signed (bs : bytes) : Z :=
  match bs with
  | [] => 0
  | _ => let u := int_from_bytes bs in
         if u <? 2 ^ (8 * len bs - 1) then u else u - 2 ^ (8 * len bs)
  end.

(** A Python [str] is the list of its code points. *)
Definition str := list Z.

(** The 16-bit code units of a UTF-16LE byte string; an odd number of bytes
    is a UnicodeDecodeError (truncated data). *)
Fixpoint code_units (bs : bytes) : option (list Z) :=
  match bs with
  | [] => Some []
  | [_] => None
  | lo :: hi :: rest =>
      match code_units rest with
      | Some us => Some ((byteZ lo + 256 * byteZ hi) :: us)
      | None => None
      end
  end.

(** Surrogate pairs are combined; a lone surrogate is a UnicodeDecodeError. *)
Fixpoint combine_units (us : list Z) : option str :=
  match us with
  | [] => Some []
  | u :: rest =>
      if (0xD800 <=? u) && (u <=? 0xDBFF) then
        match rest with
        | v :: rest' =>
            if (0xDC00 <=? v) && (v <=? 0xDFFF) then
              match combine_units rest' with
              | Some s => Some ((0x10000 + (u - 0xD800) * 0x400 + (v - 0xDC00)) :: s)
              | None => None
              end
            else None
        | [] => None
        end
      else if (0xDC00 <=? u) && (u <=? 0xDFFF) then None
      else match combine_units rest with
           | Some s => Some (u :: s)
           | None => None
           end
  end.

(** [bs.decode('utf-16-le')] *)
Definition decode_utf16le (bs : bytes) : option str :=
  match code_units bs with
  | Some us => combine_units us
  | None => None
  end.

(** [s.startswith("$")] *)
Definition startswith_dollar (s : str) : bool :=
  match s with
  | c :: _ => c =? 0x24
  | [] => false
  end.

(** Truth value of an optional string: [None] and [''] are false. *)
Definition truthy (s : option str) : bool :=
  match s with
  | Some (_ :: _) => true
  | _ => false
  end.

(** [range(a, b)] *)
Fixpoint range_from (a : Z) (n : nat) : list Z :=
  match n with
  | O => []
  | S n' => a :: range_from (a + 1) n'
  end.

Definition range (a b : Z) : list Z := range_from a (Z.to_nat (b - a)).

(** [s.lstrip(c)], [s.strip(c)] and [s.split(c)] for a one-character
    string [c]. *)
Fixpoint str_lstrip (c : Z) (s : str) : str :=
  match s with
  | x :: rest => if x =? c then str_lstrip c rest else s
  | [] => []
  end.

Definition str_strip (c : Z) (s : str) : str :=
  rev (str_lstrip c (rev (str_lstrip c s))).

Fixpoint str_split (c : Z) (s : str) : list str :=
  match s with
  | [] => [[]]
  | x :: rest =>
      if x =? c then [] :: str_split c rest
      else match str_split c rest with
           | part :: parts => (x :: part) :: parts
           | [] => [[x]]
           end
  end.

(** Truth value of a string: [''] is false. *)
Definition nonempty (s : str) : bool :=
  match s with
  | [] => false
  | _ :: _ => true
  end.

(** [range(a, b, step)] for a positive [step] *)
Fixpoint range_step_from (a step : Z) (n : nat) : list Z :=
  match n with
  | O => []
  | S n' => a :: range_step_from (a + step) step n'
  end.

Definition range_step (a b step : Z) : list Z :=
  range_step_from a step (Z.to_nat ((b - a + step - 1) / step)).

(** ** Loops *)

Inductive step (S A : Type) : Type :=
| Continue (s : S)
| Break (a : A).
Arguments Continue {S A} s.
Arguments Break {S A} a.

(** [loop body n s] runs [body] from state [s] for at most [n] iterations. *)
Fixpoint loop {S A : Type} (body : S -> step S A) (n : nat) (s : S) : option A :=
  match n with
  | O => None
  | Datatypes.S n' =>
      match body s with
      | Break a => Some a
      | Continue s' => loop body n' s'
      end
  end.

(** ** core/errors.py *)

Inductive NTFSError : Type :=
| SUCCESS
| INVALID_PARAMETER
| IO_ERROR
| CORRUPT_VOLUME
| INVALID_BOOT_SECTOR
| INVALID_MFT
| NOT_FOUND.

Inductive Result (T : Type) : Type :=
| ok (value : T)
| err (error : NTFSError).
Arguments ok {T} value.
Arguments err {T} error.

Definition is_ok {T} (r : Result T) : bool :=
  match r with ok _ => true | err _ => false end.

Definition is_err {T} (r : Result T) : bool := negb (is_ok r).

(** ** ntfs/mft.py *)

Module DataRun.
Record t : Type := mk { cluster : Z; length : Z }.
End DataRun.

Module MFTAttribute.

Record t : Type := mk {
  type_id : Z;
  name : option str;
  resident : bool;
  data : bytes;
  data_runs : list DataRun.t;
  data_size : Z
}.

(** State of the data-run loop: [current_offset], [current_lcn] and the
    runs appended to [attr.data_runs] so far. *)
Definition run_state : Type := Z * Z * list DataRun.t.

(** One iteration of [while current_offset < len(data)].  The loop is left
    with the runs appended so far and [true] when it ends normally, [false]
    when [lcn_bytes[-1]] raises IndexError. *)
Definition run_body (data : bytes) (st : run_state)
  : step run_state (list DataRun.t * bool) :=
  let '(current_offset, current_lcn, runs) := st in
  if negb (current_offset <? len data) then Break (runs, true) else
  match getitem data current_offset with
  | None => Break (runs, false)
  | Some header =>
      if byteZ header =? 0 then Break (runs, true) else
      let length_size := Z.land (byteZ header) 0x0F in
      let offset_size := Z.land (Z.shiftr (byteZ header) 4) 0x0F in
      let current_offset := current_offset + 1 in
      if current_offset + length_size + offset_size >? len data
      then Break (runs, true) else
      let length_bytes := slice data current_offset (current_offset + length_size) in
      let length := int_from_bytes length_bytes in
      let current_offset := current_offset + length_size in
      let lcn_bytes := slice data current_offset (current_offset + offset_size) in
      match getitem lcn_bytes (-1) with
      | None => Break (runs, false)
      | Some last =>
          let lcn_offset :=
            if negb (Z.land (byteZ last) 0x80 =? 0)
            then int_from_bytes_signed lcn_bytes
            else int_from_bytes lcn_bytes in
          let current_offset := current_offset + offset_size in
          let current_lcn := current_lcn + lcn_offset in
          Continue (current_offset, current_lcn,
                    runs ++ [DataRun.mk current_lcn length])
      end
  end.

(** The data-run loop from [runs_offset].  Every iteration that continues
    moves [current_offset] forward by at least one byte inside [data], so
    [len(data) + 1] iterations are enough (lemma [run_loop_total]). *)
Definition parse_data_runs (data : bytes) (runs_offset : Z)
  : list DataRun.t * bool :=
  match loop (run_body data) (Datatypes.S (length data)) (runs_offset, 0, []) with
  | Some r => r
  | None => ([], false)
  end.

Definition from_raw_data (attr_type : Z) (name : option str) (resident : bool)
    (data : bytes) : t :=
  if resident then
    mk attr_type name resident data [] (len data)
  else
    let runs_offset := int_from_bytes (slice data 32 34) in
    let data_size := int_from_bytes (slice data 48 56) in
    let '(runs, completed) := parse_data_runs data runs_offset in
    mk attr_type name resident [] runs (if completed then data_size else 0).

End MFTAttribute.

Module MFTEntry.

Record t : Type := mk {
  reference : Z;
  sequence : Z;
  base_reference : Z;
  flags : Z;
  used_size : Z;
  allocated_size : Z;
  attributes : list MFTAttribute.t
}.

(** The four bytes [b'FILE']. *)
Definition FILE_tag : bytes := [x46; x49; x4c; x45].

(** State of the attribute loop: [attr_offset] and the list [attrs]. *)
Definition attr_state : Type := Z * list MFTAttribute.t.

(** The attribute decoded at [attr_offset] and its [attr_len]; [None] when
    an index is out of range or the attribute name is not valid UTF-16. *)
Definition parse_attribute (data : bytes) (attr_offset attr_type : Z)
  : option (MFTAttribute.t * Z) :=
  let attr_len := int_from_bytes (slice data (attr_offset + 4) (attr_offset + 8)) in
  resident_flag ← getitem data (attr_offset + 8);
  name_len ← getitem data (attr_offset + 9);
  let name_offset :=
    attr_offset + int_from_bytes (slice data (attr_offset + 10) (attr_offset + 12)) in
  name ← (if byteZ name_len >? 0
          then Some <$> decode_utf16le
                 (slice data name_offset (name_offset + byteZ name_len * 2))
          else Some None);
  let attr_data :=
    if byteZ resident_flag =? 0 then
      let content_size :=
        int_from_bytes (slice data (attr_offset + 16) (attr_offset + 20)) in
      let content_offset :=
        attr_offset + int_from_bytes (slice data (attr_offset + 20) (attr_offset + 22)) in
      slice data content_offset (content_offset + content_size)
    else
      slice data attr_offset (attr_offset + attr_len) in
  Some (MFTAttribute.from_raw_data attr_type name (byteZ resident_flag =? 0) attr_data,
        attr_len).

(** One iteration of [while attr_offset < offset + used_size].  The loop is
    left with [Some attrs] when it ends normally and with [None] when an
    exception is raised. *)
Definition attr_body (data : bytes) (offset used_size : Z) (st : attr_state)
  : step attr_state (option (list MFTAttribute.t)) :=
  let '(attr_offset, attrs) := st in
  if negb (attr_offset <? offset + used_size) then Break (Some attrs) else
  let attr_type := int_from_bytes (slice data attr_offset (attr_offset + 4)) in
  if attr_type =? 0xFFFFFFFF then Break (Some attrs) else
  match parse_attribute data attr_offset attr_type with
  | None => Break None
  | Some (attr, attr_len) => Continue (attr_offset + attr_len, attrs ++ [attr])
  end.

(** [MFTEntry.from_bytes(data, offset)].  The attribute loop may perform
    [fuel] iterations; the result is [None] when they are used up. *)
Definition from_bytes (fuel : nat) (data : bytes) (offset : Z) : option (Result t) :=
  if negb (bool_decide (slice data offset (offset + 4) = FILE_tag))
  then Some (err INVALID_MFT) else
  let sequence := int_from_bytes (slice data (offset + 16) (offset + 18)) in
  let flags := int_from_bytes (slice data (offset + 22) (offset + 24)) in
  let used_size := int_from_bytes (slice data (offset + 24) (offset + 28)) in
  let alloc_size := int_from_bytes (slice data (offset + 28) (offset + 32)) in
  let base_ref := int_from_bytes (slice data (offset + 32) (offset + 40)) in
  let attr_offset :=
    offset + int_from_bytes (slice data (offset + 20) (offset + 22)) in
  match loop (attr_body data offset used_size) fuel (attr_offset, []) with
  | None => None
  | Some None => Some (err INVALID_MFT)
  | Some (Some attrs) =>
      Some (ok (mk 0 sequence base_ref flags used_size alloc_size attrs))
  end.

(** The second definition of [is_in_use] in the class replaces the first;
    both test bit 0. *)
Definition is_in_use (e : t) : bool := negb (Z.land (flags e) 0x01 =? 0).

Definition is_directory (e : t) : bool := negb (Z.land (flags e) 0x0002 =? 0).

Definition has_file_name (e : t) : bool :=
  existsb (fun attr => MFTAttribute.type_id attr =? 0x30) (attributes e).

Definition set_reference (n : Z) (e : t) : t :=
  mk n (sequence e) (base_reference e) (flags e) (used_size e)
     (allocated_size e) (attributes e).

End MFTEntry.

(** ** ntfs/boot_sector.py *)

Module NTFSBootSector.

Record t : Type := mk {
  bytes_per_sector : Z;
  sectors_per_cluster : Z;
  mft_lcn : Z;
  mft_record_size : Z;
  index_record_size : Z;
  serial_number : bytes;
  total_sectors : Z
}.

Definition NTFS_tag : bytes := [x4e; x54; x46; x53].

(** [struct.unpack_from] and the byte indexings read inside the first 512
    bytes, which the length test guarantees; an index out of range is kept as
    an exception all the same. *)
Definition from_bytes (data : bytes) : Result t :=
  if len data <? 512 then err INVALID_BOOT_SECTOR else
  if negb (bool_decide (slice data 3 7 = NTFS_tag)) then err INVALID_BOOT_SECTOR else
  match getitem data 0x0D, getitem data 0x40, getitem data 0x44 with
  | Some spc, Some mft_rec_size, Some idx_rec_size =>
      ok (mk (int_from_bytes (slice data 0x0B 0x0D))
             (byteZ spc)
             (int_from_bytes (slice data 0x30 0x38))
             (byteZ mft_rec_size)
             (byteZ idx_rec_size)
             (slice data 0x48 0x50)
             (int_from_bytes (slice data 0x28 0x30)))
  | _, _, _ => err INVALID_BOOT_SECTOR
  end.

End NTFSBootSector.

(** ** ntfs/split_volume.py *)

Module SplitImageFile.

(** An open file object: the bytes of the file and the position of the next
    read.  The position is kept from one call to the next. *)
Record handle : Type := mk_handle { content : bytes; pos : Z }.

(** [segments] are the files [<base>.001], [<base>.002], ... found on disk,
    in order; [files] are the file objects opened by [open]. *)
Record t : Type := mk { segments : list bytes; files : list handle }.

(** [SplitImageFile(base_path)] *)
Definition new (segments : list bytes) : t := mk segments [].

(** [open()]: [False] when [<base>.001] does not exist. *)
Definition open (s : t) : bool * t :=
  match segments s with
  | [] => (false, s)
  | _ => (true, mk (segments s) (files s ++ map (fun c => mk_handle c 0) (segments s)))
  end.

(** [f.seek(p)]: a negative position raises. *)
Definition seek (h : handle) (p : Z) : option handle :=
  if p <? 0 then None else Some (mk_handle (content h) p).

(** [f.read(n)]: the bytes from the current position, at most [n] of them
    (all of them when [n] is negative); the position moves past them. *)
Definition file_read (h : handle) (n : Z) : bytes * handle :=
  let d := if n <? 0 then slice (content h) (pos h) (len (content h))
           else slice (content h) (pos h) (pos h + n) in
  (d, mk_handle (content h) (pos h + len d)).

(** [os.path.getsize(f"{base_path}.001")]: raises when the file is absent. *)
Definition getsize (s : t) : option Z :=
  match segments s with
  | [] => None
  | c :: _ => Some (len c)
  end.

(** State of the loop over the following files: [file_index], [data],
    [remaining] and the file objects. *)
Definition span_state : Type := Z * bytes * Z * list handle.

Definition span_body (st : span_state) : step span_state (bytes * list handle) :=
  let '(file_index, data, remaining, fs) := st in
  if negb ((remaining >? 0) && (file_index + 1 <? len fs)) then Break (data, fs) else
  let file_index := file_index + 1 in
  match norm_index fs file_index with
  | None => Break (data, fs)
  | Some j =>
      match fs !! j with
      | None => Break (data, fs)
      | Some h =>
          let '(next_data, h') := file_read h remaining in
          let fs' := <[j := h']> fs in
          match next_data with
          | [] => Break (data, fs')
          | _ => Continue (file_index, data ++ next_data,
                           remaining - len next_data, fs')
          end
      end
  end.

(** [read(offset, size)]: [None] is the Python [None], returned for a
    segment index past the last file and from the exception handler.  The
    loop over the following files steps [file_index] up to [len(files) - 1]
    from at least [-len(files)], so [2 * len(files) + 1] iterations are
    enough (lemma [span_loop_total]). *)
Definition read (s : t) (offset size : Z) : option bytes * t :=
  match getsize s with
  | None => (None, s)
  | Some file_size =>
      if file_size =? 0 then (None, s) else
      let file_index := offset / file_size in
      if file_index >=? len (files s) then (None, s) else
      let file_offset := offset mod file_size in
      match norm_index (files s) file_index with
      | None => (None, s)
      | Some j =>
          match files s !! j with
          | None => (None, s)
          | Some h =>
              match seek h file_offset with
              | None => (None, s)
              | Some h1 =>
                  let '(data, h2) := file_read h1 size in
                  let fs := <[j := h2]> (files s) in
                  let remaining := size - len data in
                  match loop span_body (Datatypes.S (2 * length fs))
                             (file_index, data, remaining, fs) with
                  | Some (data', fs') => (Some data', mk (segments s) fs')
                  | None => (None, mk (segments s) fs)
                  end
              end
          end
      end
  end.

(** [for offset in range(0, 16384, 512)] of [read_ftk_header]: the offset
    of the first sector read whose bytes 3..6 are [b'NTFS']. *)
Fixpoint scan_sectors (s : t) (offsets : list Z) : option Z * t :=
  match offsets with
  | [] => (None, s)
  | offset :: rest =>
      let '(sector, s') := read s offset 512 in
      match sector with
      | None | Some [] => scan_sectors s' rest
      | Some d =>
          if bool_decide (slice d 3 7 = NTFSBootSector.NTFS_tag)
          then (Some offset, s')
          else scan_sectors s' rest
      end
  end.

(** [read_ftk_header()]: the ['ntfs_offset'] of the dictionary returned,
    whose other two entries are constants; [None] is the Python [None]. *)
Definition read_ftk_header (s : t) : option Z * t :=
  let '(header_data, s') := read s 0 512 in
  match header_data with
  | None | Some [] => (None, s')
  | Some _ => scan_sectors s' (range_step 0 16384 512)
  end.

End SplitImageFile.

(** ** ntfs/volume.py: NTFSFile *)

Module NTFSFile.

Record t : Type := mk {
  mft_entry : MFTEntry.t;
  name : option str;
  size : Z;
  is_directory : bool;
  creation_time : option Z;
  modification_time : option Z
}.

(** The fields [_parse_attributes] assigns: [name], [size],
    [creation_time], [modification_time]. *)
Definition parsed : Type := option str * Z * option Z * option Z.

(** One iteration of [for attr in self.mft_entry.attributes]; an exception
    in the body (a name that does not decode) is logged and the loop goes
    on with the fields as they are. *)
Definition parse_attribute (st : parsed) (attr : MFTAttribute.t) : parsed :=
  let '(name, size, ctime, mtime) := st in
  if MFTAttribute.type_id attr =? 0x30 then
    if negb (truthy name) then
      if truthy (MFTAttribute.name attr) then
        (MFTAttribute.name attr, size, ctime, mtime)
      else if MFTAttribute.resident attr && (len (MFTAttribute.data attr) >? 66) then
        match getitem (MFTAttribute.data attr) 64 with
        | None => st
        | Some name_length =>
            match decode_utf16le (slice (MFTAttribute.data attr) 66
                                        (66 + byteZ name_length * 2)) with
            | None => st
            | Some s => (Some s, size, ctime, mtime)
            end
        end
      else st
    else st
  else if MFTAttribute.type_id attr =? 0x80 then
    if negb (truthy (MFTAttribute.name attr)) then
      if negb (MFTAttribute.resident attr)
      then (name, MFTAttribute.data_size attr, ctime, mtime)
      else (name, len (MFTAttribute.data attr), ctime, mtime)
    else st
  else if MFTAttribute.type_id attr =? 0x10 then
    if MFTAttribute.resident attr && (len (MFTAttribute.data attr) >=? 24) then
      (name, size,
       Some (int_from_bytes (slice (MFTAttribute.data attr) 0 8)),
       Some (int_from_bytes (slice (MFTAttribute.data attr) 8 16)))
    else st
  else st.

(** [NTFSFile(mft_entry, volume)].  The volume is not stored: the
    operations that read from it take it as an argument. *)
Definition new (mft_entry : MFTEntry.t) : t :=
  let '(name, size, ctime, mtime) :=
    fold_left parse_attribute (MFTEntry.attributes mft_entry) (None, 0, None, None) in
  let is_directory := MFTEntry.is_directory mft_entry in
  mk mft_entry name (if is_directory then 0 else size) is_directory ctime mtime.

(** The unnamed $DATA attribute: the first attribute of type 0x80 whose
    name is [None] or empty. *)
Definition find_data_attr (f : t) : option MFTAttribute.t :=
  List.find (fun attr => (MFTAttribute.type_id attr =? 0x80)
                         && negb (truthy (MFTAttribute.name attr)))
            (MFTEntry.attributes (mft_entry f)).

Section ReadData.

(** The volume the file view points back to, through the one method
    [read_data] calls; [None] as a result of [read_clusters] is an exception
    raised by it. *)
Context {V : Type}.
Variable read_clusters : V -> Z -> Z -> option (Result bytes) * V.

(** [for run in data_attr.data_runs], with [data] the bytearray built so
    far. *)
Fixpoint read_runs (vol : V) (runs : list DataRun.t) (data : bytes)
  : option (Result bytes) * V :=
  match runs with
  | [] => (Some (ok data), vol)
  | run :: rest =>
      match read_clusters vol (DataRun.cluster run) (DataRun.length run) with
      | (None, vol') => (None, vol')
      | (Some (err e), vol') => (Some (err e), vol')
      | (Some (ok buffer), vol') => read_runs vol' rest (data ++ buffer)
      end
  end.

Definition read_data (vol : V) (f : t) : Result bytes * V :=
  match find_data_attr f with
  | None => (ok [], vol)
  | Some data_attr =>
      if MFTAttribute.resident data_attr then (ok (MFTAttribute.data data_attr), vol)
      else
        match read_runs vol (MFTAttribute.data_runs data_attr) [] with
        | (None, vol') => (err IO_ERROR, vol')
        | (Some (err e), vol') => (err e, vol')
        | (Some (ok data), vol') =>
            (ok (slice data 0 (MFTAttribute.data_size data_attr)), vol')
        end
  end.

(** [for run in data_attr.data_runs] of [read_deleted_data]: a run whose
    read fails or raises is skipped. *)
Fixpoint read_runs_deleted (vol : V) (runs : list DataRun.t) (data : bytes)
  : bytes * V :=
  match runs with
  | [] => (data, vol)
  | run :: rest =>
      match read_clusters vol (DataRun.cluster run) (DataRun.length run) with
      | (Some (ok buffer), vol') => read_runs_deleted vol' rest (data ++ buffer)
      | (_, vol') => read_runs_deleted vol' rest data
      end
  end.

Definition read_deleted_data (vol : V) (f : t) : Result bytes * V :=
  match find_data_attr f with
  | None => (ok [], vol)
  | Some data_attr =>
      if MFTAttribute.resident data_attr then (ok (MFTAttribute.data data_attr), vol)
      else
        let '(data, vol') := read_runs_deleted vol (MFTAttribute.data_runs data_attr) [] in
        (ok (slice data 0 (MFTAttribute.data_size data_attr)), vol')
  end.

End ReadData.

End NTFSFile.

(** ** ntfs/volume.py: NTFSVolume *)

Module NTFSVolume.

(** [image] stands for [image_path]: the segment files found on disk under
    its base name.  [partition_offset] is an attribute that exists only once
    [mount] has set it.  [image_file] is never assigned and stays [None]. *)
Record t : Type := mk {
  image : list bytes;
  split_image : option SplitImageFile.t;
  boot_sector : option NTFSBootSector.t;
  partition_offset : option Z;
  mft_cache : gmap Z MFTEntry.t
}.

(** [NTFSVolume(image_path)] *)
Definition new (image : list bytes) : t := mk image None None None ∅.

Definition with_split_image (vol : t) (si : SplitImageFile.t) : t :=
  mk (image vol) (Some si) (boot_sector vol) (partition_offset vol) (mft_cache vol).

Definition with_partition_offset (vol : t) (p : Z) : t :=
  mk (image vol) (split_image vol) (boot_sector vol) (Some p) (mft_cache vol).

Definition with_boot_sector (vol : t) (b : NTFSBootSector.t) : t :=
  mk (image vol) (split_image vol) (Some b) (partition_offset vol) (mft_cache vol).

Definition with_cached (vol : t) (n : Z) (e : MFTEntry.t) : t :=
  mk (image vol) (split_image vol) (boot_sector vol) (partition_offset vol)
     (<[n := e]> (mft_cache vol)).

(** [for i in range(4)] over the partition table of the MBR: outer [None]
    when [mbr_data[offset + 4]] raises, [Some None] when no entry has type
    0x07, [Some (Some p)] with [p] the partition offset of the first one that
    has. *)
Fixpoint scan_partition_table (mbr_data : bytes) (range : list Z)
  : option (option Z) :=
  match range with
  | [] => Some None
  | i :: rest =>
      let offset := 0x1BE + i * 16 in
      match getitem mbr_data (offset + 4) with
      | None => None
      | Some partition_type =>
          if byteZ partition_type =? 0x07
          then Some (Some (int_from_bytes (slice mbr_data (offset + 8) (offset + 12)) * 512))
          else scan_partition_table mbr_data rest
      end
  end.

(** [not data] for the result of [SplitImageFile.read]: [None] and [b'']. *)
Definition no_data (d : option bytes) : bool :=
  match d with
  | Some (_ :: _) => false
  | _ => true
  end.

Definition mount (vol : t) : Result unit * t :=
  let si := SplitImageFile.new (image vol) in
  let '(opened, si) := SplitImageFile.open si in
  let vol := with_split_image vol si in
  if negb opened then (err IO_ERROR, vol) else
  let '(mbr, si) := SplitImageFile.read si 0 512 in
  let vol := with_split_image vol si in
  match mbr with
  | None | Some [] => (err IO_ERROR, vol)
  | Some mbr_data =>
      match scan_partition_table mbr_data [0; 1; 2; 3] with
      | None => (err IO_ERROR, vol)
      | Some None => (err IO_ERROR, vol)
      | Some (Some partition_offset) =>
          let vol := with_partition_offset vol partition_offset in
          let '(boot, si) := SplitImageFile.read si partition_offset 512 in
          let vol := with_split_image vol si in
          match boot with
          | None | Some [] => (err IO_ERROR, vol)
          | Some boot_data =>
              if negb (bool_decide (slice boot_data 3 7 = NTFSBootSector.NTFS_tag))
              then (err IO_ERROR, vol) else
              match NTFSBootSector.from_bytes boot_data with
              | err e => (err e, vol)
              | ok b => (ok tt, with_boot_sector vol b)
              end
          end
      end
  end.

(** [read_clusters(cluster, count)].  The offset is computed before the
    [try], so a missing [partition_offset] raises out of the method:
    outer [None]. *)
Definition read_clusters (vol : t) (cluster count : Z) : option (Result bytes) * t :=
  match boot_sector vol with
  | None => (Some (err INVALID_PARAMETER), vol)
  | Some b =>
      match partition_offset vol with
      | None => (None, vol)
      | Some p =>
          let offset := p + cluster * NTFSBootSector.sectors_per_cluster b
                                    * NTFSBootSector.bytes_per_sector b in
          let size := count * NTFSBootSector.sectors_per_cluster b
                            * NTFSBootSector.bytes_per_sector b in
          match split_image vol with
          | Some si =>
              let '(data, si') := SplitImageFile.read si offset size in
              let vol' := with_split_image vol si' in
              match data with
              | None | Some [] => (Some (err IO_ERROR), vol')
              | Some d => (Some (ok d), vol')
              end
          | None => (Some (err IO_ERROR), vol)
          end
      end
  end.

(** [read_mft_entry(entry_number)]; [None] when the attribute loop of the
    record decoder uses up [fuel]. *)
Definition read_mft_entry (fuel : nat) (vol : t) (entry_number : Z)
  : option (Result MFTEntry.t * t) :=
  match mft_cache vol !! entry_number with
  | Some e => Some (ok e, vol)
  | None =>
      match boot_sector vol with
      | None => Some (err INVALID_PARAMETER, vol)
      | Some b =>
          match partition_offset vol, split_image vol with
          | Some p, Some si =>
              let mft_offset := p + NTFSBootSector.mft_lcn b
                                    * NTFSBootSector.sectors_per_cluster b
                                    * NTFSBootSector.bytes_per_sector b in
              let entry_size := 1024 in
              let offset := mft_offset + entry_number * entry_size in
              let '(entry_data, si') := SplitImageFile.read si offset entry_size in
              let vol' := with_split_image vol si' in
              match entry_data with
              | None | Some [] => Some (err IO_ERROR, vol')
              | Some d =>
                  match MFTEntry.from_bytes fuel d 0 with
                  | None => None
                  | Some (err e) => Some (err e, vol')
                  | Some (ok entry) =>
                      let entry := MFTEntry.set_reference entry_number entry in
                      Some (ok entry, with_cached vol' entry_number entry)
                  end
              end
          | _, _ => Some (err IO_ERROR, vol)
          end
      end
  end.

(** *** Directory index walks

    The two walks call [read_mft_entry] for the entries they keep, and what
    it returns has no influence on which entry is visited next.  Each walk
    is therefore written in two passes: the pass over the bytes, which
    collects the [(file_ref, filename)] pairs for which the source calls
    [read_mft_entry], and [lookup_entries], which performs these calls in the
    same order. *)

Definition dot : str := [0x2E].
Definition dotdot : str := [0x2E; 0x2E].

(** The entry at [offset] of an $INDEX_ROOT payload: [Some (file_ref,
    filename)] when the source goes on to read the MFT entry. *)
Definition root_entry (data : bytes) (offset : Z) : option (Z * str) :=
  let file_ref := int_from_bytes (slice data (offset + 8) (offset + 16)) in
  if file_ref =? 0 then None else
  let fn_offset := offset + 16 in
  if negb (fn_offset + 66 <=? len data) then None else
  match getitem data (fn_offset + 64) with
  | None => None
  | Some name_length =>
      let name_offset := fn_offset + 66 in
      if negb (name_offset + byteZ name_length * 2 <=? len data) then None else
      match decode_utf16le (slice data name_offset (name_offset + byteZ name_length * 2)) with
      | None => None
      | Some filename =>
          if negb (bool_decide (filename = dot) || bool_decide (filename = dotdot))
             && negb (startswith_dollar filename && (file_ref <=? 11))
          then Some (file_ref, filename)
          else None
      end
  end.

(** State of an entry walk: [offset] and the pairs kept so far. *)
Definition walk_state : Type := Z * list (Z * str).

(** One iteration of [while offset + 8 <= len(data)] of [_list_directory]. *)
Definition root_body (data : bytes) (st : walk_state)
  : step walk_state (list (Z * str)) :=
  let '(offset, kept) := st in
  if negb (offset + 8 <=? len data) then Break kept else
  let entry_length := int_from_bytes (slice data offset (offset + 4)) in
  if entry_length =? 0 then Break kept else
  if offset + entry_length >? len data then Break kept else
  Continue (offset + entry_length,
            match root_entry data offset with
            | Some e => kept ++ [e]
            | None => kept
            end).

(** The $INDEX_ROOT walk over the payload [data] of the attribute; an
    iteration that continues moves [offset] forward inside [data] (lemma
    [root_loop_total]). *)
Definition index_root_entries (data : bytes) : list (Z * str) :=
  if len data <? 16 then [] else
  let node_header_offset := 16 in
  if len data <? node_header_offset + 16 then [] else
  let entries_offset :=
    node_header_offset
    + int_from_bytes (slice data node_header_offset (node_header_offset + 4)) in
  match loop (root_body data) (Datatypes.S (length data)) (entries_offset, []) with
  | Some kept => kept
  | None => []
  end.

(** The four bytes [b'INDX']. *)
Definition INDX_tag : bytes := [x49; x4e; x44; x58].

(** The entry at [offset] of an INDX block, after the tests on [flags] and
    [entry_length]. *)
Definition block_entry (data : bytes) (offset file_ref key_length : Z)
  : option (Z * str) :=
  let fn_offset := offset + 16 in
  if negb (fn_offset + key_length <=? len data) then None else
  match getitem data (fn_offset + 64), getitem data (fn_offset + 65) with
  | Some name_length, Some namespace =>
      let name_offset := fn_offset + 66 in
      if negb (name_offset + byteZ name_length * 2 <=? len data) then None else
      match decode_utf16le (slice data name_offset (name_offset + byteZ name_length * 2)) with
      | None => None
      | Some filename =>
          if negb (startswith_dollar filename && (file_ref <=? 11))
          then Some (file_ref, filename)
          else None
      end
  | _, _ => None
  end.

(** One iteration of [while offset + 16 < len(data)] of
    [_parse_index_allocation]. *)
Definition block_body (data : bytes) (st : walk_state)
  : step walk_state (list (Z * str)) :=
  let '(offset, kept) := st in
  if negb (offset + 16 <? len data) then Break kept else
  let file_ref := int_from_bytes (slice data offset (offset + 8)) in
  let entry_length := int_from_bytes (slice data (offset + 8) (offset + 10)) in
  let key_length := int_from_bytes (slice data (offset + 10) (offset + 12)) in
  match getitem data (offset + 12) with
  | None => Break kept
  | Some flags =>
      if negb (Z.land (byteZ flags) 2 =? 0) then Break kept else
      if entry_length =? 0 then Break kept else
      if offset + entry_length >? len data then Break kept else
      Continue (offset + entry_length,
                match block_entry data offset file_ref key_length with
                | Some e => kept ++ [e]
                | None => kept
                end)
  end.

(** The walk over the bytes [data] read for one data run (lemma
    [block_loop_total] for the budget). *)
Definition index_block_entries (data : bytes) : list (Z * str) :=
  if negb (bool_decide (slice data 0 4 = INDX_tag)) then [] else
  let usa_offset := int_from_bytes (slice data 4 6) in
  let usa_count := int_from_bytes (slice data 6 8) in
  let node_header_offset := 24 in
  let entries_offset :=
    node_header_offset
    + int_from_bytes (slice data node_header_offset (node_header_offset + 4)) in
  match loop (block_body data) (Datatypes.S (length data)) (entries_offset, []) with
  | Some kept => kept
  | None => []
  end.

(** The calls of [read_mft_entry] for the kept entries, in order, each
    followed by [NTFSFile(...)] and [files.append] when the view has a
    name. *)
Fixpoint lookup_entries (fuel : nat) (vol : t) (kept : list (Z * str))
    (files : list NTFSFile.t) : option (list NTFSFile.t * t) :=
  match kept with
  | [] => Some (files, vol)
  | (file_ref, _) :: rest =>
      match read_mft_entry fuel vol (Z.land file_ref 0xFFFFFFFFFFFF) with
      | None => None
      | Some (ok entry, vol') =>
          let ntfs_file := NTFSFile.new entry in
          lookup_entries fuel vol' rest
            (if truthy (NTFSFile.name ntfs_file) then files ++ [ntfs_file] else files)
      | Some (err _, vol') => lookup_entries fuel vol' rest files
      end
  end.

(** [_parse_index_allocation(index_allocation)]: [for i, run in
    enumerate(index_allocation.data_runs)].  An exception out of
    [read_clusters] ends the method with the files found so far. *)
Fixpoint parse_runs (fuel : nat) (vol : t) (runs : list DataRun.t)
    (files : list NTFSFile.t) : option (list NTFSFile.t * t) :=
  match runs with
  | [] => Some (files, vol)
  | run :: rest =>
      match read_clusters vol (DataRun.cluster run) (DataRun.length run) with
      | (None, vol') => Some (files, vol')
      | (Some (err _), vol') => parse_runs fuel vol' rest files
      | (Some (ok data), vol') =>
          match lookup_entries fuel vol' (index_block_entries data) files with
          | None => None
          | Some (files', vol'') => parse_runs fuel vol'' rest files'
          end
      end
  end.

Definition _parse_index_allocation (fuel : nat) (vol : t)
    (index_allocation : MFTAttribute.t) : option (list NTFSFile.t * t) :=
  parse_runs fuel vol (MFTAttribute.data_runs index_allocation) [].

(** The last attribute of the given type: the loop over the attributes
    overwrites [index_root] and [index_allocation] at each match. *)
Definition last_of_type (ty : Z) (attrs : list MFTAttribute.t) : option MFTAttribute.t :=
  List.find (fun attr => MFTAttribute.type_id attr =? ty) (rev attrs).

(** [_list_directory(dir_entry)].  The two early [return files] of the
    $INDEX_ROOT part, for a payload shorter than its headers, leave the
    method before $INDEX_ALLOCATION is looked at. *)
Definition _list_directory (fuel : nat) (vol : t) (dir_entry : MFTEntry.t)
  : option (list NTFSFile.t * t) :=
  let index_root := last_of_type 0x90 (MFTEntry.attributes dir_entry) in
  let index_allocation := last_of_type 0xA0 (MFTEntry.attributes dir_entry) in
  let root_part :=
    match index_root with
    | Some a =>
        if MFTAttribute.resident a then
          if len (MFTAttribute.data a) <? 32 then Some (Some ([], vol), true)
          else Some (lookup_entries fuel vol (index_root_entries (MFTAttribute.data a)) [],
                     false)
        else None
    | None => None
    end in
  match root_part with
  | Some (r, true) => r
  | Some (None, false) => None
  | Some (Some (files, vol'), false) =>
      match index_allocation with
      | Some a =>
          if negb (MFTAttribute.resident a) then
            match _parse_index_allocation fuel vol' a with
            | None => None
            | Some (allocation_files, vol'') => Some (files ++ allocation_files, vol'')
            end
          else Some (files, vol')
      | None => Some (files, vol')
      end
  | None =>
      match index_allocation with
      | Some a =>
          if negb (MFTAttribute.resident a) then _parse_index_allocation fuel vol a
          else Some ([], vol)
      | None => Some ([], vol)
      end
  end.

(** [list_deleted_files()]: [for mft_ref in range(0, 100000)], with
    [deleted] the list [deleted_files] built so far. *)
Fixpoint scan_deleted (fuel : nat) (vol : t) (range : list Z)
    (deleted : list NTFSFile.t) : option (list NTFSFile.t * t) :=
  match range with
  | [] => Some (deleted, vol)
  | mft_ref :: rest =>
      match read_mft_entry fuel vol mft_ref with
      | None => None
      | Some (ok entry, vol') =>
          scan_deleted fuel vol' rest
            (if negb (MFTEntry.is_in_use entry) && MFTEntry.has_file_name entry
             then deleted ++ [NTFSFile.new entry] else deleted)
      | Some (err _, vol') => scan_deleted fuel vol' rest deleted
      end
  end.

Definition list_deleted_files (fuel : nat) (vol : t)
  : option (Result (list NTFSFile.t) * t) :=
  match scan_deleted fuel vol (range 0 100000) [] with
  | None => None
  | Some (deleted_files, vol') => Some (ok deleted_files, vol')
  end.

(** *** Paths *)

Definition slash : Z := 0x2F.

(** [[part for part in path.strip('/').split('/') if part]] *)
Definition path_parts (path : str) : list str :=
  List.filter nonempty (str_split slash (str_strip slash path)).

Section Paths.

(** [str.lower], through which the names are compared. *)
Variable lower : str -> str.

(** [for file in files: if file.name.lower() == part.lower()]: the
    reference of the first file whose name matches, [Some None] when there
    is none; outer [None] when [file.name] is [None] and [.lower()]
    raises. *)
Fixpoint find_component (files : list NTFSFile.t) (part : str) : option (option Z) :=
  match files with
  | [] => Some None
  | file :: rest =>
      match NTFSFile.name file with
      | None => None
      | Some name =>
          if bool_decide (lower name = lower part)
          then Some (Some (MFTEntry.reference (NTFSFile.mft_entry file)))
          else find_component rest part
      end
  end.

(** [for part in path_parts] of [get_file_by_path], followed by the final
    [read_mft_entry(current_entry_num)].  In the result, [None] is an
    exception that leaves the method. *)
Fixpoint resolve (fuel : nat) (vol : t) (current_entry_num : Z) (path_parts : list str)
  : option (option (Result MFTEntry.t) * t) :=
  match path_parts with
  | [] =>
      match read_mft_entry fuel vol current_entry_num with
      | None => None
      | Some (r, vol') => Some (Some r, vol')
      end
  | part :: rest =>
      match read_mft_entry fuel vol current_entry_num with
      | None => None
      | Some (err e, vol') => Some (Some (err e), vol')
      | Some (ok dir_entry, vol') =>
          if negb (MFTEntry.is_directory dir_entry)
          then Some (Some (err NOT_FOUND), vol') else
          match _list_directory fuel vol' dir_entry with
          | None => None
          | Some (files, vol'') =>
              match find_component files part with
              | None => Some (None, vol'')
              | Some None => Some (Some (err NOT_FOUND), vol'')
              | Some (Some n) => resolve fuel vol'' n rest
              end
          end
      end
  end.

(** [get_file_by_path(path)] *)
Definition get_file_by_path (fuel : nat) (vol : t) (path : str)
  : option (option (Result MFTEntry.t) * t) :=
  match boot_sector vol with
  | None => Some (Some (err INVALID_PARAMETER), vol)
  | Some _ =>
      if bool_decide (path = [slash]) || bool_decide (path = dot)
      then resolve fuel vol 5 []
      else resolve fuel vol 5 (path_parts path)
  end.

(** [list_files(path)]: an exception out of [get_file_by_path] is caught
    and turned into IO_ERROR. *)
Definition list_files (fuel : nat) (vol : t) (path : str)
  : option (Result (list NTFSFile.t) * t) :=
  if bool_decide (path = [slash]) then
    match read_mft_entry fuel vol 5 with
    | None => None
    | Some (err e, vol') => Some (err e, vol')
    | Some (ok root, vol') =>
        match _list_directory fuel vol' root with
        | None => None
        | Some (files, vol'') => Some (ok files, vol'')
        end
    end
  else
    match get_file_by_path fuel vol path with
    | None => None
    | Some (None, vol') => Some (err IO_ERROR, vol')
    | Some (Some (err e), vol') => Some (err e, vol')
    | Some (Some (ok dir_entry), vol') =>
        if negb (MFTEntry.is_directory dir_entry) then Some (err NOT_FOUND, vol') else
        match _list_directory fuel vol' dir_entry with
        | None => None
        | Some (files, vol'') => Some (ok files, vol'')
        end
    end.

End Paths.

End NTFSVolume.

(** * Specification-side definitions *)

(** ** Data runs as they lie in a non-resident attribute *)










(** ** Building test inputs *)

Definition byte_of_Z (z : Z) : byte :=
  match Byte.of_N (Z.to_N (z mod 256)) with
  | Some b => b
  | None => x00
  end.

(** The [w] little-endian bytes of [z]. *)
Fixpoint le (w : nat) (z : Z) : bytes :=
  match w with
  | O => []
  | S w' => byte_of_Z z :: le w' (z / 256)
  end.

Definition zeros (n : nat) : bytes := repeat x00 n.

(** [d] with the bytes from [off] on replaced by [patch]. *)
Definition poke (off : nat) (patch : bytes) (d : bytes) : bytes :=
  take off d ++ patch ++ drop (off + length patch) d.

(** UTF-16LE bytes of a string of code points below 0x10000. *)
Definition utf16 (s : str) : bytes := flat_map (le 2) s.

(** A non-resident attribute record of 64 header bytes with [runs_offset]
    64 and [data_size] 57000, followed by [runs]. *)
Definition nonresident_attr (runs : bytes) : bytes :=
  poke 48 (le 8 57000) (poke 32 (le 2 64) (poke 8 [x01] (poke 0 (le 4 0x80) (zeros 64))))
  ++ runs.





(** ** ntfs/attributes.py *)

(** [s.encode('utf-16le')]: a code point in the surrogate range raises. *)
Definition encode_code_point (c : Z) : option bytes :=
  if (c <? 0) || (0x10FFFF <? c) then None
  else if (0xD800 <=? c) && (c <=? 0xDFFF) then None
  else if c <? 0x10000 then Some (le 2 c)
  else
    let v := c - 0x10000 in
    Some (le 2 (0xD800 + Z.shiftr v 10) ++ le 2 (0xDC00 + Z.land v 0x3FF)).

Fixpoint encode_utf16le (s : str) : option bytes :=
  match s with
  | [] => Some []
  | c :: rest =>
      unit ← encode_code_point c;
      units ← encode_utf16le rest;
      Some (unit ++ units)
  end.

(** [struct.pack_into(fmt, attr, off, v)] for the little-endian unsigned
    format of [w] bytes: raises when [v] does not fit or the buffer is too
    small. *)
Definition pack_into (w : nat) (attr : bytes) (off : nat) (v : Z) : option bytes :=
  if (0 <=? v) && (v <? 2 ^ (8 * Z.of_nat w)) && (Z.of_nat (off + w) <=? len attr)
  then Some (poke off (le w v) attr)
  else None.

(** [attr[i] = v] on a bytearray: raises when [v] is not in [range(256)]
    or [i] is out of range. *)
Definition setitem (attr : bytes) (i : nat) (v : Z) : option bytes :=
  if (0 <=? v) && (v <? 256) && (Z.of_nat i <? len attr)
  then Some (<[i := byte_of_Z v]> attr)
  else None.

(** [attr[a:b] = patch] on a bytearray, for bounds that are not
    negative. *)
Definition set_slice (attr : bytes) (a b : Z) (patch : bytes) : bytes :=
  let a' := clamp attr a in
  let b' := Z.max a' (clamp attr b) in
  take (Z.to_nat a') attr ++ patch ++ drop (Z.to_nat b') attr.

Module Attributes.

(** [create_standard_information_attr()] *)
Definition create_standard_information_attr : option bytes :=
  let attr := zeros 96 in
  attr ← pack_into 4 attr 0 0x10;
  attr ← pack_into 4 attr 4 96;
  attr ← setitem attr 8 0;
  attr ← setitem attr 9 0;
  attr ← pack_into 2 attr 10 0;
  attr ← pack_into 2 attr 12 0;
  attr ← pack_into 2 attr 14 0;
  attr ← pack_into 4 attr 16 48;
  attr ← pack_into 2 attr 20 24;
  Some attr.

(** [create_file_name_attr(name, parent_ref)] *)
Definition create_file_name_attr (name : str) (parent_ref : Z) : option bytes :=
  name_bytes ← encode_utf16le name;
  let total_size := 88 + len name_bytes in
  let attr := zeros (Z.to_nat total_size) in
  attr ← pack_into 4 attr 0 0x30;
  attr ← pack_into 4 attr 4 total_size;
  attr ← setitem attr 8 0;
  attr ← setitem attr 9 0;
  attr ← pack_into 2 attr 10 0;
  attr ← pack_into 2 attr 12 0;
  attr ← pack_into 2 attr 14 0;
  attr ← pack_into 4 attr 16 (total_size - 24);
  attr ← pack_into 2 attr 20 24;
  attr ← pack_into 8 attr 24 parent_ref;
  attr ← setitem attr 66 (len name);
  attr ← setitem attr 67 1;
  Some (set_slice attr 68 (68 + len name_bytes) name_bytes).

End Attributes.

(** ** MFT records *)

(** A 1024-byte record: FILE tag, USA offset 48 and count 3, update
    sequence number 1 at offset 48, sequence 1, first attribute at offset
    56, and the given [flags], [used_size] and [allocated_size]; the
    attribute records [attrs] are written from offset 56. *)
Definition mft_record (flags used_size allocated_size : Z) (attrs : bytes) : bytes :=
  poke 56 attrs
    (poke 48 (le 2 1)
       (poke 28 (le 4 allocated_size)
          (poke 24 (le 4 used_size)
             (poke 22 (le 2 flags)
                (poke 20 (le 2 56)
                   (poke 16 (le 2 1)
                      (poke 6 (le 2 3)
                         (poke 4 (le 2 48)
                            (poke 0 MFTEntry.FILE_tag (zeros 1024)))))))))).

Definition sentinel : bytes := le 4 0xFFFFFFFF.

(** A resident attribute record: 24 header bytes and the content. *)
Definition resident_attr (ty : Z) (content : bytes) : bytes :=
  le 4 ty ++ le 4 (24 + len content) ++ [x00; x00] ++ le 2 0 ++ le 2 0 ++ le 2 0
  ++ le 4 (len content) ++ le 2 24 ++ [x00; x00] ++ content.

(** The content of a $FILE_NAME attribute: 64 bytes, the name length, the
    namespace and the name. *)
Definition file_name_content (namespace : Z) (name : str) : bytes :=
  zeros 64 ++ [byte_of_Z (len name); byte_of_Z namespace] ++ utf16 name.

(** "$MFT" *)
Definition dollar_MFT : str := [0x24; 0x4D; 0x46; 0x54].

(** A record whose first attribute header has type 0x10 and length 0. *)
Definition looping_record : bytes :=
  mft_record 1 1024 1024 (le 4 0x10 ++ le 4 0).

(** A record with [used_size] 2048 and [allocated_size] 512 whose
    attribute list is empty. *)
Definition unordered_record : bytes :=
  mft_record 1 2048 512 sentinel.

(** A record that is not in use and carries the name "$MFT".  Its update
    sequence number is 1, and the last two bytes of its first sector are
    0xAA 0xAA. *)
Definition deleted_MFT_record : bytes :=
  poke 510 [xaa; xaa]
    (mft_record 0 1024 1024
       (resident_attr 0x30 (file_name_content 3 dollar_MFT) ++ sentinel)).

(** ** Images *)

(** An MBR whose first partition entry has the given type and first LBA 1. *)
Definition mbr_sector (partition_type : Z) : bytes :=
  poke (0x1BE + 8) (le 4 1) (poke (0x1BE + 4) [byte_of_Z partition_type] (zeros 512)).

(** A boot sector with the given four bytes at offset 3, 512 bytes per
    sector, one sector per cluster and the MFT at cluster 1. *)
Definition boot (tag : bytes) : bytes :=
  poke 0x30 (le 8 1) (poke 0x28 (le 8 4) (poke 0x0D [x01] (poke 0x0B (le 2 512)
    (poke 3 tag (zeros 512))))).

(** One segment: MBR, boot sector at offset 512, MFT at offset 1024 with
    the record [deleted_MFT_record] at index 0. *)
Definition test_image : list bytes :=
  [mbr_sector 0x07 ++ boot NTFSBootSector.NTFS_tag ++ deleted_MFT_record].

(** The same image with partition type 0x0B. *)
Definition no_ntfs_image : list bytes :=
  [mbr_sector 0x0B ++ boot NTFSBootSector.NTFS_tag ++ deleted_MFT_record].

(** The same image with the tag "FAT3" in the boot sector. *)
Definition bad_tag_image : list bytes :=
  [mbr_sector 0x07 ++ boot [x46; x41; x54; x33] ++ deleted_MFT_record].

Definition test_volume : NTFSVolume.t :=
  snd (NTFSVolume.mount (NTFSVolume.new test_image)).

(** ** Index entries in the layout of the NTFS format *)

(** An index entry: file reference (u64 at +0), entry length (u16 at +8),
    key length (u16 at +10), flags (at +12), then the $FILE_NAME key, padded
    to a multiple of 8 bytes. *)
Definition index_entry (file_ref : Z) (name : str) : bytes :=
  let key := file_name_content 1 name in
  let padding := Z.to_nat ((8 - (16 + len key) mod 8) mod 8) in
  le 8 file_ref ++ le 2 (16 + len key + Z.of_nat padding) ++ le 2 (len key)
  ++ [x00; x00; x00; x00] ++ key ++ zeros padding.

(** The entry that ends a node: no key, flags 0x02. *)
Definition last_entry : bytes :=
  le 8 0 ++ le 2 16 ++ le 2 0 ++ [x02; x00; x00; x00].

(** "a.txt" *)
Definition a_txt : str := [0x61; 0x2E; 0x74; 0x78; 0x74].

(** MFT index 64 with sequence number 1. *)
Definition ref_64 : Z := 64 + 1 * 2 ^ 48.

Definition one_file_entries : bytes := index_entry ref_64 a_txt ++ last_entry.

(** An $INDEX_ROOT payload: index root header, node header with the
    entries at +16, and the entries. *)
Definition index_root_payload (entries : bytes) : bytes :=
  (le 4 0x30 ++ le 4 1 ++ le 4 4096 ++ [x01; x00; x00; x00])
  ++ (le 4 16 ++ le 4 (16 + len entries) ++ le 4 (16 + len entries) ++ [x00; x00; x00; x00])
  ++ entries.

(** An INDX block of 512 bytes: INDX header of 24 bytes, node header with
    the entries at +40, and the entries at offset 64. *)
Definition index_block (entries : bytes) : bytes :=
  poke 64 entries
    (poke 24 (le 4 40 ++ le 4 (40 + len entries) ++ le 4 488)
       (poke 4 (le 2 40 ++ le 2 2) (poke 0 NTFSVolume.INDX_tag (zeros 512)))).

(** ** Segments *)

(** Ten bytes 0..9 in segments of 4, 4 and 2 bytes. *)
Definition three_segments : list bytes :=
  [ [x00; x01; x02; x03]; [x04; x05; x06; x07]; [x08; x09] ].

(** Eight bytes in segments of 2, 5 and 1 bytes. *)
Definition uneven_segments : list bytes :=
  [ [x00; x01]; [x02; x03; x04; x05; x06]; [x07] ].

Definition opened (segments : list bytes) : SplitImageFile.t :=
  snd (SplitImageFile.open (SplitImageFile.new segments)).

(** The sum of all segment lengths. *)
Definition total_size (s : SplitImageFile.t) : Z :=
  fold_right Z.add 0 (map len (SplitImageFile.segments s)).

(** ** File views *)

(** A record in use whose only attribute is the non-resident unnamed $DATA
    of [nonresident_attr]: declared size 57000, no runs. *)
Definition no_runs_file : NTFSFile.t :=
  NTFSFile.new
    (MFTEntry.mk 64 1 0 1 1024 1024
       [MFTAttribute.from_raw_data 0x80 None false (nonresident_attr [x00])]).

(** ** Mounting *)

(** The MBR as [mount] reads it. *)
Definition mbr_of (vol : NTFSVolume.t) : option bytes * SplitImageFile.t :=
  SplitImageFile.read (snd (SplitImageFile.open (SplitImageFile.new (NTFSVolume.image vol))))
                      0 512.

(** The boot sector as [mount] reads it for the partition offset [p]. *)
Definition boot_of (vol : NTFSVolume.t) (p : Z) : option bytes * SplitImageFile.t :=
  SplitImageFile.read (snd (mbr_of vol)) p 512.

(** The partition table holds no entry of type 0x07. *)
Definition no_ntfs_entry (mbr_data : bytes) : Prop :=
  forall i, In i [0; 1; 2; 3] -> getitem mbr_data (0x1BE + i * 16 + 4) <> Some x07.

(** ** Recovery scan *)

(** The results of [read_mft_entry] for the record numbers of [range], each
    read made on the volume as the reads before it left it. *)
Fixpoint read_all (fuel : nat) (vol : NTFSVolume.t) (range : list Z)
  : option (list (Result MFTEntry.t) * NTFSVolume.t) :=
  match range with
  | [] => Some ([], vol)
  | mft_ref :: rest =>
      match NTFSVolume.read_mft_entry fuel vol mft_ref with
      | None => None
      | Some (r, vol') =>
          match read_all fuel vol' rest with
          | None => None
          | Some (rs, vol'') => Some (r :: rs, vol'')
          end
      end
  end.

(** The file view the scan yields for a read result, if any. *)
Definition deleted_view (r : Result MFTEntry.t) : option NTFSFile.t :=
  match r with
  | ok entry =>
      if negb (MFTEntry.is_in_use entry) && MFTEntry.has_file_name entry
      then Some (NTFSFile.new entry) else None
  | err _ => None
  end.

(** ** Update sequence array *)

(** The test of the fix-up of an NTFS multi-sector structure: with
    [usa_offset] the u16 at +4 and [usa_count] the u16 at +6, each of the
    [usa_count - 1] sectors of 512 bytes ends with the update sequence
    number, the two bytes at [usa_offset]. *)
Definition usa_matches (data : bytes) : bool :=
  let usa_offset := int_from_bytes (slice data 4 6) in
  let usa_count := int_from_bytes (slice data 6 8) in
  forallb (fun i => bool_decide (slice data (512 * (i + 1) - 2) (512 * (i + 1))
                                 = slice data usa_offset (usa_offset + 2)))
          (range 0 (usa_count - 1)).

(** The content of a resident attribute is a slice of the bytes [d]. *)
Definition verbatim (d : bytes) (a : MFTAttribute.t) : Prop :=
  MFTAttribute.resident a = true -> exists i j, MFTAttribute.data a = slice d i j.

(** The name of a kept index entry is decoded from a slice of the bytes
    [d]. *)
Definition name_from (d : bytes) (e : Z * str) : Prop :=
  exists i j, decode_utf16le (slice d i j) = Some e.2.

(** An INDX block whose first sector ends with 0xAA 0xAA, with update
    sequence number 0. *)
Definition mismatched_block : bytes :=
  poke 510 [xaa; xaa] (index_block one_file_entries).

(** ** Reading the runs of a stream *)

Section RunBuffers.

Context {V : Type}.
Variable read_clusters : V -> Z -> Z -> option (Result bytes) * V.

(** The buffers [read_clusters] returns for the runs, in order, when every
    read succeeds. *)
Fixpoint run_buffers (vol : V) (runs : list DataRun.t) : option (list bytes) * V :=
  match runs with
  | [] => (Some [], vol)
  | run :: rest =>
      match read_clusters vol (DataRun.cluster run) (DataRun.length run) with
      | (Some (ok buffer), vol') =>
          match run_buffers vol' rest with
          | (Some buffers, vol'') => (Some (buffer :: buffers), vol'')
          | (None, vol'') => (None, vol'')
          end
      | (_, vol') => (None, vol')
      end
  end.

End RunBuffers.

(** A record in use whose unnamed $DATA is non-resident with declared size
    100 and one run: cluster 0, one cluster. *)
Definition one_run_file : NTFSFile.t :=
  NTFSFile.new
    (MFTEntry.mk 64 1 0 1 1024 1024
       [MFTAttribute.mk 0x80 None false [] [DataRun.mk 0 1] 100]).

(** The attribute decoded over and over from [looping_record]. *)
Definition looping_attr : MFTAttribute.t := MFTAttribute.mk 0x10 None true [] [] 0.

(** ** The system-file filter *)

(** An index entry the filter lets through: not both a name that begins
    with '$' and a file reference of at most 11. *)
Definition not_system (e : Z * str) : Prop :=
  ~ (startswith_dollar e.2 = true /\ e.1 <= 11).


(** ** The test volume, field by field *)

(** The boot sector [mount] decodes from [test_image]. *)
Definition test_boot : NTFSBootSector.t :=
  NTFSBootSector.mk 512 1 1 0 0 (zeros 8) 4.

(** The segment reader over [test_image] with its one file at position
    [p]. *)
Definition test_reader (p : Z) : SplitImageFile.t :=
  SplitImageFile.mk test_image [SplitImageFile.mk_handle (List.hd [] test_image) p].

(** The record [MFTEntry.from_bytes] decodes from [deleted_MFT_record]. *)
Definition deleted_MFT_entry : MFTEntry.t :=
  MFTEntry.mk 0 1 0 0 1024 1024
    [MFTAttribute.mk 0x30 None true (file_name_content 3 dollar_MFT) [] 74].

(** ** Invariants of the segment reader and of the volume *)

(** The file objects are those of the segments on disk, in order: what
    [open] sets up on a new reader. *)
Definition files_of_segments (s : SplitImageFile.t) : Prop :=
  map SplitImageFile.content (SplitImageFile.files s) = SplitImageFile.segments s.
(** What an iteration of the loop over the following files keeps: the
    bytes gathered and the bytes still wanted add up to the request, and the
    file objects keep their contents. *)
Definition span_inv (size : Z) (contents : list bytes) (st : SplitImageFile.span_state)
  : Prop :=
  let '(_, data, remaining, fs) := st in
  len data + remaining = size /\ 0 <= remaining /\
  map SplitImageFile.content fs = contents.

(** Every cached record is filed under its own reference. *)
Definition cache_inv (vol : NTFSVolume.t) : Prop :=
  forall n e, NTFSVolume.mft_cache vol !! n = Some e -> MFTEntry.reference e = n.

(** The type byte of partition entry [i] of an MBR. *)
Definition partition_type (mbr_data : bytes) (i : Z) : option byte :=
  getitem mbr_data (0x1BE + i * 16 + 4).

(** 512 times the first LBA of partition entry [i]. *)
Definition partition_start (mbr_data : bytes) (i : Z) : Z :=
  int_from_bytes (slice mbr_data (0x1BE + i * 16 + 8) (0x1BE + i * 16 + 12)) * 512.

(** An MBR whose second partition entry has type 0x07 and first LBA 2048,
    after a first entry of type 0x0B. *)
Definition second_entry_mbr : bytes :=
  poke (0x1BE + 16 + 8) (le 4 2048)
    (poke (0x1BE + 16 + 4) [x07] (poke (0x1BE + 4) [x0b] (zeros 512))).

(** ** Invariants of the decoding loops *)

(** What the data-run loop from [start] keeps: each run appended took at
    least two bytes of the attribute, and has a count that is not
    negative. *)
Definition run_inv (data : bytes) (start : Z) (st : MFTAttribute.run_state) : Prop :=
  let '(current_offset, _, runs) := st in
  start + 2 * len runs <= current_offset /\
  (runs = [] \/ current_offset <= len data) /\
  Forall (fun r => 0 <= DataRun.length r) runs.

(** An attribute header at [o] that is not the sentinel and declares the
    length 0. *)
Definition zero_length_header (data : bytes) (o : Z) : Prop :=
  0 <= o /\ o + 8 < len data /\
  int_from_bytes (slice data (o + 4) (o + 8)) = 0 /\
  int_from_bytes (slice data o (o + 4)) <> 0xFFFFFFFF.

(** ** File views *)

(** A record whose only unnamed $DATA attribute is [a], between the
    attributes [before] and [after]. *)
Definition only_unnamed_data (e : MFTEntry.t) (before : list MFTAttribute.t)
    (a : MFTAttribute.t) (after : list MFTAttribute.t) : Prop :=
  MFTEntry.attributes e = before ++ a :: after /\
  MFTAttribute.type_id a = 0x80 /\ truthy (MFTAttribute.name a) = false /\
  Forall (fun x => MFTAttribute.type_id x <> 0x80) (before ++ after).

(** A record that is not a directory, with the resident unnamed $DATA
    "hello" after a $STANDARD_INFORMATION attribute of 48 zero bytes. *)
Definition hello_entry : MFTEntry.t :=
  MFTEntry.mk 64 1 0 1 1024 1024
    [MFTAttribute.mk 0x10 None true (zeros 48) [] 48;
     MFTAttribute.mk 0x80 None true [x68; x65; x6c; x6c; x6f] [] 5].

(** A record in use whose unnamed $DATA is non-resident with declared size
    700 and two runs: cluster 0, one cluster, and cluster 100, one cluster,
    the second one past the end of the test image. *)
Definition two_run_file : NTFSFile.t :=
  NTFSFile.new
    (MFTEntry.mk 65 1 0 1 1024 1024
       [MFTAttribute.mk 0x80 None false [] [DataRun.mk 0 1; DataRun.mk 100 1] 700]).

(** A listed file: a view with a name that is not empty, of a record whose
    reference is a 48-bit MFT index. *)
Definition listed (f : NTFSFile.t) : Prop :=
  truthy (NTFSFile.name f) = true /\
  0 <= MFTEntry.reference (NTFSFile.mft_entry f) < 2 ^ 48.

(** An entry the $INDEX_ROOT walk may keep. *)
Definition root_kept (e : Z * str) : Prop :=
  0 < e.1 < 2 ^ 64 /\ e.2 <> NTFSVolume.dot /\ e.2 <> NTFSVolume.dotdot.

(** An $INDEX_ROOT payload with entries in the layout its walk reads: entry
    length (u32 at +0), file reference (u64 at +8), $FILE_NAME key at +16.
    One entry for ".", file reference 5, then one for "a.txt", file
    reference 2^48 (MFT index 0, sequence number 1), each of 96 bytes, then
    an entry of length 0. *)
Definition root_walk_payload : bytes :=
  let entry (r : Z) (name : str) :=
    poke 16 (file_name_content 1 name) (le 4 96 ++ le 4 0 ++ le 8 r ++ zeros 80) in
  (le 4 0x30 ++ le 4 1 ++ le 4 4096 ++ [x01; x00; x00; x00])
  ++ (le 4 16 ++ le 4 224 ++ le 4 224 ++ [x00; x00; x00; x00])
  ++ entry 5 NTFSVolume.dot ++ entry (2 ^ 48) a_txt ++ zeros 16.

(** A directory record whose only attribute is a resident $INDEX_ROOT with
    the payload [root_walk_payload]. *)
Definition root_walk_dir : MFTEntry.t :=
  MFTEntry.mk 5 1 0 3 1024 1024
    [MFTAttribute.mk 0x90 None true root_walk_payload [] 240].

(** ** Decoded records *)

(** What [MFTAttribute.from_raw_data] establishes for the attribute it
    returns. *)
Definition decoded_attribute (a : MFTAttribute.t) : Prop :=
  if MFTAttribute.resident a
  then MFTAttribute.data_runs a = [] /\
       MFTAttribute.data_size a = len (MFTAttribute.data a)
  else MFTAttribute.data a = [] /\
       0 <= MFTAttribute.data_size a < 2 ^ 64 /\
       Forall (fun r => 0 <= DataRun.length r) (MFTAttribute.data_runs a).

(** What [MFTEntry.from_bytes] establishes for the record it returns. *)
Definition decoded_record (e : MFTEntry.t) : Prop :=
  MFTEntry.reference e = 0 /\
  0 <= MFTEntry.sequence e < 2 ^ 16 /\
  0 <= MFTEntry.flags e < 2 ^ 16 /\
  0 <= MFTEntry.used_size e < 2 ^ 32 /\
  0 <= MFTEntry.allocated_size e < 2 ^ 32 /\
  0 <= MFTEntry.base_reference e < 2 ^ 64 /\
  Forall decoded_attribute (MFTEntry.attributes e).

(** The record [e] with the attribute list [attrs]. *)
Definition with_attributes (e : MFTEntry.t) (attrs : list MFTAttribute.t) : MFTEntry.t :=
  MFTEntry.mk (MFTEntry.reference e) (MFTEntry.sequence e) (MFTEntry.base_reference e)
    (MFTEntry.flags e) (MFTEntry.used_size e) (MFTEntry.allocated_size e) attrs.

(** A second $FILE_NAME attribute, for the name "a.txt". *)
Definition a_txt_name_attr : MFTAttribute.t :=
  MFTAttribute.mk 0x30 None true (file_name_content 1 a_txt) [] 76.

(** ** Recovery listing *)

(** The references of the views of a list, in order. *)
Definition references (files : list NTFSFile.t) : list Z :=
  map (fun f => MFTEntry.reference (NTFSFile.mft_entry f)) files.

(** A view the recovery scan may list: of a record that is not in use and
    has a $FILE_NAME attribute. *)
Definition recoverable (f : NTFSFile.t) : Prop :=
  MFTEntry.is_in_use (NTFSFile.mft_entry f) = false /\
  MFTEntry.has_file_name (NTFSFile.mft_entry f) = true.

(** ** Paths *)

(** A path component: not empty, and without a slash. *)
Definition component (part : str) : Prop :=
  part <> [] /\ ~ In NTFSVolume.slash part.

(** The path "/p1/p2/...": each component after a slash. *)
Definition join_path (parts : list str) : str :=
  concat (map (fun part => NTFSVolume.slash :: part) parts).

(** Lower-casing of the letters A-Z, the other characters kept: one
    function to compare names through. *)
Definition ascii_lower (s : str) : str :=
  map (fun c => if (0x41 <=? c) && (c <=? 0x5A) then c + 32 else c) s.

(** The path "/$MFT". *)
Definition dollar_MFT_path : str := NTFSVolume.slash :: dollar_MFT.

(** The test volume with two records in its cache: at 5 the directory
    [root_walk_dir], whose index names the record 0, and at 0 the record
    decoded from [deleted_MFT_record]. *)
Definition cached_volume : NTFSVolume.t :=
  NTFSVolume.with_cached
    (NTFSVolume.with_cached test_volume 5 root_walk_dir)
    0 (MFTEntry.set_reference 0 deleted_MFT_entry).

(** ** Sector scan *)

(** The sector of the image [c] at [offset] exists and has the bytes
    [b'NTFS'] at 3..6. *)
Definition tagged_sector (c : bytes) (offset : Z) : bool :=
  (offset <? len c) && bool_decide (slice c (offset + 3) (offset + 7) = NTFSBootSector.NTFS_tag).

(** ** System files in an index *)

(** An INDX block with the entry of "$MFT" as the root directory of a
    volume stores it, in the layout of the format: file reference
    0x0001000000000000, MFT index 0 with sequence number 1. *)
Definition system_block : bytes :=
  index_block (index_entry (2 ^ 48) dollar_MFT ++ last_entry).

(** The same block with sequence number 0 in the file reference. *)
Definition system_block_sequence_0 : bytes :=
  index_block (index_entry 0 dollar_MFT ++ last_entry).

(** An $INDEX_ROOT payload with the same entry in the layout its walk
    reads: entry length 96 (u32 at +0), file reference 2^48 (u64 at +8),
    $FILE_NAME key at +16; then an entry of length 0. *)
Definition system_root_payload : bytes :=
  (le 4 0x30 ++ le 4 1 ++ le 4 4096 ++ [x01; x00; x00; x00])
  ++ (le 4 16 ++ le 4 128 ++ le 4 128 ++ [x00; x00; x00; x00])
  ++ poke 16 (file_name_content 3 dollar_MFT)
       (le 4 96 ++ le 4 0 ++ le 8 (2 ^ 48) ++ zeros 80)
  ++ zeros 16.

(** A directory record whose only attribute is a resident $INDEX_ROOT with
    the payload [system_root_payload]. *)
Definition system_root_dir : MFTEntry.t :=
  MFTEntry.mk 5 1 0 3 1024 1024
    [MFTAttribute.mk 0x90 None true system_root_payload [] 144].

(** ** A volume with a record that does not decode *)

(** One segment: MBR, boot sector at offset 512, MFT at offset 1024 with
    [looping_record] at index 0 and [deleted_MFT_record] at index 1. *)
Definition looping_image : list bytes :=
  [mbr_sector 0x07 ++ boot NTFSBootSector.NTFS_tag ++ looping_record ++ deleted_MFT_record].

Definition looping_volume : NTFSVolume.t :=
  snd (NTFSVolume.mount (NTFSVolume.new looping_image)).

(** The segment reader over [looping_image] with its one file at position
    [p]. *)
Definition looping_reader (p : Z) : SplitImageFile.t :=
  SplitImageFile.mk looping_image [SplitImageFile.mk_handle (List.hd [] looping_image) p].

(** * Proof tools *)



(** Case analysis on the tests of a loop body, in a hypothesis that says
    how the body ended. *)
Ltac break_match H :=
  repeat match type of H with
  | context [match ?c with _ => _ end] =>
      let E := fresh "E" in destruct c eqn:E; try discriminate H
  end.

(** * Lemmas and theorems *)

(** ** Python values *)

Lemma len_app {A} (a b : list A) : len (a ++ b) = len a + len b.
Proof. unfold len. rewrite length_app. lia. Qed.

Lemma len_nonneg {A} (a : list A) : 0 <= len a.
Proof. unfold len. lia. Qed.

Lemma len_cons {A} (x : A) (a : list A) : len (x :: a) = 1 + len a.
Proof. unfold len. simpl. lia. Qed.

Lemma slice_inside {A} (a b c : list A) :
  slice (a ++ b ++ c) (len a) (len a + len b) = b.
Proof.
  unfold slice, clamp.
  pose proof (len_nonneg a). pose proof (len_nonneg b). pose proof (len_nonneg c).
  rewrite !len_app.
  destruct (Z.ltb_spec (len a) 0); [lia|].
  destruct (Z.ltb_spec (len a + len b) 0); [lia|].
  rewrite !Z.min_l by lia.
  replace (Z.to_nat (len a)) with (length a) by (unfold len; lia).
  replace (Z.to_nat (len a + len b - len a)) with (length b) by (unfold len; lia).
  rewrite drop_app_length. apply take_app_length.
Qed.



Lemma byteZ_range b : 0 <= byteZ b < 256.
Proof. unfold byteZ. pose proof (Byte.to_N_bounded b). lia. Qed.


Lemma pow256 n : 0 <= n -> 2 ^ (8 * (n + 1)) = 256 * 2 ^ (8 * n).
Proof.
  intros. replace (8 * (n + 1)) with (8 + 8 * n) by lia.
  rewrite Z.pow_add_r by lia. reflexivity.
Qed.


Lemma int_from_bytes_range bs : 0 <= int_from_bytes bs < 2 ^ (8 * len bs).
Proof.
  induction bs as [|b bs IH].
  - simpl. change (len []) with 0. simpl. lia.
  - cbn [int_from_bytes]. rewrite len_cons.
    replace (1 + len bs) with (len bs + 1) by lia.
    rewrite pow256 by apply len_nonneg.
    pose proof (byteZ_range b). lia.
Qed.




Lemma loop_total {S A} (body : S -> step S A) (measure : S -> nat) :
  (forall s s', body s = Continue s' -> (measure s' < measure s)%nat) ->
  forall n s, (measure s < n)%nat -> is_Some (loop body n s).
Proof.
  intros Hdec. induction n as [|n IH]; intros s Hlt; [lia|].
  simpl. destruct (body s) as [s'|a] eqn:E; [|eauto].
  apply IH. specialize (Hdec _ _ E). lia.
Qed.





Lemma slice_empty {A} (d : list A) a : slice d a a = [].
Proof. unfold slice. rewrite Z.sub_diag. reflexivity. Qed.








(** ** MFT record decoding *)

Lemma loop_invariant {S A} (body : S -> step S A) (I : S -> Prop) (Q : A -> Prop) :
  (forall s s', I s -> body s = Continue s' -> I s') ->
  (forall s a, I s -> body s = Break a -> Q a) ->
  forall n s a, I s -> loop body n s = Some a -> Q a.
Proof.
  intros Hstep Hexit. induction n as [|n IH]; intros s a Hs H; [discriminate|].
  simpl in H. destruct (body s) as [s'|b] eqn:E.
  - eapply IH; [|exact H]. eapply Hstep; eassumption.
  - injection H as <-. eapply Hexit; eassumption.
Qed.

Lemma attr_body_continue data offset used_size o attrs a n :
  (o <? offset + used_size) = true ->
  (int_from_bytes (slice data o (o + 4)) =? 0xFFFFFFFF) = false ->
  MFTEntry.parse_attribute data o (int_from_bytes (slice data o (o + 4))) = Some (a, n) ->
  MFTEntry.attr_body data offset used_size (o, attrs) = Continue (o + n, attrs ++ [a]).
Proof.
  intros H1 H2 H3. unfold MFTEntry.attr_body. rewrite H1, H2, H3. reflexivity.
Qed.

Lemma looping_record_body attrs :
  MFTEntry.attr_body looping_record 0 1024 (56, attrs)
  = Continue (56, attrs ++ [looping_attr]).
Proof.
  change 56 with (56 + 0) at 2.
  apply attr_body_continue; vm_compute; reflexivity.
Qed.

Lemma looping_record_loop fuel : forall attrs,
  loop (MFTEntry.attr_body looping_record 0 1024) fuel (56, attrs) = None.
Proof.
  induction fuel as [|fuel IH]; intros attrs; [reflexivity|].
  cbn [loop]. rewrite looping_record_body. apply IH.
Qed.

(** C10, at the input on which it fails: on a 1024-byte record with the FILE
    tag whose first attribute header is not the sentinel and declares length
    0, no number of iterations ends the attribute loop. *)
Theorem from_bytes_length_zero_loops : forall fuel,
  MFTEntry.from_bytes fuel looping_record 0 = None.
Proof.
  intros fuel. unfold MFTEntry.from_bytes.
  replace (bool_decide (slice looping_record 0 (0 + 4) = MFTEntry.FILE_tag))
    with true by (vm_compute; reflexivity).
  replace (int_from_bytes (slice looping_record (0 + 24) (0 + 28)))
    with 1024 by (vm_compute; reflexivity).
  replace (0 + int_from_bytes (slice looping_record (0 + 20) (0 + 22)))
    with 56 by (vm_compute; reflexivity).
  cbn [negb]. rewrite looping_record_loop. reflexivity.
Qed.

(** C8, as amended: a record that decodes successfully begins with the FILE
    tag, and its [used_size] and [allocated_size] are the u32 fields at +24
    and +28 as they are stored. *)
Theorem from_bytes_ok_fields fuel data offset e :
  MFTEntry.from_bytes fuel data offset = Some (ok e) ->
  slice data offset (offset + 4) = MFTEntry.FILE_tag /\
  MFTEntry.used_size e = int_from_bytes (slice data (offset + 24) (offset + 28)) /\
  MFTEntry.allocated_size e = int_from_bytes (slice data (offset + 28) (offset + 32)).
Proof.
  unfold MFTEntry.from_bytes. intros H.
  destruct (bool_decide_reflect (slice data offset (offset + 4) = MFTEntry.FILE_tag))
    as [Htag|Htag]; cbn [negb] in H; [|discriminate].
  destruct (loop _ fuel _) as [[attrs|]|]; try discriminate.
  injection H as <-. auto.
Qed.

Lemma from_bytes_ok_fields_witness :
  slice unordered_record 0 (0 + 4) = MFTEntry.FILE_tag /\
  2048 = int_from_bytes (slice unordered_record (0 + 24) (0 + 28)) /\
  512 = int_from_bytes (slice unordered_record (0 + 28) (0 + 32)).
Proof.
  apply (from_bytes_ok_fields 1 unordered_record 0 (MFTEntry.mk 0 1 0 1 2048 512 [])).
  vm_compute. reflexivity.
Defined.

(** C8 fails as stated: a 1024-byte record with [used_size] 2048 and
    [allocated_size] 512 is returned as a decoded record. *)
Lemma unordered_record_decodes :
  len unordered_record = 1024 /\
  exists e, MFTEntry.from_bytes 1 unordered_record 0 = Some (ok e) /\
            ~ (MFTEntry.used_size e <= MFTEntry.allocated_size e <= 1024).
Proof.
  split; [vm_compute; reflexivity|].
  eexists. split; [vm_compute; reflexivity|]. cbn. lia.
Qed.

(** ** Budgets of the loops that end *)

Lemma nibbles_nonneg b :
  0 <= Z.land (byteZ b) 15 /\ 0 <= Z.land (Z.shiftr (byteZ b) 4) 15.
Proof. split; apply Z.land_nonneg; lia. Qed.

Lemma run_body_advances data o c runs o' c' runs' :
  MFTAttribute.run_body data (o, c, runs) = Continue (o', c', runs') ->
  o < len data /\ o < o'.
Proof.
  unfold MFTAttribute.run_body. intros H. break_match H.
  all: injection H as <- _ _.
  all: match goal with E : getitem _ _ = Some ?h, E1 : (byteZ ?h =? 0) = false |- _ =>
         pose proof (nibbles_nonneg h) end.
  all: match goal with E : negb (_ <? _) = false |- _ =>
         apply negb_false_iff, Z.ltb_lt in E end.
  all: lia.
Qed.

Lemma run_loop_total data runs_offset :
  0 <= runs_offset ->
  is_Some (loop (MFTAttribute.run_body data) (S (length data)) (runs_offset, 0, [])).
Proof.
  intros Hpos.
  apply (loop_total _ (fun st : MFTAttribute.run_state =>
                         Z.to_nat (len data - st.1.1))).
  - intros [[o c] r] [[o' c'] r'] H. apply run_body_advances in H. simpl. lia.
  - simpl. unfold len. lia.
Qed.

Lemma root_body_advances data o kept o' kept' :
  NTFSVolume.root_body data (o, kept) = Continue (o', kept') ->
  o < len data /\ o < o'.
Proof.
  unfold NTFSVolume.root_body. intros H. break_match H.
  all: injection H as <- _.
  all: pose proof (int_from_bytes_range (slice data o (o + 4))).
  all: repeat match goal with
       | E : negb (_ <=? _) = false |- _ => apply negb_false_iff, Z.leb_le in E
       | E : (_ =? _) = false |- _ => apply Z.eqb_neq in E
       end.
  all: lia.
Qed.

Lemma root_loop_total data entries_offset :
  0 <= entries_offset ->
  is_Some (loop (NTFSVolume.root_body data) (S (length data)) (entries_offset, [])).
Proof.
  intros Hpos.
  apply (loop_total _ (fun st : NTFSVolume.walk_state => Z.to_nat (len data - st.1))).
  - intros [o k] [o' k'] H. apply root_body_advances in H. simpl. lia.
  - simpl. unfold len. lia.
Qed.

Lemma block_body_advances data o kept o' kept' :
  NTFSVolume.block_body data (o, kept) = Continue (o', kept') ->
  o < len data /\ o < o'.
Proof.
  unfold NTFSVolume.block_body. intros H. break_match H.
  all: injection H as <- _.
  all: pose proof (int_from_bytes_range (slice data (o + 8) (o + 10))).
  all: repeat match goal with
       | E : negb (_ <? _) = false |- _ => apply negb_false_iff, Z.ltb_lt in E
       | E : (_ =? _) = false |- _ => apply Z.eqb_neq in E
       end.
  all: lia.
Qed.

Lemma block_loop_total data entries_offset :
  0 <= entries_offset ->
  is_Some (loop (NTFSVolume.block_body data) (S (length data)) (entries_offset, [])).
Proof.
  intros Hpos.
  apply (loop_total _ (fun st : NTFSVolume.walk_state => Z.to_nat (len data - st.1))).
  - intros [o k] [o' k'] H. apply block_body_advances in H. simpl. lia.
  - simpl. unfold len. lia.
Qed.

Lemma span_body_advances i d r fs i' d' r' fs' :
  SplitImageFile.span_body (i, d, r, fs) = Continue (i', d', r', fs') ->
  i' = i + 1 /\ i + 1 < len fs /\ length fs' = length fs.
Proof.
  unfold SplitImageFile.span_body. intros H. break_match H.
  injection H as <- _ _ <-.
  match goal with E : negb (_ && _) = false |- _ =>
    apply negb_false_iff, andb_true_iff in E; destruct E as [_ E];
    apply Z.ltb_lt in E end.
  rewrite length_insert. auto.
Qed.

Lemma span_loop_total fs file_index data remaining :
  - len fs <= file_index ->
  is_Some (loop SplitImageFile.span_body (S (2 * length fs))
                (file_index, data, remaining, fs)).
Proof.
  intros Hlow.
  apply (loop_total _ (fun st : SplitImageFile.span_state =>
                         (Z.to_nat (len st.2 - st.1.1.1) + (length st.2 - length fs))%nat)).
  - intros [[[i d] r] l] [[[i' d'] r'] l'] H.
    apply span_body_advances in H. destruct H as (-> & Hlt & Hlen).
    simpl. unfold len in *. rewrite Hlen. lia.
  - simpl. unfold len in *. lia.
Qed.


(** ** No fix-up between reading and decoding *)

Lemma from_raw_data_resident ty nm r d :
  MFTAttribute.resident (MFTAttribute.from_raw_data ty nm r d) = r /\
  (r = true -> MFTAttribute.data (MFTAttribute.from_raw_data ty nm r d) = d).
Proof.
  unfold MFTAttribute.from_raw_data. destruct r.
  - split; [reflexivity|]. reflexivity.
  - destruct (MFTAttribute.parse_data_runs _ _). split; [reflexivity|discriminate].
Qed.

Lemma parse_attribute_verbatim d o ty a n :
  MFTEntry.parse_attribute d o ty = Some (a, n) -> verbatim d a.
Proof.
  unfold MFTEntry.parse_attribute. intros H.
  destruct (getitem d (o + 8)) as [flag|]; [|discriminate]. cbn [mbind option_bind] in H.
  destruct (getitem d (o + 9)) as [nl|]; [|discriminate]. cbn [mbind option_bind] in H.
  match type of H with context [mbind _ ?m] => destruct m as [nm|] end; [|discriminate].
  cbn [mbind option_bind] in H. injection H as <- _.
  intros Hres.
  match type of Hres with
  | MFTAttribute.resident (MFTAttribute.from_raw_data ?t ?m ?r ?x) = _ =>
      destruct (from_raw_data_resident t m r x) as [Hr Hd]
  end.
  rewrite Hr in Hres. rewrite (Hd Hres), Hres. eauto.
Qed.

Lemma from_bytes_verbatim fuel d offset e :
  MFTEntry.from_bytes fuel d offset = Some (ok e) ->
  Forall (verbatim d) (MFTEntry.attributes e).
Proof.
  unfold MFTEntry.from_bytes. intros H.
  destruct (negb _); [discriminate|].
  destruct (loop _ fuel _) as [[attrs|]|] eqn:L; try discriminate.
  injection H as <-. cbn [MFTEntry.attributes].
  revert L.
  apply (loop_invariant _
           (fun st : MFTEntry.attr_state => Forall (verbatim d) st.2)
           (fun r => match r with Some l => Forall (verbatim d) l | None => True end)
           ) with (a := Some attrs); [| |constructor].
  - intros [o l] [o' l'] Hl. unfold MFTEntry.attr_body. intros Hb. break_match Hb.
    injection Hb as <- <-. simpl in *. apply Forall_app. split; [assumption|].
    constructor; [|constructor]. eapply parse_attribute_verbatim; eassumption.
  - intros [o l] r Hl. unfold MFTEntry.attr_body. intros Hb. break_match Hb.
    all: injection Hb as <-; simpl in *; auto.
Qed.

Lemma block_entry_name_from d o r k e :
  NTFSVolume.block_entry d o r k = Some e -> name_from d e.
Proof.
  unfold NTFSVolume.block_entry. intros H. break_match H.
  injection H as <-. unfold name_from. simpl. eauto.
Qed.

Lemma index_block_entries_names d :
  Forall (name_from d) (NTFSVolume.index_block_entries d).
Proof.
  unfold NTFSVolume.index_block_entries.
  destruct (negb _); [constructor|].
  destruct (loop _ _ _) as [kept|] eqn:L; [|constructor].
  revert L.
  apply (loop_invariant _
           (fun st : NTFSVolume.walk_state => Forall (name_from d) st.2)
           (Forall (name_from d))); [| |constructor].
  - intros [o l] [o' l'] Hl. unfold NTFSVolume.block_body. intros Hb. break_match Hb.
    all: injection Hb as <- <-; simpl in *; auto.
    apply Forall_app. split; [assumption|].
    constructor; [|constructor]. eapply block_entry_name_from; eassumption.
  - intros [o l] r Hl. unfold NTFSVolume.block_body. intros Hb. break_match Hb.
    all: injection Hb as <-; simpl in *; auto.
Qed.

(** C2, as amended: no fix-up is applied.  On a cache miss of a mounted
    volume, [read_mft_entry] hands the bytes [d] the segment reader returns
    to the record decoder as they are, and its result is the decoder's; the
    content of every resident attribute of the decoded record is a slice of
    [d]; and the names the INDX walk keeps are decoded from slices of the
    block as it was read. *)
Theorem read_mft_entry_decodes_bytes_as_read fuel vol n b p si d :
  NTFSVolume.mft_cache vol !! n = None ->
  NTFSVolume.boot_sector vol = Some b ->
  NTFSVolume.partition_offset vol = Some p ->
  NTFSVolume.split_image vol = Some si ->
  let offset := p + NTFSBootSector.mft_lcn b * NTFSBootSector.sectors_per_cluster b
                    * NTFSBootSector.bytes_per_sector b + n * 1024 in
  fst (SplitImageFile.read si offset 1024) = Some d ->
  d <> [] ->
  let vol' := NTFSVolume.with_split_image vol (snd (SplitImageFile.read si offset 1024)) in
  NTFSVolume.read_mft_entry fuel vol n =
    match MFTEntry.from_bytes fuel d 0 with
    | None => None
    | Some (err k) => Some (err k, vol')
    | Some (ok e) =>
        Some (ok (MFTEntry.set_reference n e),
              NTFSVolume.with_cached vol' n (MFTEntry.set_reference n e))
    end /\
  (forall e, MFTEntry.from_bytes fuel d 0 = Some (ok e) ->
             Forall (verbatim d) (MFTEntry.attributes e)) /\
  (forall block, Forall (name_from block) (NTFSVolume.index_block_entries block)).
Proof.
  intros Hc Hb Hp Hs offset Hd Hne vol'. split; [|split].
  - unfold NTFSVolume.read_mft_entry. rewrite Hc, Hb, Hp, Hs.
    fold offset. subst vol'.
    destruct (SplitImageFile.read si offset 1024) as [r si'].
    simpl in Hd. subst r. simpl.
    destruct d as [|x d']; [contradiction|].
    destruct (MFTEntry.from_bytes fuel (x :: d') 0) as [[e|k]|]; reflexivity.
  - intros e He. eapply from_bytes_verbatim, He.
  - apply index_block_entries_names.
Qed.

Lemma read_mft_entry_decodes_bytes_as_read_witness :
  exists e vol', NTFSVolume.read_mft_entry 2 test_volume 0 = Some (ok e, vol') /\
                 Forall (verbatim deleted_MFT_record) (MFTEntry.attributes e).
Proof.
  destruct (read_mft_entry_decodes_bytes_as_read 2 test_volume 0
              (NTFSBootSector.mk 512 1 1 0 0 (zeros 8) 4) 512
              (SplitImageFile.mk test_image
                 [SplitImageFile.mk_handle (List.hd [] test_image) 1024])
              deleted_MFT_record)
    as (E & V & _).
  - vm_compute. reflexivity.
  - vm_compute. reflexivity.
  - vm_compute. reflexivity.
  - vm_compute. reflexivity.
  - vm_compute. reflexivity.
  - discriminate.
  - assert (D : exists e, MFTEntry.from_bytes 2 deleted_MFT_record 0 = Some (ok e))
      by (eexists; vm_compute; reflexivity).
    destruct D as [e D]. rewrite D in E.
    eexists _, _. split; [exact E|]. exact (V e D).
Defined.

(** C2 fails as stated: the first sector of the record at index 0 of the
    test volume ends with 0xAA 0xAA while the update sequence number is 1,
    and [read_mft_entry] returns the decoded record; the INDX walk decodes
    the entries of a block whose first sector does not end with the update
    sequence number either. *)
Lemma usa_mismatch_is_not_an_error :
  usa_matches deleted_MFT_record = false /\
  (exists e vol', NTFSVolume.read_mft_entry 2 test_volume 0 = Some (ok e, vol')) /\
  usa_matches mismatched_block = false /\
  NTFSVolume.index_block_entries mismatched_block = [(ref_64, a_txt)].
Proof.
  split; [vm_compute; reflexivity|]. split.
  - eexists _, _. vm_compute. reflexivity.
  - split; vm_compute; reflexivity.
Qed.

(** ** The system-file filter of the index walks *)

Lemma filter_not_system (r : Z) (s : str) :
  negb (startswith_dollar s && (r <=? 11)) = true -> not_system (r, s).
Proof.
  intros H [Hd Hr]. simpl in *. rewrite Hd in H.
  apply Z.leb_le in Hr. rewrite Hr in H. discriminate.
Qed.

Lemma root_entry_not_system d o e :
  NTFSVolume.root_entry d o = Some e -> not_system e.
Proof.
  unfold NTFSVolume.root_entry. intros H. break_match H.
  injection H as <-.
  match goal with E : _ && negb (_ && _) = true |- _ =>
    apply andb_true_iff in E; destruct E as [_ E] end.
  apply filter_not_system. assumption.
Qed.

Lemma block_entry_not_system d o r k e :
  NTFSVolume.block_entry d o r k = Some e -> not_system e.
Proof.
  unfold NTFSVolume.block_entry. intros H. break_match H.
  injection H as <-. apply filter_not_system. assumption.
Qed.

Lemma index_root_entries_not_system d :
  Forall not_system (NTFSVolume.index_root_entries d).
Proof.
  unfold NTFSVolume.index_root_entries.
  destruct (len d <? 16); [constructor|].
  destruct (len d <? 16 + 16); [constructor|].
  destruct (loop _ _ _) as [kept|] eqn:L; [|constructor].
  revert L.
  apply (loop_invariant _
           (fun st : NTFSVolume.walk_state => Forall not_system st.2)
           (Forall not_system)); [| |constructor].
  - intros [o l] [o' l'] Hl. unfold NTFSVolume.root_body. intros Hb. break_match Hb.
    all: injection Hb as <- <-; simpl in *; auto.
    apply Forall_app. split; [assumption|].
    constructor; [|constructor]. eapply root_entry_not_system; eassumption.
  - intros [o l] r Hl. unfold NTFSVolume.root_body. intros Hb. break_match Hb.
    all: injection Hb as <-; simpl in *; auto.
Qed.

Lemma index_block_entries_not_system d :
  Forall not_system (NTFSVolume.index_block_entries d).
Proof.
  unfold NTFSVolume.index_block_entries.
  destruct (negb _); [constructor|].
  destruct (loop _ _ _) as [kept|] eqn:L; [|constructor].
  revert L.
  apply (loop_invariant _
           (fun st : NTFSVolume.walk_state => Forall not_system st.2)
           (Forall not_system)); [| |constructor].
  - intros [o l] [o' l'] Hl. unfold NTFSVolume.block_body. intros Hb. break_match Hb.
    all: injection Hb as <- <-; simpl in *; auto.
    apply Forall_app. split; [assumption|].
    constructor; [|constructor]. eapply block_entry_not_system; eassumption.
  - intros [o l] r Hl. unfold NTFSVolume.block_body. intros Hb. break_match Hb.
    all: injection Hb as <-; simpl in *; auto.
Qed.

(** What the filter of the two walks does exclude: an entry whose file
    reference, taken as the whole 64-bit number the walk reads, is at most 11
    and whose name begins with '$'. *)
Lemma index_walks_skip_system_entries data file_ref filename :
  In (file_ref, filename) (NTFSVolume.index_root_entries data) \/
  In (file_ref, filename) (NTFSVolume.index_block_entries data) ->
  ~ (startswith_dollar filename = true /\ file_ref <= 11).
Proof.
  intros [H|H].
  - pose proof (index_root_entries_not_system data) as F.
    rewrite List.Forall_forall in F. exact (F _ H).
  - pose proof (index_block_entries_not_system data) as F.
    rewrite List.Forall_forall in F. exact (F _ H).
Qed.


(** ** Reads of MFT records *)

(** A cache miss on a mounted volume whose read returns bytes: they go to
    the record decoder as they are. *)
Lemma read_mft_entry_miss_data fuel vol n b p si d :
  NTFSVolume.mft_cache vol !! n = None ->
  NTFSVolume.boot_sector vol = Some b ->
  NTFSVolume.partition_offset vol = Some p ->
  NTFSVolume.split_image vol = Some si ->
  let offset := p + NTFSBootSector.mft_lcn b * NTFSBootSector.sectors_per_cluster b
                    * NTFSBootSector.bytes_per_sector b + n * 1024 in
  fst (SplitImageFile.read si offset 1024) = Some d ->
  d <> [] ->
  let vol' := NTFSVolume.with_split_image vol (snd (SplitImageFile.read si offset 1024)) in
  NTFSVolume.read_mft_entry fuel vol n =
    match MFTEntry.from_bytes fuel d 0 with
    | None => None
    | Some (err k) => Some (err k, vol')
    | Some (ok e) =>
        Some (ok (MFTEntry.set_reference n e),
              NTFSVolume.with_cached vol' n (MFTEntry.set_reference n e))
    end.
Proof.
  intros Hc Hb Hp Hs offset Hd Hne vol'.
  unfold NTFSVolume.read_mft_entry. rewrite Hc, Hb, Hp, Hs.
  fold offset. subst vol'.
  destruct (SplitImageFile.read si offset 1024) as [r si'].
  simpl in Hd. subst r. simpl.
  destruct d as [|x d']; [contradiction|].
  destruct (MFTEntry.from_bytes fuel (x :: d') 0) as [[e|k]|]; reflexivity.
Qed.

(** A cache miss on a mounted volume whose read returns [None]. *)
Lemma read_mft_entry_miss_none fuel vol n b p si :
  NTFSVolume.mft_cache vol !! n = None ->
  NTFSVolume.boot_sector vol = Some b ->
  NTFSVolume.partition_offset vol = Some p ->
  NTFSVolume.split_image vol = Some si ->
  let offset := p + NTFSBootSector.mft_lcn b * NTFSBootSector.sectors_per_cluster b
                    * NTFSBootSector.bytes_per_sector b + n * 1024 in
  SplitImageFile.read si offset 1024 = (None, si) ->
  NTFSVolume.read_mft_entry fuel vol n = Some (err IO_ERROR, vol).
Proof.
  intros Hc Hb Hp Hs offset Hr.
  unfold NTFSVolume.read_mft_entry. rewrite Hc, Hb, Hp, Hs.
  fold offset. rewrite Hr.
  destruct vol. simpl in *. subst. reflexivity.
Qed.

(** A read that starts in a segment past the last file returns [None] and
    changes nothing. *)
Lemma read_past_last_file si file_size offset size :
  SplitImageFile.getsize si = Some file_size ->
  0 < file_size ->
  len (SplitImageFile.files si) <= offset / file_size ->
  SplitImageFile.read si offset size = (None, si).
Proof.
  intros Hg Hpos Hidx. unfold SplitImageFile.read. rewrite Hg.
  destruct (Z.eqb_spec file_size 0); [lia|].
  rewrite Z.geb_leb.
  destruct (Z.leb_spec (len (SplitImageFile.files si)) (offset / file_size)); [|lia].
  reflexivity.
Qed.

Lemma range_cons a b : a < b -> range a b = a :: range (a + 1) b.
Proof.
  intros H. unfold range.
  replace (Z.to_nat (b - a)) with (S (Z.to_nat (b - (a + 1)))) by lia.
  reflexivity.
Qed.

Lemma range_from_lower a k n : In n (range_from a k) -> a <= n.
Proof.
  revert a. induction k as [|k IH]; intros a; simpl; [tauto|].
  intros [<-|H]; [lia|]. apply IH in H. lia.
Qed.

Lemma mft_entry_new e : NTFSFile.mft_entry (NTFSFile.new e) = e.
Proof.
  unfold NTFSFile.new. destruct (fold_left _ _ _) as [[[nm sz] ct] mt]. reflexivity.
Qed.

(** A scan over records that all fail to read leaves the list and the volume
    as they are. *)
Lemma scan_deleted_errors fuel vol range deleted :
  (forall n, In n range -> exists k, NTFSVolume.read_mft_entry fuel vol n = Some (err k, vol)) ->
  NTFSVolume.scan_deleted fuel vol range deleted = Some (deleted, vol).
Proof.
  induction range as [|n rest IH]; intros H; simpl; [reflexivity|].
  destruct (H n (or_introl eq_refl)) as [k ->].
  apply IH. intros m Hm. apply H. right. exact Hm.
Qed.

Lemma test_volume_fields :
  NTFSVolume.mft_cache test_volume = ∅ /\
  NTFSVolume.boot_sector test_volume = Some test_boot /\
  NTFSVolume.partition_offset test_volume = Some 512 /\
  NTFSVolume.split_image test_volume = Some (test_reader 1024).
Proof. vm_compute. repeat split. Qed.

Lemma test_reader_first_record :
  SplitImageFile.read (test_reader 1024) 1024 1024
  = (Some deleted_MFT_record, test_reader 2048).
Proof. vm_compute. reflexivity. Qed.

Lemma deleted_MFT_record_decoded :
  MFTEntry.from_bytes 2 deleted_MFT_record 0 = Some (ok deleted_MFT_entry) /\
  length deleted_MFT_record = 1024%nat /\
  NTFSFile.name (NTFSFile.new deleted_MFT_entry) = Some dollar_MFT.
Proof. vm_compute. repeat split. Qed.

Lemma test_volume_after_first_read :
  let vol1 := NTFSVolume.with_cached
                (NTFSVolume.with_split_image test_volume (test_reader 2048))
                0 (MFTEntry.set_reference 0 deleted_MFT_entry) in
  NTFSVolume.read_mft_entry 2 test_volume 0
    = Some (ok (MFTEntry.set_reference 0 deleted_MFT_entry), vol1) /\
  forall n, 1 <= n ->
    NTFSVolume.read_mft_entry 2 vol1 n = Some (err IO_ERROR, vol1).
Proof.
  intros vol1.
  destruct test_volume_fields as (Hc & Hb & Hp & Hs).
  destruct deleted_MFT_record_decoded as (Hd & Hl & _).
  split.
  - rewrite (read_mft_entry_miss_data 2 test_volume 0 test_boot 512 (test_reader 1024)
               deleted_MFT_record).
    + rewrite Hd. change (512 + _ + 0 * 1024) with 1024.
      rewrite test_reader_first_record. reflexivity.
    + rewrite Hc. apply lookup_empty.
    + exact Hb.
    + exact Hp.
    + exact Hs.
    + change (512 + _ + 0 * 1024) with 1024.
      rewrite test_reader_first_record. reflexivity.
    + intros E. rewrite E in Hl. discriminate Hl.
  - intros n Hn.
    apply (read_mft_entry_miss_none 2 vol1 n test_boot 512 (test_reader 2048)).
    + unfold vol1.
      cbn [NTFSVolume.mft_cache NTFSVolume.with_cached NTFSVolume.with_split_image].
      rewrite Hc. rewrite lookup_insert_ne by lia. apply lookup_empty.
    + unfold vol1.
      cbn [NTFSVolume.boot_sector NTFSVolume.with_cached NTFSVolume.with_split_image].
      exact Hb.
    + unfold vol1.
      cbn [NTFSVolume.partition_offset NTFSVolume.with_cached NTFSVolume.with_split_image].
      exact Hp.
    + reflexivity.
    + apply (read_past_last_file _ 2048).
      * vm_compute. reflexivity.
      * lia.
      * change (len (SplitImageFile.files (test_reader 2048))) with 1.
        change (NTFSBootSector.mft_lcn test_boot * NTFSBootSector.sectors_per_cluster test_boot
                * NTFSBootSector.bytes_per_sector test_boot) with 512.
        apply Z.div_le_lower_bound; lia.
Qed.



(** ** read_data *)

Lemma len_slice_prefix {A} (d : list A) n :
  0 <= n <= len d -> len (slice d 0 n) = n.
Proof.
  intros H. unfold slice, clamp. change (0 <? 0) with false. cbv iota.
  destruct (Z.ltb_spec n 0); [lia|].
  pose proof (len_nonneg d).
  rewrite (Z.min_l 0) by lia. rewrite Z.min_l by lia.
  change (Z.to_nat 0) with 0%nat. rewrite drop_0, Z.sub_0_r.
  unfold len in *. rewrite length_take. lia.
Qed.

Lemma read_runs_buffers {V} (rc : V -> Z -> Z -> option (Result bytes) * V) runs :
  forall vol data buffers vol',
    run_buffers rc vol runs = (Some buffers, vol') ->
    NTFSFile.read_runs rc vol runs data = (Some (ok (data ++ concat buffers)), vol').
Proof.
  induction runs as [|run rest IH]; intros vol data buffers vol' H; simpl in *.
  - injection H as <- <-. simpl. rewrite app_nil_r. reflexivity.
  - destruct (rc vol (DataRun.cluster run) (DataRun.length run)) as [[[buffer|e]|] vol1];
      try discriminate.
    destruct (run_buffers rc vol1 rest) as [[bs|] vol2] eqn:E; try discriminate.
    injection H as <- <-. rewrite (IH _ _ _ _ E). simpl. rewrite app_assoc. reflexivity.
Qed.

(** C4, as amended: [read_data] returns an empty byte sequence as a success
    when the record has no unnamed $DATA, and the content verbatim when it is
    resident.  When it is non-resident and every run is read, the result is
    the concatenation of the buffers read, in order, cut at [data_size]: it
    has [data_size] bytes when the buffers hold at least that many. *)
Theorem read_data_result {V} (read_clusters : V -> Z -> Z -> option (Result bytes) * V)
    (vol : V) (f : NTFSFile.t) :
  (NTFSFile.find_data_attr f = None ->
     NTFSFile.read_data read_clusters vol f = (ok [], vol)) /\
  (forall a, NTFSFile.find_data_attr f = Some a -> MFTAttribute.resident a = true ->
     NTFSFile.read_data read_clusters vol f = (ok (MFTAttribute.data a), vol)) /\
  (forall a buffers vol',
     NTFSFile.find_data_attr f = Some a -> MFTAttribute.resident a = false ->
     run_buffers read_clusters vol (MFTAttribute.data_runs a) = (Some buffers, vol') ->
     NTFSFile.read_data read_clusters vol f
       = (ok (slice (concat buffers) 0 (MFTAttribute.data_size a)), vol') /\
     (0 <= MFTAttribute.data_size a <= len (concat buffers) ->
      len (slice (concat buffers) 0 (MFTAttribute.data_size a))
        = MFTAttribute.data_size a)).
Proof.
  unfold NTFSFile.read_data. split; [|split].
  - intros ->. reflexivity.
  - intros a -> ->. reflexivity.
  - intros a buffers vol' -> -> Hb. split.
    + rewrite (read_runs_buffers _ _ _ [] _ _ Hb). reflexivity.
    + apply len_slice_prefix.
Qed.

Lemma read_data_result_witness :
  let buffers := [boot NTFSBootSector.NTFS_tag] in
  NTFSFile.read_data NTFSVolume.read_clusters test_volume one_run_file
    = (ok (slice (concat buffers) 0 100), snd (NTFSVolume.read_clusters test_volume 0 1)) /\
  (0 <= 100 <= len (concat buffers) -> len (slice (concat buffers) 0 100) = 100).
Proof.
  apply (proj2 (proj2 (read_data_result NTFSVolume.read_clusters test_volume one_run_file))
           (MFTAttribute.mk 0x80 None false [] [DataRun.mk 0 1] 100)
           [boot NTFSBootSector.NTFS_tag]
           (snd (NTFSVolume.read_clusters test_volume 0 1))).
  - reflexivity.
  - reflexivity.
  - vm_compute. reflexivity.
Defined.

(** C4 fails as stated: for a non-resident unnamed $DATA with declared size
    57000 and an empty run list, [read_data] returns no byte at all. *)
Lemma read_data_shorter_than_content_size :
  exists a, NTFSFile.find_data_attr no_runs_file = Some a /\
            MFTAttribute.resident a = false /\
            MFTAttribute.data_size a = 57000 /\
            fst (NTFSFile.read_data NTFSVolume.read_clusters test_volume no_runs_file)
              = ok [].
Proof. eexists. repeat split; vm_compute; reflexivity. Qed.

(** ** Segment reader *)

(** C5, at the inputs on which it fails.  With segments of 4, 4 and 2
    bytes, after [read(4, 4)] has left the second file at its end,
    [read(3, 2)] lies inside the image of 10 bytes and returns one byte.
    With segments of 2, 5 and 1 bytes, [read(6, 1)] lies inside the image of
    8 bytes and returns [None]: the segment index is the offset divided by
    the size of the first segment. *)
Theorem read_inside_image_is_short :
  (let s := opened three_segments in
   let s1 := snd (SplitImageFile.read s 4 4) in
   total_size s1 = 10 /\
   fst (SplitImageFile.read s 4 4) = Some [x04; x05; x06; x07] /\
   fst (SplitImageFile.read s1 3 2) = Some [x03]) /\
  (let s := opened uneven_segments in
   total_size s = 8 /\
   fst (SplitImageFile.read s 6 1) = None).
Proof. vm_compute. repeat split. Qed.

(** ** Index entry layout *)

(** C6, at the input on which it fails.  One index entry in the layout of
    the format, for "a.txt" at MFT index 64 with sequence number 1, followed
    by the last-entry marker: the INDX walk reads the file reference at +0
    and the entry length at +8 and keeps [(ref_64, "a.txt")]; the
    $INDEX_ROOT walk over the same entries takes the u32 at +0 (64, the low
    half of the file reference) for the entry length and the u64 at +8
    (entry length 0x60 and key length 0x4C) for the file reference. *)
Theorem index_root_walk_reads_other_fields :
  NTFSVolume.index_block_entries (index_block one_file_entries) = [(ref_64, a_txt)] /\
  NTFSVolume.index_root_entries (index_root_payload one_file_entries)
    = [(0x4C0060, a_txt)] /\
  NTFSVolume.root_body (index_root_payload one_file_entries) (32, [])
    = Continue (32 + 64, [(0x4C0060, a_txt)]).
Proof. vm_compute. repeat split. Qed.

(** ** Mounting *)

Lemma byteZ_7 b : (byteZ b =? 0x07) = true -> b = x07.
Proof. destruct b; intros H; try reflexivity; discriminate H. Qed.

Lemma scan_without_ntfs_entry mbr_data range :
  (forall i, In i range -> getitem mbr_data (0x1BE + i * 16 + 4) <> Some x07) ->
  NTFSVolume.scan_partition_table mbr_data range = None \/
  NTFSVolume.scan_partition_table mbr_data range = Some None.
Proof.
  induction range as [|i rest IH]; intros H; simpl; [auto|].
  destruct (getitem mbr_data (446 + i * 16 + 4)) as [pt|] eqn:E; [|auto].
  destruct (byteZ pt =? 7) eqn:E7.
  - apply byteZ_7 in E7. subst pt. exfalso. apply (H i); [left; reflexivity|exact E].
  - apply IH. intros j Hj. apply H. right. exact Hj.
Qed.

(** C7, as amended: mounting fails with the IO_ERROR kind whenever the scan
    of the partition table of the MBR finds no entry with type byte 0x07,
    and also whenever the four bytes at offset 3 of the boot sector read at
    the partition offset are not 'NTFS'. *)
Theorem mount_fails_with_io_error vol :
  ((forall mbr_data, fst (mbr_of vol) = Some mbr_data -> no_ntfs_entry mbr_data) ->
   fst (NTFSVolume.mount vol) = err IO_ERROR) /\
  (forall mbr_data p boot_data,
     fst (mbr_of vol) = Some mbr_data ->
     NTFSVolume.scan_partition_table mbr_data [0; 1; 2; 3] = Some (Some p) ->
     fst (boot_of vol p) = Some boot_data ->
     slice boot_data 3 7 <> NTFSBootSector.NTFS_tag ->
     fst (NTFSVolume.mount vol) = err IO_ERROR).
Proof.
  unfold NTFSVolume.mount, boot_of, mbr_of.
  destruct (SplitImageFile.open (SplitImageFile.new (NTFSVolume.image vol)))
    as [o s0]. cbn [snd].
  destruct (SplitImageFile.read s0 0 512) as [m s1]. cbn [fst snd].
  split.
  - intros H. destruct o; [|reflexivity]. cbn [negb].
    destruct m as [[|x m]|]; try reflexivity.
    destruct (scan_without_ntfs_entry (x :: m) [0; 1; 2; 3] (H _ eq_refl)) as [->| ->];
      reflexivity.
  - intros mbr_data p boot_data -> Hscan Hboot Htag.
    destruct o; [|reflexivity]. cbn [negb].
    destruct mbr_data as [|x m]; [reflexivity|].
    rewrite Hscan.
    destruct (SplitImageFile.read s1 p 512) as [bd s2]. cbn [fst] in Hboot. subst bd.
    destruct boot_data as [|y bd]; [reflexivity|].
    destruct (bool_decide_reflect (slice (y :: bd) 3 7 = NTFSBootSector.NTFS_tag));
      [contradiction|reflexivity].
Qed.

Lemma mount_fails_with_io_error_witness :
  fst (NTFSVolume.mount (NTFSVolume.new no_ntfs_image)) = err IO_ERROR /\
  fst (NTFSVolume.mount (NTFSVolume.new bad_tag_image)) = err IO_ERROR.
Proof.
  split.
  - apply (proj1 (mount_fails_with_io_error (NTFSVolume.new no_ntfs_image))).
    intros mbr_data H.
    assert (E : fst (mbr_of (NTFSVolume.new no_ntfs_image)) = Some (mbr_sector 0x0B))
      by (vm_compute; reflexivity).
    rewrite E in H. injection H as <-.
    intros i [<-|[<-|[<-|[<-|[]]]]]; vm_compute; discriminate.
  - apply (proj2 (mount_fails_with_io_error (NTFSVolume.new bad_tag_image))
             (mbr_sector 0x07) 512 (boot [x46; x41; x54; x33])).
    + vm_compute. reflexivity.
    + vm_compute. reflexivity.
    + vm_compute. reflexivity.
    + vm_compute. discriminate.
Defined.

(** C7 fails as stated: with no partition entry of type 0x07, and with the
    tag "FAT3" in the boot sector of the partition, mounting fails with
    IO_ERROR, which is not INVALID_BOOT_SECTOR. *)
Lemma mount_error_is_not_invalid_boot_sector :
  (no_ntfs_entry (mbr_sector 0x0B) /\
   fst (NTFSVolume.mount (NTFSVolume.new no_ntfs_image)) = err IO_ERROR) /\
  (slice (boot [x46; x41; x54; x33]) 3 7 <> NTFSBootSector.NTFS_tag /\
   fst (NTFSVolume.mount (NTFSVolume.new bad_tag_image)) = err IO_ERROR) /\
  IO_ERROR <> INVALID_BOOT_SECTOR.
Proof.
  split; [|split].
  - split; [|vm_compute; reflexivity].
    intros i [<-|[<-|[<-|[<-|[]]]]]; vm_compute; discriminate.
  - split; [vm_compute; discriminate|vm_compute; reflexivity].
  - discriminate.
Qed.

(** ** Recovery scan *)

Lemma scan_deleted_read_all fuel range : forall vol deleted,
  NTFSVolume.scan_deleted fuel vol range deleted =
  match read_all fuel vol range with
  | None => None
  | Some (results, vol') => Some (deleted ++ omap deleted_view results, vol')
  end.
Proof.
  induction range as [|mft_ref rest IH]; intros vol deleted; simpl.
  - rewrite app_nil_r. reflexivity.
  - destruct (NTFSVolume.read_mft_entry fuel vol mft_ref) as [[[entry|e] vol1]|];
      [| |reflexivity].
    + rewrite IH. destruct (read_all fuel vol1 rest) as [[rs vol2]|]; [|reflexivity].
      simpl. destruct (negb (MFTEntry.is_in_use entry) && MFTEntry.has_file_name entry).
      * rewrite <- app_assoc. reflexivity.
      * reflexivity.
    + rewrite IH. destruct (read_all fuel vol1 rest) as [[rs vol2]|]; reflexivity.
Qed.

Lemma deleted_view_Some r f :
  deleted_view r = Some f <->
  exists entry, r = ok entry /\ MFTEntry.is_in_use entry = false /\
                MFTEntry.has_file_name entry = true /\ f = NTFSFile.new entry.
Proof.
  unfold deleted_view. split.
  - destruct r as [entry|e]; [|discriminate].
    destruct (MFTEntry.is_in_use entry) eqn:U; [discriminate|].
    destruct (MFTEntry.has_file_name entry) eqn:N; [|discriminate].
    simpl. intros [= <-]. eauto.
  - intros (entry & -> & -> & -> & ->). reflexivity.
Qed.


(** ** Segment reader *)

Lemma len_slice_le {A} (d : list A) a n : 0 <= n -> len (slice d a (a + n)) <= n.
Proof.
  intros Hn. unfold slice, clamp. pose proof (len_nonneg d).
  unfold len in *. rewrite length_take, length_drop.
  destruct (Z.ltb_spec a 0); destruct (Z.ltb_spec (a + n) 0); lia.
Qed.

Lemma len_slice_exact {A} (d : list A) a n :
  0 <= a -> 0 <= n -> a + n <= len d -> len (slice d a (a + n)) = n.
Proof.
  intros Ha Hn Hle. unfold slice, clamp. unfold len in *.
  rewrite length_take, length_drop.
  destruct (Z.ltb_spec a 0); destruct (Z.ltb_spec (a + n) 0); lia.
Qed.

Lemma file_read_len h n :
  0 <= n -> len (SplitImageFile.file_read h n).1 <= n.
Proof.
  intros Hn. unfold SplitImageFile.file_read.
  destruct (Z.ltb_spec n 0); [lia|]. simpl. apply len_slice_le. exact Hn.
Qed.

Lemma file_read_content h n :
  SplitImageFile.content (SplitImageFile.file_read h n).2 = SplitImageFile.content h.
Proof. reflexivity. Qed.

Lemma contents_insert (fs : list SplitImageFile.handle) j h h' :
  fs !! j = Some h ->
  SplitImageFile.content h' = SplitImageFile.content h ->
  map SplitImageFile.content (<[j := h']> fs) = map SplitImageFile.content fs.
Proof.
  intros Hj Hc.
  change (map SplitImageFile.content (<[j:=h']> fs))
    with (SplitImageFile.content <$> <[j:=h']> fs).
  rewrite list_fmap_insert, Hc.
  apply list_insert_id. rewrite list_lookup_fmap, Hj. reflexivity.
Qed.

Lemma span_body_inv size contents st st' :
  span_inv size contents st ->
  SplitImageFile.span_body st = Continue st' -> span_inv size contents st'.
Proof.
  destruct st as [[[i d] r] fs]. destruct st' as [[[i' d'] r'] fs'].
  intros (Hsum & Hr & Hc). unfold SplitImageFile.span_body. intros H.
  destruct (negb _) eqn:Hcond; [discriminate|].
  apply negb_false_iff, andb_true_iff in Hcond. destruct Hcond as [Hpos _].
  rewrite Z.gtb_ltb in Hpos. apply Z.ltb_lt in Hpos.
  destruct (norm_index fs (i + 1)) as [j|]; [|discriminate].
  destruct (fs !! j) as [h|] eqn:Hj; [|discriminate].
  pose proof (file_read_len h r ltac:(lia)) as Hlen.
  pose proof (file_read_content h r) as Hcont.
  destruct (SplitImageFile.file_read h r) as [next h']. simpl in Hlen, Hcont.
  destruct next as [|x next]; [discriminate|].
  injection H as <- <- <- <-. unfold span_inv.
  rewrite len_app. split; [lia|]. split; [lia|].
  rewrite (contents_insert fs j h h' Hj Hcont). exact Hc.
Qed.

Lemma span_body_exit size contents st data fs :
  span_inv size contents st ->
  SplitImageFile.span_body st = Break (data, fs) ->
  len data <= size /\ map SplitImageFile.content fs = contents.
Proof.
  destruct st as [[[i d] r] fs0].
  intros (Hsum & Hr & Hc). unfold SplitImageFile.span_body. intros H.
  destruct (negb _); [injection H as <- <-; split; [lia|exact Hc]|].
  destruct (norm_index fs0 (i + 1)) as [j|];
    [|injection H as <- <-; split; [lia|exact Hc]].
  destruct (fs0 !! j) as [h|] eqn:Hj;
    [|injection H as <- <-; split; [lia|exact Hc]].
  pose proof (file_read_content h r) as Hcont.
  destruct (SplitImageFile.file_read h r) as [next h']. simpl in Hcont.
  destruct next as [|x next]; [|discriminate].
  injection H as <- <-. split; [lia|].
  rewrite (contents_insert fs0 j h h' Hj Hcont). exact Hc.
Qed.

Lemma read_invariants s offset size :
  0 <= size ->
  SplitImageFile.segments (SplitImageFile.read s offset size).2
    = SplitImageFile.segments s /\
  map SplitImageFile.content (SplitImageFile.files (SplitImageFile.read s offset size).2)
    = map SplitImageFile.content (SplitImageFile.files s) /\
  forall data, (SplitImageFile.read s offset size).1 = Some data -> len data <= size.
Proof.
  intros Hsize. unfold SplitImageFile.read.
  destruct (SplitImageFile.getsize s) as [file_size|];
    [|repeat split; discriminate].
  destruct (file_size =? 0); [repeat split; discriminate|].
  destruct (offset / file_size >=? len (SplitImageFile.files s));
    [repeat split; discriminate|].
  destruct (norm_index _ _) as [j|]; [|repeat split; discriminate].
  destruct (SplitImageFile.files s !! j) as [h|] eqn:Hj; [|repeat split; discriminate].
  destruct (SplitImageFile.seek h (offset mod file_size)) as [h1|] eqn:Hseek;
    [|repeat split; discriminate].
  assert (Hc1 : SplitImageFile.content h1 = SplitImageFile.content h).
  { unfold SplitImageFile.seek in Hseek.
    destruct (offset mod file_size <? 0); [discriminate|]. injection Hseek as <-.
    reflexivity. }
  pose proof (file_read_len h1 size Hsize) as Hlen.
  pose proof (file_read_content h1 size) as Hcont.
  destruct (SplitImageFile.file_read h1 size) as [data h2]. simpl in Hlen, Hcont.
  assert (Hfs : map SplitImageFile.content (<[j := h2]> (SplitImageFile.files s))
                = map SplitImageFile.content (SplitImageFile.files s)).
  { apply (contents_insert _ j h h2 Hj). congruence. }
  destruct (loop SplitImageFile.span_body _ _) as [[data' fs']|] eqn:L.
  - assert (len data' <= size /\
            map SplitImageFile.content fs'
            = map SplitImageFile.content (SplitImageFile.files s)) as [Hd Hf].
    { revert L.
      apply (loop_invariant SplitImageFile.span_body
               (span_inv size (map SplitImageFile.content (SplitImageFile.files s)))
               (fun r => len r.1 <= size /\
                         map SplitImageFile.content r.2
                         = map SplitImageFile.content (SplitImageFile.files s))).
      - intros st st'. apply span_body_inv.
      - intros st [d f]. apply span_body_exit.
      - unfold span_inv. split; [lia|]. split; [lia|exact Hfs]. }
    simpl. split; [reflexivity|]. split; [exact Hf|].
    intros d [= <-]. exact Hd.
  - simpl. split; [reflexivity|]. split; [exact Hfs|]. discriminate.
Qed.

(** X1: a read never returns more bytes than it was asked for, never
    changes the segments, and never changes which bytes each file object
    holds: only the positions of the file objects move. *)
Theorem read_at_most_size s offset size :
  0 <= size ->
  SplitImageFile.segments (SplitImageFile.read s offset size).2
    = SplitImageFile.segments s /\
  map SplitImageFile.content (SplitImageFile.files (SplitImageFile.read s offset size).2)
    = map SplitImageFile.content (SplitImageFile.files s) /\
  forall data, (SplitImageFile.read s offset size).1 = Some data -> len data <= size.
Proof. apply read_invariants. Qed.

Lemma read_at_most_size_witness :
  SplitImageFile.segments (SplitImageFile.read (opened three_segments) 3 4).2
    = SplitImageFile.segments (opened three_segments) /\
  map SplitImageFile.content
      (SplitImageFile.files (SplitImageFile.read (opened three_segments) 3 4).2)
    = map SplitImageFile.content (SplitImageFile.files (opened three_segments)) /\
  forall data, (SplitImageFile.read (opened three_segments) 3 4).1 = Some data ->
               len data <= 4.
Proof.
  apply (read_at_most_size (opened three_segments) 3 4). lia.
Defined.

Lemma getsize_head s c rest :
  SplitImageFile.segments s = c :: rest -> SplitImageFile.getsize s = Some (len c).
Proof. unfold SplitImageFile.getsize. intros ->. reflexivity. Qed.




(** ** Boot sector and mounting *)

Lemma getitem_in_range {A} (d : list A) i :
  0 <= i < len d -> exists x, getitem d i = Some x.
Proof.
  intros H. unfold getitem, norm_index.
  destruct (Z.ltb_spec i 0); [lia|].
  destruct (Z.leb_spec 0 i); [|lia]. destruct (Z.ltb_spec i (len d)); [|lia].
  cbn [andb]. apply lookup_lt_is_Some. unfold len in *. lia.
Qed.

Lemma getitem_Some_range {A} (d : list A) i x :
  0 <= i -> getitem d i = Some x -> i < len d.
Proof.
  intros Hi. unfold getitem, norm_index.
  destruct (Z.ltb_spec i 0); [lia|].
  destruct ((0 <=? i) && (i <? len d)) eqn:E; [|discriminate].
  apply andb_true_iff in E. destruct E as [_ E]. apply Z.ltb_lt in E. intros _. exact E.
Qed.

(** X3: the boot-sector decoder never raises.  It fails with
    INVALID_BOOT_SECTOR exactly when the data has fewer than 512 bytes or the
    bytes 3..6 are not 'NTFS', and it succeeds in every other case. *)
Theorem boot_sector_decodes_iff data :
  (len data < 512 \/ slice data 3 7 <> NTFSBootSector.NTFS_tag ->
   NTFSBootSector.from_bytes data = err INVALID_BOOT_SECTOR) /\
  (512 <= len data -> slice data 3 7 = NTFSBootSector.NTFS_tag ->
   exists b, NTFSBootSector.from_bytes data = ok b /\
             NTFSBootSector.bytes_per_sector b = int_from_bytes (slice data 0x0B 0x0D) /\
             (exists spc, getitem data 0x0D = Some spc /\
                          NTFSBootSector.sectors_per_cluster b = byteZ spc) /\
             NTFSBootSector.total_sectors b = int_from_bytes (slice data 0x28 0x30) /\
             NTFSBootSector.mft_lcn b = int_from_bytes (slice data 0x30 0x38)).
Proof.
  unfold NTFSBootSector.from_bytes. split.
  - intros [H|H].
    + destruct (Z.ltb_spec (len data) 512); [reflexivity|lia].
    + destruct (len data <? 512); [reflexivity|].
      destruct (bool_decide_reflect (slice data 3 7 = NTFSBootSector.NTFS_tag));
        [contradiction|reflexivity].
  - intros Hlen Htag.
    destruct (Z.ltb_spec (len data) 512); [lia|].
    destruct (bool_decide_reflect (slice data 3 7 = NTFSBootSector.NTFS_tag));
      [|contradiction]. cbn [negb].
    destruct (getitem_in_range data 0x0D ltac:(lia)) as [spc ->].
    destruct (getitem_in_range data 0x40 ltac:(lia)) as [mrs ->].
    destruct (getitem_in_range data 0x44 ltac:(lia)) as [irs ->].
    eexists. split; [reflexivity|]. cbn.
    split; [reflexivity|]. split; [exists spc; split; reflexivity|].
    split; reflexivity.
Qed.

Lemma boot_sector_decodes_iff_witness :
  NTFSBootSector.from_bytes (zeros 512) = err INVALID_BOOT_SECTOR /\
  exists b, NTFSBootSector.from_bytes (boot NTFSBootSector.NTFS_tag) = ok b /\
            NTFSBootSector.bytes_per_sector b
              = int_from_bytes (slice (boot NTFSBootSector.NTFS_tag) 0x0B 0x0D) /\
            (exists spc, getitem (boot NTFSBootSector.NTFS_tag) 0x0D = Some spc /\
                         NTFSBootSector.sectors_per_cluster b = byteZ spc) /\
            NTFSBootSector.total_sectors b
              = int_from_bytes (slice (boot NTFSBootSector.NTFS_tag) 0x28 0x30) /\
            NTFSBootSector.mft_lcn b
              = int_from_bytes (slice (boot NTFSBootSector.NTFS_tag) 0x30 0x38).
Proof.
  split.
  - apply (proj1 (boot_sector_decodes_iff (zeros 512))). right. vm_compute. discriminate.
  - apply (proj2 (boot_sector_decodes_iff (boot NTFSBootSector.NTFS_tag))).
    + vm_compute. discriminate.
    + vm_compute. reflexivity.
Defined.

Lemma scan_skips mbr_data i rest :
  (exists t, partition_type mbr_data i = Some t /\ byteZ t <> 0x07) ->
  NTFSVolume.scan_partition_table mbr_data (i :: rest)
  = NTFSVolume.scan_partition_table mbr_data rest.
Proof.
  intros (t & Ht & Hne). cbn [NTFSVolume.scan_partition_table].
  unfold partition_type in Ht. rewrite Ht.
  destruct (Z.eqb_spec (byteZ t) 7); [contradiction|reflexivity].
Qed.

Lemma scan_takes mbr_data i rest :
  partition_type mbr_data i = Some x07 ->
  NTFSVolume.scan_partition_table mbr_data (i :: rest)
  = Some (Some (partition_start mbr_data i)).
Proof.
  intros Ht. cbn [NTFSVolume.scan_partition_table].
  unfold partition_type in Ht. rewrite Ht. reflexivity.
Qed.

(** X4: the scan of the partition table selects the first of the four
    entries whose type byte is 0x07: the partition offset is 512 times the
    little-endian u32 at +8 of that entry, whatever the entries after it
    hold.  It is a multiple of 512 below 2^41. *)
Theorem scan_selects_first_ntfs_entry mbr_data i :
  0 <= i < 4 ->
  partition_type mbr_data i = Some x07 ->
  (forall j, 0 <= j < i ->
     exists t, partition_type mbr_data j = Some t /\ byteZ t <> 0x07) ->
  NTFSVolume.scan_partition_table mbr_data [0; 1; 2; 3]
    = Some (Some (partition_start mbr_data i)) /\
  partition_start mbr_data i mod 512 = 0 /\
  0 <= partition_start mbr_data i < 2 ^ 41.
Proof.
  intros Hi Ht Hskip. split; [|split].
  - assert (i = 0 \/ i = 1 \/ i = 2 \/ i = 3) as [->|[->|[->| ->]]] by lia.
    + apply scan_takes, Ht.
    + rewrite scan_skips by (apply Hskip; lia). apply scan_takes, Ht.
    + rewrite !scan_skips by (apply Hskip; lia). apply scan_takes, Ht.
    + rewrite !scan_skips by (apply Hskip; lia). apply scan_takes, Ht.
  - unfold partition_start. apply Z.mod_mul. lia.
  - unfold partition_start.
    pose proof (int_from_bytes_range
                  (slice mbr_data (0x1BE + i * 16 + 8) (0x1BE + i * 16 + 12))) as R.
    pose proof (len_slice_le mbr_data (0x1BE + i * 16 + 8) 4 ltac:(lia)) as L.
    replace (0x1BE + i * 16 + 8 + 4) with (0x1BE + i * 16 + 12) in L by lia.
    assert (2 ^ (8 * len (slice mbr_data (0x1BE + i * 16 + 8) (0x1BE + i * 16 + 12)))
            <= 2 ^ 32) by (apply Z.pow_le_mono_r; lia).
    change (2 ^ 41) with (2 ^ 32 * 512). lia.
Qed.

Lemma scan_selects_first_ntfs_entry_witness :
  NTFSVolume.scan_partition_table second_entry_mbr [0; 1; 2; 3]
    = Some (Some (partition_start second_entry_mbr 1)) /\
  partition_start second_entry_mbr 1 mod 512 = 0 /\
  0 <= partition_start second_entry_mbr 1 < 2 ^ 41.
Proof.
  apply (scan_selects_first_ntfs_entry second_entry_mbr 1).
  - lia.
  - vm_compute. reflexivity.
  - intros j Hj. assert (j = 0) as -> by lia.
    exists x0b. split; [vm_compute; reflexivity|vm_compute; discriminate].
Defined.

Lemma read_keeps_files_of_segments s offset size :
  0 <= size -> files_of_segments s ->
  files_of_segments (SplitImageFile.read s offset size).2.
Proof.
  intros Hsize Hwf. unfold files_of_segments in *.
  destruct (read_invariants s offset size Hsize) as (Hs & Hc & _).
  rewrite Hs, Hc. exact Hwf.
Qed.

Lemma open_new_files_of_segments segments :
  files_of_segments (SplitImageFile.open (SplitImageFile.new segments)).2.
Proof.
  unfold SplitImageFile.open, SplitImageFile.new, files_of_segments.
  cbn [SplitImageFile.segments SplitImageFile.files].
  destruct segments as [|c rest]; [reflexivity|].
  cbn [snd SplitImageFile.segments SplitImageFile.files app].
  rewrite map_map. cbn [SplitImageFile.content]. apply map_id.
Qed.

Lemma scan_result_multiple mbr_data range p :
  NTFSVolume.scan_partition_table mbr_data range = Some (Some p) -> p mod 512 = 0.
Proof.
  induction range as [|i rest IH]; [discriminate|].
  cbn [NTFSVolume.scan_partition_table].
  destruct (getitem _ _) as [t|]; [|discriminate].
  destruct (byteZ t =? 7); [|exact IH].
  intros [= <-]. apply Z.mod_mul. lia.
Qed.

Lemma boot_sector_error_kind data e :
  NTFSBootSector.from_bytes data = err e -> e = INVALID_BOOT_SECTOR.
Proof.
  unfold NTFSBootSector.from_bytes.
  destruct (len data <? 512); [congruence|].
  destruct (negb _); [congruence|].
  destruct (getitem data 13); [|congruence].
  destruct (getitem data 64); [|congruence].
  destruct (getitem data 68); congruence.
Qed.

Lemma mount_outcome vol :
  NTFSVolume.mft_cache (NTFSVolume.mount vol).2 = NTFSVolume.mft_cache vol /\
  NTFSVolume.image (NTFSVolume.mount vol).2 = NTFSVolume.image vol /\
  match NTFSVolume.mount vol with
  | (ok _, vol') =>
      exists b p si,
        NTFSVolume.boot_sector vol' = Some b /\
        NTFSVolume.partition_offset vol' = Some p /\
        NTFSVolume.split_image vol' = Some si /\
        files_of_segments si /\
        SplitImageFile.segments si = NTFSVolume.image vol /\
        p mod 512 = 0
  | (err k, vol') =>
      (k = IO_ERROR \/ k = INVALID_BOOT_SECTOR) /\
      NTFSVolume.boot_sector vol' = NTFSVolume.boot_sector vol
  end.
Proof.
  unfold NTFSVolume.mount.
  pose proof (open_new_files_of_segments (NTFSVolume.image vol)) as Hwf0.
  assert (Hseg0 : SplitImageFile.segments
                    (SplitImageFile.open (SplitImageFile.new (NTFSVolume.image vol))).2
                  = NTFSVolume.image vol).
  { unfold SplitImageFile.open, SplitImageFile.new. cbn.
    destruct (NTFSVolume.image vol); reflexivity. }
  destruct (SplitImageFile.open (SplitImageFile.new (NTFSVolume.image vol))) as [o s0].
  cbn [snd] in Hwf0, Hseg0.
  destruct o; cbn [negb]; [|cbn; auto].
  pose proof (read_keeps_files_of_segments s0 0 512 ltac:(lia) Hwf0) as Hwf1.
  pose proof (proj1 (read_invariants s0 0 512 ltac:(lia))) as Hseg1.
  destruct (SplitImageFile.read s0 0 512) as [m s1]. cbn [snd] in Hwf1, Hseg1.
  destruct m as [[|x m]|]; [cbn; auto| |cbn; auto].
  destruct (NTFSVolume.scan_partition_table (x :: m) [0; 1; 2; 3]) as [[p|]|] eqn:Hscan;
    [|cbn; auto|cbn; auto].
  pose proof (read_keeps_files_of_segments s1 p 512 ltac:(lia) Hwf1) as Hwf2.
  pose proof (proj1 (read_invariants s1 p 512 ltac:(lia))) as Hseg2.
  destruct (SplitImageFile.read s1 p 512) as [bd s2]. cbn [snd] in Hwf2, Hseg2.
  destruct bd as [[|y bd]|]; [cbn; auto| |cbn; auto].
  destruct (negb _); [cbn; auto|].
  destruct (NTFSBootSector.from_bytes (y :: bd)) as [b|e] eqn:Hb.
  - cbn. split; [reflexivity|]. split; [reflexivity|].
    exists b, p, s2. repeat split; try assumption.
    + congruence.
    + eapply scan_result_multiple, Hscan.
  - cbn. split; [reflexivity|]. split; [reflexivity|].
    split; [right; eapply boot_sector_error_kind, Hb|reflexivity].
Qed.

(** X5: mounting fails only with IO_ERROR or INVALID_BOOT_SECTOR, and a
    failed mount leaves [boot_sector] as it was.  A successful mount sets
    [boot_sector], [partition_offset] (a multiple of 512) and the segment
    reader, whose file objects are those of the segments of the image.  In
    both cases the MFT cache is kept as it was. *)
Theorem mount_postcondition vol :
  NTFSVolume.mft_cache (NTFSVolume.mount vol).2 = NTFSVolume.mft_cache vol /\
  NTFSVolume.image (NTFSVolume.mount vol).2 = NTFSVolume.image vol /\
  match NTFSVolume.mount vol with
  | (ok _, vol') =>
      exists b p si,
        NTFSVolume.boot_sector vol' = Some b /\
        NTFSVolume.partition_offset vol' = Some p /\
        NTFSVolume.split_image vol' = Some si /\
        files_of_segments si /\
        SplitImageFile.segments si = NTFSVolume.image vol /\
        p mod 512 = 0
  | (err k, vol') =>
      (k = IO_ERROR \/ k = INVALID_BOOT_SECTOR) /\
      NTFSVolume.boot_sector vol' = NTFSVolume.boot_sector vol
  end.
Proof. apply mount_outcome. Qed.

Lemma unmounted_read_mft_entry fuel vol n :
  NTFSVolume.boot_sector vol = None ->
  NTFSVolume.mft_cache vol = ∅ ->
  NTFSVolume.read_mft_entry fuel vol n = Some (err INVALID_PARAMETER, vol).
Proof.
  intros Hb Hc. unfold NTFSVolume.read_mft_entry.
  rewrite Hc, lookup_empty, Hb. reflexivity.
Qed.

(** X6: after a failed mount of a new volume, [read_clusters] and
    [read_mft_entry] are rejected with INVALID_PARAMETER and leave the volume
    as it is, and the recovery scan succeeds with an empty list. *)
Theorem failed_mount_rejects_reads image k fuel :
  (NTFSVolume.mount (NTFSVolume.new image)).1 = err k ->
  let vol := (NTFSVolume.mount (NTFSVolume.new image)).2 in
  (forall cluster count,
     NTFSVolume.read_clusters vol cluster count = (Some (err INVALID_PARAMETER), vol)) /\
  (forall n, NTFSVolume.read_mft_entry fuel vol n = Some (err INVALID_PARAMETER, vol)) /\
  NTFSVolume.list_deleted_files fuel vol = Some (ok [], vol).
Proof.
  intros Hfail vol.
  destruct (mount_outcome (NTFSVolume.new image)) as (Hc & _ & Hm).
  fold vol in Hc.
  destruct (NTFSVolume.mount (NTFSVolume.new image)) as [r vol0] eqn:E.
  cbn [fst] in Hfail. subst r. destruct Hm as [_ Hb].
  cbn [snd] in vol. subst vol. cbn [NTFSVolume.new NTFSVolume.boot_sector
                                      NTFSVolume.mft_cache] in Hb, Hc.
  split; [|split].
  - intros cluster count. unfold NTFSVolume.read_clusters. rewrite Hb. reflexivity.
  - intros n. apply unmounted_read_mft_entry; assumption.
  - unfold NTFSVolume.list_deleted_files.
    rewrite scan_deleted_errors; [reflexivity|].
    intros n _. exists INVALID_PARAMETER. apply unmounted_read_mft_entry; assumption.
Qed.

Lemma failed_mount_rejects_reads_witness :
  let vol := (NTFSVolume.mount (NTFSVolume.new no_ntfs_image)).2 in
  (forall cluster count,
     NTFSVolume.read_clusters vol cluster count = (Some (err INVALID_PARAMETER), vol)) /\
  (forall n, NTFSVolume.read_mft_entry 2 vol n = Some (err INVALID_PARAMETER, vol)) /\
  NTFSVolume.list_deleted_files 2 vol = Some (ok [], vol).
Proof.
  apply (failed_mount_rejects_reads no_ntfs_image IO_ERROR 2).
  vm_compute. reflexivity.
Defined.

(** ** The MFT cache *)

Lemma read_mft_entry_ok fuel vol n e vol' :
  NTFSVolume.read_mft_entry fuel vol n = Some (ok e, vol') ->
  (NTFSVolume.mft_cache vol !! n = Some e /\ vol' = vol) \/
  (NTFSVolume.mft_cache vol !! n = None /\ MFTEntry.reference e = n /\
   NTFSVolume.mft_cache vol' = <[n := e]> (NTFSVolume.mft_cache vol)).
Proof.
  unfold NTFSVolume.read_mft_entry.
  destruct (NTFSVolume.mft_cache vol !! n) as [e0|] eqn:Hc.
  - intros [= <- <-]. left. auto.
  - destruct (NTFSVolume.boot_sector vol) as [b|]; [|discriminate].
    destruct (NTFSVolume.partition_offset vol) as [p|]; [|discriminate].
    destruct (NTFSVolume.split_image vol) as [si|]; [|discriminate].
    destruct (SplitImageFile.read si _ 1024) as [[[|x d]|] si']; try discriminate.
    destruct (MFTEntry.from_bytes fuel (x :: d) 0) as [[e1|k]|]; try discriminate.
    intros [= <- <-]. right. split; [reflexivity|]. split; reflexivity.
Qed.

Lemma read_mft_entry_err fuel vol n k vol' :
  NTFSVolume.read_mft_entry fuel vol n = Some (err k, vol') ->
  NTFSVolume.mft_cache vol' = NTFSVolume.mft_cache vol.
Proof.
  unfold NTFSVolume.read_mft_entry.
  destruct (NTFSVolume.mft_cache vol !! n) as [e0|]; [discriminate|].
  destruct (NTFSVolume.boot_sector vol) as [b|]; [|intros [= _ <-]; reflexivity].
  destruct (NTFSVolume.partition_offset vol) as [p|]; [|intros [= _ <-]; reflexivity].
  destruct (NTFSVolume.split_image vol) as [si|]; [|intros [= _ <-]; reflexivity].
  destruct (SplitImageFile.read si _ 1024) as [[[|x d]|] si'];
    try (intros [= _ <-]; reflexivity).
  destruct (MFTEntry.from_bytes fuel (x :: d) 0) as [[e1|k1]|]; try discriminate.
  intros [= _ <-]. reflexivity.
Qed.

Lemma read_mft_entry_hit fuel vol n e :
  NTFSVolume.mft_cache vol !! n = Some e ->
  NTFSVolume.read_mft_entry fuel vol n = Some (ok e, vol).
Proof. intros H. unfold NTFSVolume.read_mft_entry. rewrite H. reflexivity. Qed.

(** X7: once [read_mft_entry] has returned a record, every later read of
    the same record number on the resulting volume returns the same record
    and changes nothing, whatever the number of iterations allowed to the
    decoder; and a read never replaces or removes a record that is in the
    cache. *)
Theorem read_mft_entry_is_cached fuel vol n e vol' :
  NTFSVolume.read_mft_entry fuel vol n = Some (ok e, vol') ->
  (forall fuel', NTFSVolume.read_mft_entry fuel' vol' n = Some (ok e, vol')) /\
  (forall m e0, NTFSVolume.mft_cache vol !! m = Some e0 ->
                NTFSVolume.mft_cache vol' !! m = Some e0).
Proof.
  intros H. destruct (read_mft_entry_ok _ _ _ _ _ H) as [[Hc ->]|(Hc & _ & Hc')].
  - split; [|auto]. intros fuel'. apply read_mft_entry_hit, Hc.
  - split.
    + intros fuel'. apply read_mft_entry_hit. rewrite Hc'. apply lookup_insert_eq.
    + intros m e0 Hm. rewrite Hc'. rewrite lookup_insert_ne; [exact Hm|].
      intros <-. rewrite Hc in Hm. discriminate.
Qed.

Lemma read_mft_entry_is_cached_witness :
  let e := MFTEntry.set_reference 0 deleted_MFT_entry in
  let vol1 := NTFSVolume.with_cached
                (NTFSVolume.with_split_image test_volume (test_reader 2048)) 0 e in
  (forall fuel', NTFSVolume.read_mft_entry fuel' vol1 0 = Some (ok e, vol1)) /\
  (forall m e0, NTFSVolume.mft_cache test_volume !! m = Some e0 ->
                NTFSVolume.mft_cache vol1 !! m = Some e0).
Proof.
  intros e vol1.
  apply (read_mft_entry_is_cached 2 test_volume 0 e vol1).
  exact (proj1 test_volume_after_first_read).
Defined.

Lemma cache_inv_read fuel vol n r vol' :
  cache_inv vol ->
  NTFSVolume.read_mft_entry fuel vol n = Some (r, vol') ->
  cache_inv vol' /\ (forall e, r = ok e -> MFTEntry.reference e = n).
Proof.
  intros Hinv H. destruct r as [e|k].
  - destruct (read_mft_entry_ok _ _ _ _ _ H) as [[Hc ->]|(Hc & Hr & Hc')].
    + split; [exact Hinv|]. intros e' [= <-]. apply Hinv, Hc.
    + split; [|intros e' [= <-]; exact Hr].
      intros m e0. rewrite Hc'. destruct (decide (n = m)) as [<-|Hne].
      * rewrite lookup_insert_eq. intros [= <-]. exact Hr.
      * rewrite lookup_insert_ne by exact Hne. apply Hinv.
  - split; [|discriminate]. intros m e0. rewrite (read_mft_entry_err _ _ _ _ _ H).
    apply Hinv.
Qed.

(** X8: every record in the cache is filed under its own reference.  This
    holds for a new volume and is kept by [mount] and by [read_mft_entry], so
    that a record returned for the number [n], decoded or taken from the
    cache, has reference [n]. *)
Theorem cache_holds_own_references :
  (forall image, cache_inv (NTFSVolume.new image)) /\
  (forall vol, cache_inv vol -> cache_inv (NTFSVolume.mount vol).2) /\
  (forall fuel vol n r vol',
     cache_inv vol ->
     NTFSVolume.read_mft_entry fuel vol n = Some (r, vol') ->
     cache_inv vol' /\ (forall e, r = ok e -> MFTEntry.reference e = n)).
Proof.
  split; [|split].
  - intros image n e. cbn. rewrite lookup_empty. discriminate.
  - intros vol Hinv n e. rewrite (proj1 (mount_outcome vol)). apply Hinv.
  - apply cache_inv_read.
Qed.

Lemma cache_holds_own_references_witness :
  cache_inv (NTFSVolume.mount (NTFSVolume.new test_image)).2 /\
  forall fuel n r vol',
    NTFSVolume.read_mft_entry fuel (NTFSVolume.mount (NTFSVolume.new test_image)).2 n
      = Some (r, vol') ->
    cache_inv vol' /\ (forall e, r = ok e -> MFTEntry.reference e = n).
Proof.
  destruct cache_holds_own_references as (Hnew & Hmount & Hread).
  pose proof (Hmount _ (Hnew test_image)) as H.
  split; [exact H|]. intros fuel n r vol'. apply Hread. exact H.
Defined.

(** ** Termination of the decoding loops *)

Lemma run_body_inv data start st st' :
  run_inv data start st ->
  MFTAttribute.run_body data st = Continue st' -> run_inv data start st'.
Proof.
  destruct st as [[o c] runs]. destruct st' as [[o' c'] runs'].
  intros (Hoff & _ & Hruns). unfold MFTAttribute.run_body. intros H.
  destruct (negb _); [discriminate|].
  destruct (getitem data o) as [h|]; [|discriminate].
  destruct (byteZ h =? 0); [discriminate|].
  destruct (Z.gtb_spec (o + 1 + Z.land (byteZ h) 15 + Z.land (Z.shiftr (byteZ h) 4) 15)
                       (len data)); [discriminate|].
  destruct (getitem _ (-1)) as [last|] eqn:Hlast; [|discriminate].
  injection H as <- <- <-.
  pose proof (nibbles_nonneg h) as [Hl Hh].
  assert (Hone : 1 <= Z.land (Z.shiftr (byteZ h) 4) 15).
  { destruct (Z.eq_dec (Z.land (Z.shiftr (byteZ h) 4) 15) 0) as [E|E]; [|lia].
    rewrite E, Z.add_0_r, slice_empty in Hlast. discriminate. }
  unfold run_inv. rewrite len_app. change (len [_]) with 1.
  split; [lia|]. split; [right; lia|].
  apply Forall_app. split; [exact Hruns|]. constructor; [|constructor].
  cbn. apply int_from_bytes_range.
Qed.

Lemma run_body_exit data start st runs completed :
  run_inv data start st ->
  MFTAttribute.run_body data st = Break (runs, completed) ->
  (runs = [] \/ start + 2 * len runs <= len data) /\
  Forall (fun r => 0 <= DataRun.length r) runs.
Proof.
  destruct st as [[o c] runs0].
  intros (Hoff & Hle & Hruns). unfold MFTAttribute.run_body. intros H.
  assert (G : (runs0 = [] \/ start + 2 * len runs0 <= len data) /\
              Forall (fun r => 0 <= DataRun.length r) runs0).
  { split; [|exact Hruns]. destruct Hle as [->|Hle]; [left; reflexivity|right; lia]. }
  break_match H; injection H as <- _; exact G.
Qed.

Lemma run_loop_facts data runs_offset n runs completed :
  loop (MFTAttribute.run_body data) n (runs_offset, 0, []) = Some (runs, completed) ->
  (runs = [] \/ runs_offset + 2 * len runs <= len data) /\
  Forall (fun r => 0 <= DataRun.length r) runs.
Proof.
  apply (loop_invariant (MFTAttribute.run_body data) (run_inv data runs_offset)
           (fun r => (r.1 = [] \/ runs_offset + 2 * len r.1 <= len data) /\
                     Forall (fun x => 0 <= DataRun.length x) r.1)).
  - intros st st'. apply run_body_inv.
  - intros st [rs cp]. apply run_body_exit.
  - unfold run_inv. change (len []) with 0. split; [lia|]. split; [left; reflexivity|].
    constructor.
Qed.

(** X9: the data-run decoder ends on every input: the loop over the
    descriptors of an attribute of [len(data)] bytes returns within
    [len(data) + 1] iterations.  Each decoded run has a count that is not
    negative, and there are at most [(len(data) - runs_offset) / 2] runs. *)
Theorem data_run_decoder_ends data :
  let runs_offset := int_from_bytes (slice data 32 34) in
  exists runs completed,
    loop (MFTAttribute.run_body data) (S (length data)) (runs_offset, 0, [])
      = Some (runs, completed) /\
    MFTAttribute.parse_data_runs data runs_offset = (runs, completed) /\
    Forall (fun r => 0 <= DataRun.length r) runs /\
    (runs = [] \/ runs_offset + 2 * len runs <= len data).
Proof.
  intros runs_offset.
  pose proof (int_from_bytes_range (slice data 32 34)) as [Hpos _].
  fold runs_offset in Hpos.
  destruct (run_loop_total data runs_offset Hpos) as [[runs completed] L].
  exists runs, completed. split; [exact L|].
  split; [unfold MFTAttribute.parse_data_runs; rewrite L; reflexivity|].
  destruct (run_loop_facts _ _ _ _ _ L) as [G1 G2]. split; assumption.
Qed.

Lemma loop_None_stuck {S A} (body : S -> step S A) (measure : S -> nat) (I : S -> Prop) :
  (forall s s', I s -> body s = Continue s' -> I s') ->
  forall n s, I s -> (measure s < n)%nat -> loop body n s = None ->
    exists s1 s2, I s1 /\ body s1 = Continue s2 /\ (measure s1 <= measure s2)%nat.
Proof.
  intros Hinv. induction n as [|n IH]; intros s Hs Hm H; [lia|].
  cbn [loop] in H. destruct (body s) as [s'|a] eqn:E; [|discriminate].
  destruct (le_lt_dec (measure s) (measure s')) as [Hle|Hlt].
  - exists s, s'. auto.
  - apply (IH s'); [eapply Hinv; eassumption|lia|exact H].
Qed.

Lemma attr_body_step data used_size o attrs o' attrs' :
  0 <= o ->
  MFTEntry.attr_body data 0 used_size (o, attrs) = Continue (o', attrs') ->
  o + 8 < len data /\
  o' = o + int_from_bytes (slice data (o + 4) (o + 8)) /\
  int_from_bytes (slice data o (o + 4)) <> 0xFFFFFFFF.
Proof.
  intros Ho. unfold MFTEntry.attr_body. intros H.
  destruct (negb _); [discriminate|].
  destruct (Z.eqb_spec (int_from_bytes (slice data o (o + 4))) 0xFFFFFFFF) as [|Hty];
    [discriminate|].
  destruct (MFTEntry.parse_attribute _ _ _) as [[a n]|] eqn:P; [|discriminate].
  injection H as <- _.
  unfold MFTEntry.parse_attribute in P.
  destruct (getitem data (o + 8)) as [flag|] eqn:G; [|discriminate].
  cbn [mbind option_bind] in P.
  destruct (getitem data (o + 9)) as [nl|]; [|discriminate].
  cbn [mbind option_bind] in P.
  match type of P with context [mbind _ ?m] => destruct m as [nm|] end; [|discriminate].
  cbn [mbind option_bind] in P. injection P as _ <-.
  split; [|split; [reflexivity|exact Hty]].
  apply (getitem_Some_range data (o + 8) flag); [lia|exact G].
Qed.

(** X10: the record decoder returns within [len(data) + 1] iterations of
    the attribute loop unless the data holds, at some offset, an attribute
    header that is not the sentinel and declares the length 0: such a header
    is the only way for the loop not to end. *)
Theorem record_decoder_ends_or_zero_length data :
  (exists r, MFTEntry.from_bytes (S (length data)) data 0 = Some r) \/
  (exists o, zero_length_header data o).
Proof.
  unfold MFTEntry.from_bytes.
  destruct (negb _); [left; eauto|].
  set (used_size := int_from_bytes (slice data (0 + 24) (0 + 28))).
  set (start := 0 + int_from_bytes (slice data (0 + 20) (0 + 22))).
  destruct (loop _ _ _) as [[attrs|]|] eqn:L; [left; eauto|left; eauto|].
  right.
  destruct (loop_None_stuck (MFTEntry.attr_body data 0 used_size)
              (fun st : MFTEntry.attr_state => Z.to_nat (len data - st.1))
              (fun st : MFTEntry.attr_state => 0 <= st.1)) with
      (n := S (length data)) (s := (start, @nil MFTAttribute.t))
    as ([o attrs] & [o' attrs'] & Ho & Hbody & Hm).
  - intros [o attrs] [o' attrs'] Ho Hb. cbn [fst] in *.
    destruct (attr_body_step _ _ _ _ _ _ Ho Hb) as (_ & -> & _).
    pose proof (int_from_bytes_range (slice data (o + 4) (o + 8))). lia.
  - cbn [fst]. unfold start.
    pose proof (int_from_bytes_range (slice data (0 + 20) (0 + 22))). lia.
  - cbn [fst]. unfold start, len.
    pose proof (int_from_bytes_range (slice data (0 + 20) (0 + 22))). lia.
  - exact L.
  - cbn [fst] in *. exists o.
    destruct (attr_body_step _ _ _ _ _ _ Ho Hbody) as (Hlt & -> & Hty).
    pose proof (int_from_bytes_range (slice data (o + 4) (o + 8))).
    unfold zero_length_header. repeat split; try assumption. lia.
Qed.

(** ** File views *)

Section FileViewReads.

Context {V : Type}.
Variable read_clusters : V -> Z -> Z -> option (Result bytes) * V.

Lemma read_runs_deleted_agrees runs : forall vol data result vol',
  NTFSFile.read_runs read_clusters vol runs data = (Some (ok result), vol') ->
  NTFSFile.read_runs_deleted read_clusters vol runs data = (result, vol').
Proof.
  induction runs as [|run rest IH]; intros vol data result vol' H; cbn in *.
  - injection H as <- <-. reflexivity.
  - destruct (read_clusters vol (DataRun.cluster run) (DataRun.length run))
      as [[[buffer|e]|] vol1]; try discriminate.
    apply IH. exact H.
Qed.

(** X11: [read_deleted_data] never fails: it returns a success for every
    file view and every behaviour of the cluster reads.  Whenever
    [read_data] succeeds, [read_deleted_data] returns the same bytes and
    leaves the volume in the same state. *)
Theorem read_deleted_data_never_fails vol f :
  (exists data vol', NTFSFile.read_deleted_data read_clusters vol f = (ok data, vol')) /\
  (forall data vol',
     NTFSFile.read_data read_clusters vol f = (ok data, vol') ->
     NTFSFile.read_deleted_data read_clusters vol f = (ok data, vol')).
Proof.
  unfold NTFSFile.read_deleted_data, NTFSFile.read_data.
  destruct (NTFSFile.find_data_attr f) as [a|]; [|split; eauto].
  destruct (MFTAttribute.resident a); [split; eauto|].
  split.
  - destruct (NTFSFile.read_runs_deleted _ _ _ _) as [d v]. eauto.
  - intros data vol'.
    destruct (NTFSFile.read_runs read_clusters vol (MFTAttribute.data_runs a) [])
      as [[[d|e]|] v] eqn:R; try discriminate.
    intros [= <- <-]. rewrite (read_runs_deleted_agrees _ _ _ _ _ R). reflexivity.
Qed.

(** X12: for a non-resident unnamed $DATA whose declared size is not
    negative, neither [read_data] nor [read_deleted_data] ever returns more
    bytes than the declared size. *)
Theorem reads_bounded_by_data_size vol f a :
  NTFSFile.find_data_attr f = Some a ->
  MFTAttribute.resident a = false ->
  0 <= MFTAttribute.data_size a ->
  (forall data, (NTFSFile.read_data read_clusters vol f).1 = ok data ->
                len data <= MFTAttribute.data_size a) /\
  (forall data, (NTFSFile.read_deleted_data read_clusters vol f).1 = ok data ->
                len data <= MFTAttribute.data_size a).
Proof.
  intros Hf Hr Hs. unfold NTFSFile.read_deleted_data, NTFSFile.read_data.
  rewrite Hf, Hr.
  pose proof (fun d => len_slice_le (A := byte) d 0 (MFTAttribute.data_size a) Hs) as B.
  cbn [Z.add] in B.
  split.
  - destruct (NTFSFile.read_runs _ _ _ _) as [[[d|e]|] v]; try discriminate.
    intros data [= <-]. apply B.
  - destruct (NTFSFile.read_runs_deleted _ _ _ _) as [d v].
    intros data [= <-]. apply B.
Qed.

Lemma read_runs_first_failure before : forall vol data buffers vol1 run after r vol2,
  run_buffers read_clusters vol before = (Some buffers, vol1) ->
  read_clusters vol1 (DataRun.cluster run) (DataRun.length run) = (r, vol2) ->
  (forall buffer, r <> Some (ok buffer)) ->
  NTFSFile.read_runs read_clusters vol (before ++ run :: after) data
  = (match r with Some (err e) => Some (err e) | _ => None end, vol2).
Proof.
  induction before as [|b before IH];
    intros vol data buffers vol1 run after r vol2 Hb Hr Hne; cbn in *.
  - injection Hb as <- <-. rewrite Hr.
    destruct r as [[buffer|e]|]; [exfalso; eapply Hne; reflexivity| |]; reflexivity.
  - destruct (read_clusters vol (DataRun.cluster b) (DataRun.length b))
      as [[[buffer|e]|] v]; try discriminate.
    destruct (run_buffers read_clusters v before) as [[bs|] v'] eqn:E; try discriminate.
    injection Hb as <- <-. eapply IH; eassumption.
Qed.

(** X13: when the reads of the runs before some run succeed and the read of
    that run fails with an error, [read_data] returns that error and none of
    the bytes read, and no later run is read; when the read raises instead,
    [read_data] returns IO_ERROR. *)
Theorem read_data_stops_at_first_failure vol f a before run after buffers vol1 r vol2 :
  NTFSFile.find_data_attr f = Some a ->
  MFTAttribute.resident a = false ->
  MFTAttribute.data_runs a = before ++ run :: after ->
  run_buffers read_clusters vol before = (Some buffers, vol1) ->
  read_clusters vol1 (DataRun.cluster run) (DataRun.length run) = (r, vol2) ->
  (forall buffer, r <> Some (ok buffer)) ->
  NTFSFile.read_data read_clusters vol f
  = (err (match r with Some (err e) => e | _ => IO_ERROR end), vol2).
Proof.
  intros Hf Hres Hruns Hb Hr Hne. unfold NTFSFile.read_data.
  rewrite Hf, Hres, Hruns.
  rewrite (read_runs_first_failure before vol [] buffers vol1 run after r vol2 Hb Hr Hne).
  destruct r as [[buffer|e]|]; [exfalso; eapply Hne; reflexivity| |]; reflexivity.
Qed.

End FileViewReads.

Lemma read_deleted_data_never_fails_witness :
  NTFSFile.read_deleted_data NTFSVolume.read_clusters test_volume no_runs_file
  = (ok [], test_volume).
Proof.
  apply (proj2 (read_deleted_data_never_fails NTFSVolume.read_clusters
                  test_volume no_runs_file)).
  vm_compute. reflexivity.
Defined.

Lemma reads_bounded_by_data_size_witness :
  (forall data,
     (NTFSFile.read_data NTFSVolume.read_clusters test_volume one_run_file).1 = ok data ->
     len data <= 100) /\
  (forall data,
     (NTFSFile.read_deleted_data NTFSVolume.read_clusters test_volume one_run_file).1
       = ok data ->
     len data <= 100).
Proof.
  apply (reads_bounded_by_data_size NTFSVolume.read_clusters test_volume one_run_file
           (MFTAttribute.mk 0x80 None false [] [DataRun.mk 0 1] 100)).
  - reflexivity.
  - reflexivity.
  - cbn. lia.
Defined.

Lemma read_data_stops_at_first_failure_witness :
  NTFSFile.read_data NTFSVolume.read_clusters test_volume two_run_file
  = (err IO_ERROR, (NTFSVolume.read_clusters
                      (NTFSVolume.read_clusters test_volume 0 1).2 100 1).2).
Proof.
  apply (read_data_stops_at_first_failure NTFSVolume.read_clusters test_volume two_run_file
           (MFTAttribute.mk 0x80 None false [] [DataRun.mk 0 1; DataRun.mk 100 1] 700)
           [DataRun.mk 0 1] (DataRun.mk 100 1) []
           [boot NTFSBootSector.NTFS_tag]
           (NTFSVolume.read_clusters test_volume 0 1).2
           (Some (err IO_ERROR))).
  - reflexivity.
  - reflexivity.
  - reflexivity.
  - vm_compute. reflexivity.
  - vm_compute. reflexivity.
  - intros buffer. discriminate.
Defined.

Lemma parse_attribute_name st a :
  (NTFSFile.parse_attribute st a).1.1.1 = st.1.1.1 \/
  MFTAttribute.type_id a = 0x30.
Proof.
  destruct st as [[[nm sz] ct] mt]. unfold NTFSFile.parse_attribute.
  destruct (Z.eqb_spec (MFTAttribute.type_id a) 0x30); [right; assumption|left].
  destruct (MFTAttribute.type_id a =? 128).
  - destruct (negb _); [destruct (negb _)|]; reflexivity.
  - destruct (MFTAttribute.type_id a =? 16); [destruct (_ && _)|]; reflexivity.
Qed.

Lemma fold_parse_name attrs : forall st,
  (fold_left NTFSFile.parse_attribute attrs st).1.1.1 = st.1.1.1 \/
  existsb (fun attr => MFTAttribute.type_id attr =? 0x30) attrs = true.
Proof.
  induction attrs as [|a attrs IH]; intros st; cbn [fold_left existsb]; [left; reflexivity|].
  destruct (IH (NTFSFile.parse_attribute st a)) as [E|E].
  - destruct (parse_attribute_name st a) as [E'|E'].
    + left. congruence.
    + right. rewrite E'. reflexivity.
  - right. rewrite E. apply orb_true_r.
Qed.

Lemma new_fields e :
  let st := fold_left NTFSFile.parse_attribute (MFTEntry.attributes e) (None, 0, None, None) in
  NTFSFile.name (NTFSFile.new e) = st.1.1.1 /\
  NTFSFile.size (NTFSFile.new e) = (if MFTEntry.is_directory e then 0 else st.1.1.2) /\
  NTFSFile.is_directory (NTFSFile.new e) = MFTEntry.is_directory e.
Proof.
  intros st. unfold NTFSFile.new. fold st. destruct st as [[[nm sz] ct] mt]. auto.
Qed.

(** X14: a file view has a name only if its record has a $FILE_NAME
    attribute; it is a directory exactly when bit 1 of the record flags is
    set, and then its size is 0. *)
Theorem view_name_and_directory e :
  (MFTEntry.has_file_name e = false -> NTFSFile.name (NTFSFile.new e) = None) /\
  NTFSFile.is_directory (NTFSFile.new e) = negb (Z.land (MFTEntry.flags e) 2 =? 0) /\
  (NTFSFile.is_directory (NTFSFile.new e) = true -> NTFSFile.size (NTFSFile.new e) = 0).
Proof.
  destruct (new_fields e) as (Hn & Hs & Hd). split; [|split].
  - intros Hno. rewrite Hn.
    destruct (fold_parse_name (MFTEntry.attributes e) (None, 0, None, None)) as [E|E].
    + exact E.
    + unfold MFTEntry.has_file_name in Hno. rewrite Hno in E. discriminate.
  - rewrite Hd. reflexivity.
  - rewrite Hd, Hs. intros ->. reflexivity.
Qed.

Lemma view_name_and_directory_witness :
  NTFSFile.name (NTFSFile.new hello_entry) = None.
Proof.
  apply (proj1 (view_name_and_directory hello_entry)). reflexivity.
Defined.

Lemma parse_attribute_other st a :
  MFTAttribute.type_id a <> 0x80 ->
  (NTFSFile.parse_attribute st a).1.1.2 = st.1.1.2.
Proof.
  intros Hne. destruct st as [[[nm sz] ct] mt]. unfold NTFSFile.parse_attribute.
  destruct (MFTAttribute.type_id a =? 48).
  - destruct (negb _); [|reflexivity].
    destruct (truthy _); [reflexivity|].
    destruct (_ && _); [|reflexivity].
    destruct (getitem _ 64); [|reflexivity].
    destruct (decode_utf16le _); reflexivity.
  - destruct (Z.eqb_spec (MFTAttribute.type_id a) 128); [contradiction|].
    destruct (MFTAttribute.type_id a =? 16); [destruct (_ && _)|]; reflexivity.
Qed.

Lemma fold_parse_other attrs : forall st,
  Forall (fun x => MFTAttribute.type_id x <> 0x80) attrs ->
  (fold_left NTFSFile.parse_attribute attrs st).1.1.2 = st.1.1.2.
Proof.
  induction attrs as [|a attrs IH]; intros st H; cbn [fold_left]; [reflexivity|].
  inversion H; subst. rewrite IH by assumption. apply parse_attribute_other. assumption.
Qed.

Lemma find_unnamed_data before a after :
  MFTAttribute.type_id a = 0x80 -> truthy (MFTAttribute.name a) = false ->
  Forall (fun x => MFTAttribute.type_id x <> 0x80) before ->
  List.find (fun attr => (MFTAttribute.type_id attr =? 0x80)
                         && negb (truthy (MFTAttribute.name attr)))
            (before ++ a :: after) = Some a.
Proof.
  intros Ht Hn. induction before as [|b before IH]; intros H; cbn.
  - rewrite Ht, Hn. reflexivity.
  - inversion H; subst.
    destruct (Z.eqb_spec (MFTAttribute.type_id b) 128); [contradiction|].
    cbn. apply IH. assumption.
Qed.

(** X15: for the view of a record that is not a directory and has a single
    $DATA attribute, without a name, [size] is the length of the content when
    the attribute is resident and the declared size otherwise; when it is
    resident, [read_data] returns exactly [size] bytes, the content, without
    reading the volume. *)
Theorem view_size_matches_data {V} (read_clusters : V -> Z -> Z -> option (Result bytes) * V)
    (vol : V) e before a after :
  only_unnamed_data e before a after ->
  MFTEntry.is_directory e = false ->
  NTFSFile.size (NTFSFile.new e)
    = (if MFTAttribute.resident a then len (MFTAttribute.data a)
       else MFTAttribute.data_size a) /\
  (MFTAttribute.resident a = true ->
   NTFSFile.read_data read_clusters vol (NTFSFile.new e)
     = (ok (MFTAttribute.data a), vol) /\
   len (MFTAttribute.data a) = NTFSFile.size (NTFSFile.new e)).
Proof.
  intros (Hattrs & Ht & Hn & Hothers) Hdir.
  apply Forall_app in Hothers. destruct Hothers as [Hb Ha].
  destruct (new_fields e) as (_ & Hs & _). rewrite Hdir in Hs.
  assert (Hsize : NTFSFile.size (NTFSFile.new e)
                  = (if MFTAttribute.resident a then len (MFTAttribute.data a)
                     else MFTAttribute.data_size a)).
  { rewrite Hs, Hattrs, fold_left_app. cbn [fold_left].
    rewrite fold_parse_other by exact Ha.
    set (st := fold_left NTFSFile.parse_attribute before (None, 0, None, None)).
    destruct st as [[[nm sz] ct] mt]. unfold NTFSFile.parse_attribute.
    rewrite Ht. cbn [Z.eqb Pos.eqb]. rewrite Hn. cbn [negb].
    destruct (MFTAttribute.resident a); reflexivity. }
  split; [exact Hsize|].
  intros Hres. unfold NTFSFile.read_data, NTFSFile.find_data_attr.
  rewrite mft_entry_new, Hattrs, (find_unnamed_data before a after Ht Hn Hb), Hres.
  split; [reflexivity|]. rewrite Hsize, Hres. reflexivity.
Qed.

Lemma view_size_matches_data_witness :
  NTFSFile.size (NTFSFile.new hello_entry) = 5 /\
  NTFSFile.read_data NTFSVolume.read_clusters test_volume (NTFSFile.new hello_entry)
    = (ok [x68; x65; x6c; x6c; x6f], test_volume).
Proof.
  destruct (view_size_matches_data NTFSVolume.read_clusters test_volume hello_entry
              [MFTAttribute.mk 0x10 None true (zeros 48) [] 48]
              (MFTAttribute.mk 0x80 None true [x68; x65; x6c; x6c; x6f] [] 5) [])
    as [Hsize Hread].
  - split; [reflexivity|]. split; [reflexivity|]. split; [reflexivity|].
    repeat constructor. cbn. discriminate.
  - reflexivity.
  - split; [exact Hsize|]. exact (proj1 (Hread eq_refl)).
Defined.

(** ** Directory listings *)

Lemma root_entry_kept d o e : NTFSVolume.root_entry d o = Some e -> root_kept e.
Proof.
  unfold NTFSVolume.root_entry. intros H.
  pose proof (int_from_bytes_range (slice d (o + 8) (o + 16))) as R.
  pose proof (len_slice_le d (o + 8) 8 ltac:(lia)) as L.
  replace (o + 8 + 8) with (o + 16) in L by lia.
  assert (Hpow : 2 ^ (8 * len (slice d (o + 8) (o + 16))) <= 2 ^ 64)
    by (apply Z.pow_le_mono_r; lia).
  break_match H. injection H as <-.
  match goal with E : (_ =? 0) = false |- _ => apply Z.eqb_neq in E end.
  match goal with E : negb (_ || _) && _ = true |- _ =>
    apply andb_true_iff in E; destruct E as [E _];
    apply negb_true_iff, orb_false_iff in E; destruct E as [Hdot Hdotdot];
    apply bool_decide_eq_false in Hdot; apply bool_decide_eq_false in Hdotdot end.
  unfold root_kept. cbn [fst snd]. repeat split; try assumption; lia.
Qed.

Lemma index_root_entries_kept d : Forall root_kept (NTFSVolume.index_root_entries d).
Proof.
  unfold NTFSVolume.index_root_entries.
  destruct (len d <? 16); [constructor|].
  destruct (len d <? 16 + 16); [constructor|].
  destruct (loop _ _ _) as [kept|] eqn:L; [|constructor].
  revert L.
  apply (loop_invariant _
           (fun st : NTFSVolume.walk_state => Forall root_kept st.2)
           (Forall root_kept)); [| |constructor].
  - intros [o l] [o' l'] Hl. unfold NTFSVolume.root_body. intros Hb. break_match Hb.
    all: injection Hb as <- <-; simpl in *; auto.
    apply Forall_app. split; [assumption|].
    constructor; [|constructor]. eapply root_entry_kept; eassumption.
  - intros [o l] r Hl. unfold NTFSVolume.root_body. intros Hb. break_match Hb.
    all: injection Hb as <-; simpl in *; auto.
Qed.

(** X16: an entry the $INDEX_ROOT walk keeps for the lookup has a file
    reference between 1 and 2^64 - 1 and a name that is neither "." nor
    "..". *)
Theorem index_root_walk_keeps data file_ref filename :
  In (file_ref, filename) (NTFSVolume.index_root_entries data) ->
  0 < file_ref < 2 ^ 64 /\ filename <> NTFSVolume.dot /\ filename <> NTFSVolume.dotdot.
Proof.
  intros H. pose proof (index_root_entries_kept data) as F.
  rewrite List.Forall_forall in F. exact (F _ H).
Qed.

Lemma root_walk_payload_entries :
  NTFSVolume.index_root_entries root_walk_payload = [(2 ^ 48, a_txt)].
Proof. vm_compute. reflexivity. Qed.

Lemma index_root_walk_keeps_witness :
  0 < 2 ^ 48 < 2 ^ 64 /\ a_txt <> NTFSVolume.dot /\ a_txt <> NTFSVolume.dotdot.
Proof.
  apply (index_root_walk_keeps root_walk_payload).
  rewrite root_walk_payload_entries. left. reflexivity.
Defined.

Lemma land_48_range r : 0 <= Z.land r 0xFFFFFFFFFFFF < 2 ^ 48.
Proof.
  change 0xFFFFFFFFFFFF with (Z.ones 48). rewrite Z.land_ones by lia.
  apply Z.mod_pos_bound. lia.
Qed.

Lemma lookup_entries_listed fuel kept : forall vol files files' vol',
  cache_inv vol -> Forall listed files ->
  NTFSVolume.lookup_entries fuel vol kept files = Some (files', vol') ->
  Forall listed files' /\ cache_inv vol'.
Proof.
  induction kept as [|[r nm] rest IH]; intros vol files files' vol' Hinv Hf H;
    cbn [NTFSVolume.lookup_entries] in H.
  - injection H as <- <-. auto.
  - destruct (NTFSVolume.read_mft_entry fuel vol (Z.land r 0xFFFFFFFFFFFF))
      as [[res vol1]|] eqn:R; [|discriminate].
    destruct (cache_inv_read _ _ _ _ _ Hinv R) as [Hinv1 Href].
    destruct res as [entry|k].
    + apply (IH _ _ _ _ Hinv1) in H; [exact H|].
      destruct (truthy _) eqn:T; [|exact Hf].
      apply Forall_app. split; [exact Hf|]. constructor; [|constructor].
      split; [exact T|]. rewrite mft_entry_new, (Href entry eq_refl).
      apply land_48_range.
    + apply (IH _ _ _ _ Hinv1 Hf H).
Qed.

Lemma read_clusters_cache vol c n r vol' :
  NTFSVolume.read_clusters vol c n = (r, vol') ->
  NTFSVolume.mft_cache vol' = NTFSVolume.mft_cache vol.
Proof.
  unfold NTFSVolume.read_clusters.
  destruct (NTFSVolume.boot_sector vol) as [b|]; [|intros [= _ <-]; reflexivity].
  destruct (NTFSVolume.partition_offset vol) as [p|]; [|intros [= _ <-]; reflexivity].
  destruct (NTFSVolume.split_image vol) as [si|]; [|intros [= _ <-]; reflexivity].
  destruct (SplitImageFile.read si _ _) as [[[|x d]|] si']; intros [= _ <-]; reflexivity.
Qed.

Lemma parse_runs_listed fuel runs : forall vol files files' vol',
  cache_inv vol -> Forall listed files ->
  NTFSVolume.parse_runs fuel vol runs files = Some (files', vol') ->
  Forall listed files' /\ cache_inv vol'.
Proof.
  induction runs as [|run rest IH]; intros vol files files' vol' Hinv Hf H;
    cbn [NTFSVolume.parse_runs] in H.
  - injection H as <- <-. auto.
  - destruct (NTFSVolume.read_clusters vol (DataRun.cluster run) (DataRun.length run))
      as [r vol1] eqn:R.
    assert (Hinv1 : cache_inv vol1).
    { intros m e. rewrite (read_clusters_cache _ _ _ _ _ R). apply Hinv. }
    destruct r as [[data|k]|].
    + destruct (NTFSVolume.lookup_entries fuel vol1 _ files) as [[files1 vol2]|] eqn:L;
        [|discriminate].
      destruct (lookup_entries_listed _ _ _ _ _ _ Hinv1 Hf L) as [Hf1 Hinv2].
      apply (IH _ _ _ _ Hinv2 Hf1 H).
    + apply (IH _ _ _ _ Hinv1 Hf H).
    + injection H as <- <-. auto.
Qed.

Lemma list_directory_listed fuel vol dir_entry files vol' :
  cache_inv vol ->
  NTFSVolume._list_directory fuel vol dir_entry = Some (files, vol') ->
  Forall listed files /\ cache_inv vol'.
Proof.
  intros Hinv. unfold NTFSVolume._list_directory, NTFSVolume._parse_index_allocation.
  destruct (NTFSVolume.last_of_type 144 _) as [a|];
    [destruct (MFTAttribute.resident a); [destruct (len _ <? 32)|]|].
  - intros [= <- <-]. auto.
  - destruct (NTFSVolume.lookup_entries fuel vol _ []) as [[files0 vol0]|] eqn:L;
      [|discriminate].
    destruct (lookup_entries_listed _ _ _ _ _ _ Hinv (List.Forall_nil _) L) as [Hf0 Hinv0].
    destruct (NTFSVolume.last_of_type 160 _) as [b|];
      [destruct (negb _)|]; try (intros [= <- <-]; auto).
    destruct (NTFSVolume.parse_runs fuel vol0 _ []) as [[files1 vol1]|] eqn:P;
      [|discriminate].
    destruct (parse_runs_listed _ _ _ _ _ _ Hinv0 (List.Forall_nil _) P) as [Hf1 Hinv1].
    intros [= <- <-]. split; [apply Forall_app; auto|exact Hinv1].
  - destruct (NTFSVolume.last_of_type 160 _) as [b|];
      [destruct (negb _)|]; try (intros [= <- <-]; auto).
    intros P. apply (parse_runs_listed _ _ _ _ _ _ Hinv (List.Forall_nil _) P).
  - destruct (NTFSVolume.last_of_type 160 _) as [b|];
      [destruct (negb _)|]; try (intros [= <- <-]; auto).
    intros P. apply (parse_runs_listed _ _ _ _ _ _ Hinv (List.Forall_nil _) P).
Qed.

(** X17: every file view [_list_directory] returns has a name that is not
    empty and belongs to a record whose reference is a 48-bit MFT index, on
    every volume whose cached records are filed under their own references;
    the volume it leaves is again such a volume. *)
Theorem listing_yields_named_files fuel vol dir_entry files vol' :
  cache_inv vol ->
  NTFSVolume._list_directory fuel vol dir_entry = Some (files, vol') ->
  Forall listed files /\ cache_inv vol'.
Proof. apply list_directory_listed. Qed.

Lemma root_walk_dir_listing :
  NTFSVolume._list_directory 2 test_volume root_walk_dir
  = Some ([NTFSFile.new (MFTEntry.set_reference 0 deleted_MFT_entry)],
          NTFSVolume.with_cached
            (NTFSVolume.with_split_image test_volume (test_reader 2048))
            0 (MFTEntry.set_reference 0 deleted_MFT_entry)).
Proof.
  destruct test_volume_after_first_read as [R0 _].
  assert (E1 : NTFSVolume.last_of_type 0x90 (MFTEntry.attributes root_walk_dir)
               = Some (MFTAttribute.mk 0x90 None true root_walk_payload [] 240))
    by reflexivity.
  assert (E2 : NTFSVolume.last_of_type 0xA0 (MFTEntry.attributes root_walk_dir) = None)
    by reflexivity.
  assert (E3 : (len root_walk_payload <? 32) = false) by (vm_compute; reflexivity).
  assert (E4 : truthy (NTFSFile.name
                         (NTFSFile.new (MFTEntry.set_reference 0 deleted_MFT_entry)))
               = true) by (vm_compute; reflexivity).
  unfold NTFSVolume._list_directory. rewrite E1, E2.
  cbn [MFTAttribute.resident MFTAttribute.data]. rewrite E3, root_walk_payload_entries.
  cbn [NTFSVolume.lookup_entries].
  change (Z.land (2 ^ 48) 0xFFFFFFFFFFFF) with 0. rewrite R0, E4. reflexivity.
Qed.

Lemma listing_yields_named_files_witness :
  Forall listed [NTFSFile.new (MFTEntry.set_reference 0 deleted_MFT_entry)] /\
  cache_inv (NTFSVolume.with_cached
               (NTFSVolume.with_split_image test_volume (test_reader 2048))
               0 (MFTEntry.set_reference 0 deleted_MFT_entry)).
Proof.
  apply (listing_yields_named_files 2 test_volume root_walk_dir).
  - intros n e. rewrite (proj1 test_volume_fields), lookup_empty. discriminate.
  - exact root_walk_dir_listing.
Defined.

(** X18: the two index walks end on every input, within [len(data) + 1]
    iterations: the $INDEX_ROOT walk over a payload and the walk over the
    bytes of an INDX block return the entries their loops have kept. *)
Theorem index_walks_end data :
  (exists kept,
     loop (NTFSVolume.root_body data) (S (length data))
          (16 + int_from_bytes (slice data 16 20), []) = Some kept /\
     NTFSVolume.index_root_entries data = (if len data <? 32 then [] else kept)) /\
  (exists kept,
     loop (NTFSVolume.block_body data) (S (length data))
          (24 + int_from_bytes (slice data 24 28), []) = Some kept /\
     NTFSVolume.index_block_entries data
       = (if bool_decide (slice data 0 4 = NTFSVolume.INDX_tag) then kept else [])).
Proof.
  split.
  - pose proof (int_from_bytes_range (slice data 16 20)) as [Hpos _].
    destruct (root_loop_total data (16 + int_from_bytes (slice data 16 20)) ltac:(lia))
      as [kept L].
    exists kept. split; [exact L|]. unfold NTFSVolume.index_root_entries.
    change (16 + 16) with 32. change (16 + 4) with 20. rewrite L.
    destruct (Z.ltb_spec (len data) 16); destruct (Z.ltb_spec (len data) 32);
      try reflexivity; lia.
  - pose proof (int_from_bytes_range (slice data 24 28)) as [Hpos _].
    destruct (block_loop_total data (24 + int_from_bytes (slice data 24 28)) ltac:(lia))
      as [kept L].
    exists kept. split; [exact L|]. unfold NTFSVolume.index_block_entries.
    change (24 + 4) with 28. rewrite L.
    destruct (bool_decide _); reflexivity.
Qed.

(** ** Decoded records and their views *)

Lemma int_slice_range d a n :
  0 <= n -> 0 <= int_from_bytes (slice d a (a + n)) < 2 ^ (8 * n).
Proof.
  intros Hn. pose proof (int_from_bytes_range (slice d a (a + n))) as R.
  pose proof (len_slice_le d a n Hn) as L.
  assert (2 ^ (8 * len (slice d a (a + n))) <= 2 ^ (8 * n))
    by (apply Z.pow_le_mono_r; lia).
  lia.
Qed.

Lemma from_raw_data_decoded ty nm res d :
  decoded_attribute (MFTAttribute.from_raw_data ty nm res d).
Proof.
  unfold MFTAttribute.from_raw_data, decoded_attribute. destruct res; [cbn; auto|].
  destruct (MFTAttribute.parse_data_runs d _) as [runs completed] eqn:P.
  cbn [MFTAttribute.resident MFTAttribute.data MFTAttribute.data_size
       MFTAttribute.data_runs].
  split; [reflexivity|]. split.
  - destruct completed; [|lia]. exact (int_slice_range d 48 8 ltac:(lia)).
  - unfold MFTAttribute.parse_data_runs in P.
    destruct (loop _ _ _) as [r|] eqn:L.
    + subst r. exact (proj2 (run_loop_facts _ _ _ _ _ L)).
    + injection P as <- _. constructor.
Qed.

Lemma parse_attribute_decoded data o ty a n :
  MFTEntry.parse_attribute data o ty = Some (a, n) -> decoded_attribute a.
Proof.
  unfold MFTEntry.parse_attribute. intros P.
  destruct (getitem data (o + 8)) as [flag|]; [|discriminate].
  cbn [mbind option_bind] in P.
  destruct (getitem data (o + 9)) as [nl|]; [|discriminate].
  cbn [mbind option_bind] in P.
  match type of P with context [mbind _ ?m] => destruct m as [nm|] end; [|discriminate].
  cbn [mbind option_bind] in P. injection P as <- _.
  apply from_raw_data_decoded.
Qed.

Lemma from_bytes_decoded fuel data offset e :
  MFTEntry.from_bytes fuel data offset = Some (ok e) -> decoded_record e.
Proof.
  unfold MFTEntry.from_bytes. destruct (negb _); [discriminate|].
  destruct (loop _ _ _) as [[attrs|]|] eqn:L; try discriminate.
  intros [= <-]. unfold decoded_record.
  cbn [MFTEntry.reference MFTEntry.sequence MFTEntry.flags MFTEntry.used_size
       MFTEntry.allocated_size MFTEntry.base_reference MFTEntry.attributes].
  split; [reflexivity|].
  split; [replace (offset + 18) with (offset + 16 + 2) by lia;
          exact (int_slice_range data (offset + 16) 2 ltac:(lia))|].
  split; [replace (offset + 24) with (offset + 22 + 2) by lia;
          exact (int_slice_range data (offset + 22) 2 ltac:(lia))|].
  split; [replace (offset + 28) with (offset + 24 + 4) by lia;
          exact (int_slice_range data (offset + 24) 4 ltac:(lia))|].
  split; [replace (offset + 32) with (offset + 28 + 4) by lia;
          exact (int_slice_range data (offset + 28) 4 ltac:(lia))|].
  split; [replace (offset + 40) with (offset + 32 + 8) by lia;
          exact (int_slice_range data (offset + 32) 8 ltac:(lia))|].
  refine (loop_invariant _
            (fun st : MFTEntry.attr_state => Forall decoded_attribute st.2)
            (fun r => forall l, r = Some l -> Forall decoded_attribute l)
            _ _ _ _ _ _ L attrs eq_refl); [| |constructor].
  - intros [o l] [o' l'] Hl. unfold MFTEntry.attr_body. intros Hb.
    destruct (negb _); [discriminate|]. destruct (_ =? _); [discriminate|].
    destruct (MFTEntry.parse_attribute _ _ _) as [[a n]|] eqn:P; [|discriminate].
    injection Hb as _ <-. cbn [snd] in *. apply Forall_app. split; [exact Hl|].
    constructor; [|constructor]. eapply parse_attribute_decoded, P.
  - intros [o l] r Hl. unfold MFTEntry.attr_body. intros Hb l0 ->.
    destruct (negb _); [injection Hb as <-; exact Hl|].
    destruct (_ =? _); [injection Hb as <-; exact Hl|].
    destruct (MFTEntry.parse_attribute _ _ _) as [[a n]|]; discriminate.
Qed.

Lemma from_bytes_error_kind fuel data offset k :
  MFTEntry.from_bytes fuel data offset = Some (err k) -> k = INVALID_MFT.
Proof.
  unfold MFTEntry.from_bytes. destruct (negb _); [congruence|].
  destruct (loop _ _ _) as [[attrs|]|]; congruence.
Qed.

Lemma parse_attribute_size st a :
  decoded_attribute a -> 0 <= st.1.1.2 ->
  0 <= (NTFSFile.parse_attribute st a).1.1.2.
Proof.
  intros Ha Hst. destruct st as [[[nm sz] ct] mt]. cbn [fst snd] in Hst.
  unfold NTFSFile.parse_attribute.
  destruct (MFTAttribute.type_id a =? 48).
  - destruct (negb _); [|exact Hst].
    destruct (truthy _); [exact Hst|].
    destruct (_ && _); [|exact Hst].
    destruct (getitem _ 64); [|exact Hst].
    destruct (decode_utf16le _); exact Hst.
  - destruct (MFTAttribute.type_id a =? 128).
    + destruct (negb (truthy _)); [|exact Hst].
      unfold decoded_attribute in Ha.
      destruct (MFTAttribute.resident a); cbn [negb fst snd].
      * apply len_nonneg.
      * lia.
    + destruct (MFTAttribute.type_id a =? 16); [destruct (_ && _)|]; exact Hst.
Qed.

Lemma fold_parse_size attrs : forall st,
  Forall decoded_attribute attrs -> 0 <= st.1.1.2 ->
  0 <= (fold_left NTFSFile.parse_attribute attrs st).1.1.2.
Proof.
  induction attrs as [|a attrs IH]; intros st H Hst; cbn [fold_left]; [exact Hst|].
  inversion H; subst. apply IH; [assumption|]. apply parse_attribute_size; assumption.
Qed.

(** X19: the record decoder fails with INVALID_MFT and with no other error.
    A record it returns has reference 0, the 16-, 32- and 64-bit header
    fields within their ranges, and attributes that are either resident, with
    no runs and the length of their content as size, or non-resident, with
    no content, a size below 2^64 and runs whose counts are not negative;
    the size of the file view built from such a record is not negative. *)
Theorem from_bytes_results fuel data offset r :
  MFTEntry.from_bytes fuel data offset = Some r ->
  match r with
  | err k => k = INVALID_MFT
  | ok e => decoded_record e /\ 0 <= NTFSFile.size (NTFSFile.new e)
  end.
Proof.
  intros H. destruct r as [e|k].
  - pose proof (from_bytes_decoded _ _ _ _ H) as D. split; [exact D|].
    destruct (new_fields e) as (_ & -> & _).
    destruct (MFTEntry.is_directory e); [lia|].
    apply fold_parse_size; [apply D|cbn; lia].
  - eapply from_bytes_error_kind, H.
Qed.

Lemma from_bytes_results_witness :
  decoded_record deleted_MFT_entry /\
  0 <= NTFSFile.size (NTFSFile.new deleted_MFT_entry).
Proof.
  apply (from_bytes_results 2 deleted_MFT_record 0 (ok deleted_MFT_entry)).
  exact (proj1 deleted_MFT_record_decoded).
Defined.

Lemma parse_attribute_named st a :
  truthy st.1.1.1 = true -> (NTFSFile.parse_attribute st a).1.1.1 = st.1.1.1.
Proof.
  destruct st as [[[nm sz] ct] mt]. cbn [fst]. intros T.
  unfold NTFSFile.parse_attribute. rewrite T. cbn [negb].
  destruct (MFTAttribute.type_id a =? 48); [reflexivity|].
  destruct (MFTAttribute.type_id a =? 128).
  - destruct (negb _); [destruct (negb _)|]; reflexivity.
  - destruct (MFTAttribute.type_id a =? 16); [destruct (_ && _)|]; reflexivity.
Qed.

Lemma fold_parse_named attrs : forall st,
  truthy st.1.1.1 = true ->
  (fold_left NTFSFile.parse_attribute attrs st).1.1.1 = st.1.1.1.
Proof.
  induction attrs as [|a attrs IH]; intros st T; cbn [fold_left]; [reflexivity|].
  pose proof (parse_attribute_named st a T) as E.
  rewrite IH by (rewrite E; exact T). exact E.
Qed.

(** X20: the first name wins: once the attributes read so far have given
    the view a name that is not empty, no later attribute changes it. *)
Theorem view_name_first_wins e before after :
  truthy (NTFSFile.name (NTFSFile.new (with_attributes e before))) = true ->
  NTFSFile.name (NTFSFile.new (with_attributes e (before ++ after)))
  = NTFSFile.name (NTFSFile.new (with_attributes e before)).
Proof.
  destruct (new_fields (with_attributes e before)) as (-> & _ & _).
  destruct (new_fields (with_attributes e (before ++ after))) as (-> & _ & _).
  cbn [with_attributes MFTEntry.attributes]. intros T.
  rewrite fold_left_app. apply fold_parse_named. exact T.
Qed.

Lemma view_name_first_wins_witness :
  NTFSFile.name
    (NTFSFile.new (with_attributes deleted_MFT_entry
                     (MFTEntry.attributes deleted_MFT_entry ++ [a_txt_name_attr])))
  = NTFSFile.name
      (NTFSFile.new (with_attributes deleted_MFT_entry
                       (MFTEntry.attributes deleted_MFT_entry))).
Proof.
  apply (view_name_first_wins deleted_MFT_entry
           (MFTEntry.attributes deleted_MFT_entry) [a_txt_name_attr]).
  vm_compute. reflexivity.
Defined.

(** ** Cluster reads *)

(** X21: [read_clusters] changes nothing of the volume but the segment
    reader; a buffer it returns is not empty, and holds at most the number
    of bytes asked for when that number is not negative. *)
Theorem read_clusters_result vol cluster count :
  let r := (NTFSVolume.read_clusters vol cluster count).1 in
  let vol' := (NTFSVolume.read_clusters vol cluster count).2 in
  NTFSVolume.mft_cache vol' = NTFSVolume.mft_cache vol /\
  NTFSVolume.boot_sector vol' = NTFSVolume.boot_sector vol /\
  NTFSVolume.partition_offset vol' = NTFSVolume.partition_offset vol /\
  NTFSVolume.image vol' = NTFSVolume.image vol /\
  forall d, r = Some (ok d) ->
    d <> [] /\
    exists b, NTFSVolume.boot_sector vol = Some b /\
      let size := count * NTFSBootSector.sectors_per_cluster b
                  * NTFSBootSector.bytes_per_sector b in
      (0 <= size -> len d <= size).
Proof.
  unfold NTFSVolume.read_clusters.
  destruct (NTFSVolume.boot_sector vol) as [b|] eqn:Hb;
    [|cbn; rewrite ?Hb; do 4 (split; [reflexivity|]); intros d E; discriminate E].
  destruct (NTFSVolume.partition_offset vol) as [p|] eqn:Hp;
    [|cbn; rewrite ?Hb, ?Hp; do 4 (split; [reflexivity|]); intros d E; discriminate E].
  destruct (NTFSVolume.split_image vol) as [si|] eqn:Hs;
    [|cbn; rewrite ?Hb, ?Hp; do 4 (split; [reflexivity|]); intros d E; discriminate E].
  set (offset := p + _). set (size := count * _ * _).
  pose proof (fun H => proj2 (proj2 (read_invariants si offset size H))) as Hlen.
  destruct (SplitImageFile.read si offset size) as [[[|x d]|] si']; cbn [fst snd] in *.
  - cbn. rewrite ?Hb, ?Hp. do 4 (split; [reflexivity|]). intros d E. discriminate E.
  - cbn. rewrite ?Hb, ?Hp. do 4 (split; [reflexivity|]). intros d0 E.
    injection E as <-. split; [discriminate|]. exists b. split; [reflexivity|].
    intros Hsz. apply (Hlen Hsz). reflexivity.
  - cbn. rewrite ?Hb, ?Hp. do 4 (split; [reflexivity|]). intros d E. discriminate E.
Qed.

(** ** Recovery listing *)

Lemma sorted_snoc (l : list Z) a :
  StronglySorted Z.lt l -> Forall (fun x => x < a) l -> StronglySorted Z.lt (l ++ [a]).
Proof.
  induction 1 as [|x l Hs IH Hx]; intros Hl; cbn.
  - repeat constructor.
  - inversion Hl; subst. constructor; [apply IH; assumption|].
    apply Forall_app. split; [assumption|]. repeat constructor. assumption.
Qed.

Lemma scan_deleted_sorted fuel lo n : forall a vol deleted files vol',
  lo <= a ->
  cache_inv vol ->
  StronglySorted Z.lt (references deleted) ->
  Forall (fun x => lo <= x < a) (references deleted) ->
  Forall recoverable deleted ->
  NTFSVolume.scan_deleted fuel vol (range_from a n) deleted = Some (files, vol') ->
  StronglySorted Z.lt (references files) /\
  Forall (fun x => lo <= x < a + Z.of_nat n) (references files) /\
  Forall recoverable files /\ cache_inv vol'.
Proof.
  induction n as [|n IH]; intros a vol deleted files vol' Hlo Hinv Hs Hb Hr H;
    cbn [range_from NTFSVolume.scan_deleted] in H.
  - injection H as <- <-. rewrite Z.add_0_r. auto.
  - destruct (NTFSVolume.read_mft_entry fuel vol a) as [[res vol1]|] eqn:R; [|discriminate].
    destruct (cache_inv_read _ _ _ _ _ Hinv R) as [Hinv1 Href].
    assert (Hb1 : Forall (fun x => lo <= x < a + 1) (references deleted)).
    { eapply List.Forall_impl; [|exact Hb]. cbn. intros; lia. }
    assert (Hlo1 : lo <= a + 1) by lia.
    replace (a + Z.of_nat (S n)) with (a + 1 + Z.of_nat n) by lia.
    destruct res as [entry|k]; [|apply (IH _ _ _ _ _ Hlo1 Hinv1 Hs Hb1 Hr H)].
    destruct (negb _ && _) eqn:C; [|apply (IH _ _ _ _ _ Hlo1 Hinv1 Hs Hb1 Hr H)].
    apply andb_true_iff in C. destruct C as [C1 C2]. apply negb_true_iff in C1.
    apply (IH _ _ _ _ _ Hlo1 Hinv1) in H; [exact H| | |].
    + unfold references. rewrite map_app. cbn [map]. rewrite mft_entry_new.
      rewrite (Href entry eq_refl). apply sorted_snoc; [assumption|].
      eapply List.Forall_impl; [|exact Hb]. cbn. intros; lia.
    + unfold references. rewrite map_app. cbn [map]. rewrite mft_entry_new.
      rewrite (Href entry eq_refl). apply Forall_app. split; [exact Hb1|].
      repeat constructor; lia.
    + apply Forall_app. split; [exact Hr|]. repeat constructor.
      * rewrite mft_entry_new. exact C1.
      * rewrite mft_entry_new. exact C2.
Qed.

(** X22: on a volume whose cached records are filed under their own
    references, the recovery scan lists views of records that are not in use
    and have a $FILE_NAME attribute, in strictly increasing order of their
    references, which lie between 0 and 99999: no record is listed
    twice. *)
Theorem deleted_listing_is_sorted fuel vol files vol' :
  cache_inv vol ->
  NTFSVolume.list_deleted_files fuel vol = Some (ok files, vol') ->
  StronglySorted Z.lt (references files) /\
  Forall (fun x => 0 <= x < 100000) (references files) /\
  Forall recoverable files /\ cache_inv vol'.
Proof.
  intros Hinv. unfold NTFSVolume.list_deleted_files, range.
  destruct (NTFSVolume.scan_deleted _ _ _ _) as [[fs v]|] eqn:S; [|discriminate].
  intros [= <- <-].
  destruct (scan_deleted_sorted fuel 0 _ 0 vol [] fs v (Z.le_refl 0) Hinv
              (SSorted_nil _) (List.Forall_nil _) (List.Forall_nil _) S)
    as (Hs & Hb & Hr & Hinv').
  split; [exact Hs|]. split; [|split; assumption].
  eapply List.Forall_impl; [|exact Hb]. cbn beta. intros x Hx. lia.
Qed.

Lemma test_volume_deleted_listing :
  NTFSVolume.list_deleted_files 2 test_volume
  = Some (ok [NTFSFile.new (MFTEntry.set_reference 0 deleted_MFT_entry)],
          NTFSVolume.with_cached
            (NTFSVolume.with_split_image test_volume (test_reader 2048))
            0 (MFTEntry.set_reference 0 deleted_MFT_entry)).
Proof.
  destruct test_volume_after_first_read as [R0 Rn].
  unfold NTFSVolume.list_deleted_files.
  rewrite range_cons by lia. cbn [NTFSVolume.scan_deleted].
  rewrite R0. cbn [app negb andb].
  rewrite scan_deleted_errors; [reflexivity|].
  intros n Hn. apply range_from_lower in Hn. exists IO_ERROR. apply Rn. lia.
Qed.

Lemma deleted_listing_is_sorted_witness :
  let files := [NTFSFile.new (MFTEntry.set_reference 0 deleted_MFT_entry)] in
  StronglySorted Z.lt (references files) /\
  Forall (fun x => 0 <= x < 100000) (references files) /\
  Forall recoverable files /\
  cache_inv (NTFSVolume.with_cached
               (NTFSVolume.with_split_image test_volume (test_reader 2048))
               0 (MFTEntry.set_reference 0 deleted_MFT_entry)).
Proof.
  apply (deleted_listing_is_sorted 2 test_volume).
  - intros n e. rewrite (proj1 test_volume_fields), lookup_empty. discriminate.
  - exact test_volume_deleted_listing.
Defined.

(** ** Paths *)

Lemma str_split_not_nil c s : str_split c s <> [].
Proof.
  destruct s as [|x s]; cbn; [discriminate|].
  destruct (x =? c); [discriminate|]. destruct (str_split c s); discriminate.
Qed.

Lemma str_split_no_separator c s : Forall (fun part => ~ In c part) (str_split c s).
Proof.
  induction s as [|x s IH]; cbn.
  - constructor; [intros []|constructor].
  - destruct (Z.eqb_spec x c) as [->|Hne].
    + constructor; [intros []|exact IH].
    + destruct (str_split c s) as [|part parts]; [repeat constructor; intros [?|[]]; congruence|].
      inversion IH; subst. constructor; [|assumption].
      intros [?|?]; [congruence|contradiction].
Qed.

Lemma filter_split_lstrip c s :
  List.filter nonempty (str_split c (str_lstrip c s))
  = List.filter nonempty (str_split c s).
Proof.
  induction s as [|x s IH]; [reflexivity|].
  cbn [str_lstrip]. destruct (x =? c) eqn:E; [|reflexivity].
  rewrite IH. cbn [str_split]. rewrite E. reflexivity.
Qed.

Lemma str_split_snoc_separator c s :
  str_split c (s ++ [c]) = str_split c s ++ [[]].
Proof.
  induction s as [|x s IH]; cbn.
  - rewrite Z.eqb_refl. reflexivity.
  - rewrite IH. destruct (x =? c); [reflexivity|].
    pose proof (str_split_not_nil c s).
    destruct (str_split c s) as [|part parts]; [contradiction|reflexivity].
Qed.

Lemma filter_split_rstrip c s :
  List.filter nonempty (str_split c (rev (str_lstrip c (rev s))))
  = List.filter nonempty (str_split c s).
Proof.
  induction s as [|x s IH] using rev_ind; [reflexivity|].
  rewrite rev_app_distr. cbn [rev app str_lstrip].
  destruct (Z.eqb_spec x c) as [->|Hne].
  - rewrite IH, str_split_snoc_separator, List.filter_app. cbn. rewrite app_nil_r. reflexivity.
  - cbn [rev]. rewrite rev_involutive. reflexivity.
Qed.

Lemma path_parts_split path :
  NTFSVolume.path_parts path = List.filter nonempty (str_split NTFSVolume.slash path).
Proof.
  unfold NTFSVolume.path_parts, str_strip.
  rewrite filter_split_rstrip. apply filter_split_lstrip.
Qed.

Lemma path_parts_are_components path : Forall component (NTFSVolume.path_parts path).
Proof.
  unfold NTFSVolume.path_parts. apply List.Forall_forall. intros part Hin.
  apply List.filter_In in Hin. destruct Hin as [Hin Hne].
  pose proof (str_split_no_separator NTFSVolume.slash (str_strip NTFSVolume.slash path)) as F.
  rewrite List.Forall_forall in F. split; [|exact (F _ Hin)].
  intros ->. discriminate.
Qed.

(** X23: the components a path is resolved through are never empty and
    hold no slash; they are those between the slashes of the path, so that
    stripping the slashes at both ends changes nothing, and a slash put in
    front of the path or after it gives the same components. *)
Theorem path_parts_components path :
  Forall component (NTFSVolume.path_parts path) /\
  NTFSVolume.path_parts path = List.filter nonempty (str_split NTFSVolume.slash path) /\
  NTFSVolume.path_parts (NTFSVolume.slash :: path) = NTFSVolume.path_parts path /\
  NTFSVolume.path_parts (path ++ [NTFSVolume.slash]) = NTFSVolume.path_parts path.
Proof.
  split; [apply path_parts_are_components|].
  split; [apply path_parts_split|]. split.
  - rewrite !path_parts_split. cbn [str_split]. rewrite Z.eqb_refl. reflexivity.
  - rewrite !path_parts_split, str_split_snoc_separator, List.filter_app.
    cbn. rewrite app_nil_r. reflexivity.
Qed.

Lemma str_split_component c part :
  ~ In c part -> str_split c part = [part].
Proof.
  induction part as [|x part IH]; intros Hc; cbn; [reflexivity|].
  destruct (Z.eqb_spec x c) as [->|Hne]; [exfalso; apply Hc; left; reflexivity|].
  rewrite IH; [reflexivity|]. intros Hin. apply Hc. right. exact Hin.
Qed.

Lemma str_split_app_component c part rest :
  ~ In c part -> str_split c (part ++ c :: rest) = part :: str_split c rest.
Proof.
  induction part as [|x part IH]; intros Hc; cbn.
  - rewrite Z.eqb_refl. reflexivity.
  - destruct (Z.eqb_spec x c) as [->|Hne]; [exfalso; apply Hc; left; reflexivity|].
    rewrite IH; [reflexivity|]. intros Hin. apply Hc. right. exact Hin.
Qed.

Lemma filter_split_join parts : Forall component parts ->
  forall part, ~ In NTFSVolume.slash part ->
    List.filter nonempty (str_split NTFSVolume.slash (part ++ join_path parts))
    = List.filter nonempty [part] ++ parts.
Proof.
  induction 1 as [|p parts [Hne Hns] _ IH]; intros part Hpart.
  - unfold join_path. cbn [map concat]. rewrite app_nil_r, app_nil_r.
    rewrite str_split_component by exact Hpart. reflexivity.
  - unfold join_path. cbn [map concat]. fold (join_path parts). cbn [app].
    rewrite str_split_app_component by exact Hpart.
    cbn [List.filter]. rewrite (IH p Hns).
    destruct p as [|x p]; [contradiction|]. destruct part; reflexivity.
Qed.

(** X24: splitting is the inverse of joining: the path made of a slash
    before each of a list of components, none of them empty and none holding
    a slash, is resolved through exactly these components, in order. *)
Theorem path_parts_join parts :
  Forall component parts -> NTFSVolume.path_parts (join_path parts) = parts.
Proof.
  intros H. rewrite path_parts_split.
  exact (filter_split_join parts H [] (fun F => F)).
Qed.

Lemma path_parts_join_witness :
  NTFSVolume.path_parts (join_path [a_txt; dollar_MFT]) = [a_txt; dollar_MFT].
Proof.
  apply (path_parts_join [a_txt; dollar_MFT]).
  repeat constructor; try discriminate; vm_compute; intuition discriminate.
Defined.

Section PathResolution.

Variable lower : str -> str.

Lemma get_file_by_path_parts fuel vol path b :
  NTFSVolume.boot_sector vol = Some b -> path <> NTFSVolume.dot ->
  NTFSVolume.get_file_by_path lower fuel vol path
  = NTFSVolume.resolve lower fuel vol 5 (NTFSVolume.path_parts path).
Proof.
  intros Hb Hdot. unfold NTFSVolume.get_file_by_path. rewrite Hb.
  destruct (bool_decide_reflect (path = [NTFSVolume.slash])) as [->|_]; [reflexivity|].
  rewrite (bool_decide_eq_false_2 _ Hdot). reflexivity.
Qed.

(** X25: resolution depends on a path only through its components: two
    paths with the same components, neither of them ".", resolve to the
    same result and leave the volume in the same state. *)
Theorem resolution_by_components fuel vol path path' :
  path <> NTFSVolume.dot -> path' <> NTFSVolume.dot ->
  NTFSVolume.path_parts path = NTFSVolume.path_parts path' ->
  NTFSVolume.get_file_by_path lower fuel vol path
  = NTFSVolume.get_file_by_path lower fuel vol path'.
Proof.
  intros Hp Hp' Hparts.
  destruct (NTFSVolume.boot_sector vol) as [b|] eqn:Hb.
  - rewrite (get_file_by_path_parts _ _ _ b Hb Hp),
            (get_file_by_path_parts _ _ _ b Hb Hp'), Hparts. reflexivity.
  - unfold NTFSVolume.get_file_by_path. rewrite Hb. reflexivity.
Qed.

Lemma find_component_listed files part :
  Forall listed files ->
  NTFSVolume.find_component lower files part = Some None \/
  exists n, NTFSVolume.find_component lower files part = Some (Some n) /\ 0 <= n < 2 ^ 48.
Proof.
  induction 1 as [|f files [Hname Href] _ IH]; cbn [NTFSVolume.find_component];
    [left; reflexivity|].
  destruct (NTFSFile.name f) as [name|]; [|discriminate].
  destruct (bool_decide _); [|exact IH].
  right. eexists. split; [reflexivity|exact Href].
Qed.

Lemma resolve_sound fuel parts : forall vol n r vol',
  cache_inv vol -> 0 <= n < 2 ^ 48 ->
  NTFSVolume.resolve lower fuel vol n parts = Some (r, vol') ->
  cache_inv vol' /\
  exists res, r = Some res /\
              forall e, res = ok e -> 0 <= MFTEntry.reference e < 2 ^ 48.
Proof.
  induction parts as [|part rest IH]; intros vol n r vol' Hinv Hn H;
    cbn [NTFSVolume.resolve] in H.
  - destruct (NTFSVolume.read_mft_entry fuel vol n) as [[res vol1]|] eqn:R; [|discriminate].
    injection H as <- <-.
    destruct (cache_inv_read _ _ _ _ _ Hinv R) as [Hinv1 Href].
    split; [exact Hinv1|]. exists res. split; [reflexivity|].
    intros e He. rewrite (Href e He). exact Hn.
  - destruct (NTFSVolume.read_mft_entry fuel vol n) as [[res vol1]|] eqn:R; [|discriminate].
    destruct (cache_inv_read _ _ _ _ _ Hinv R) as [Hinv1 Href].
    destruct res as [dir_entry|k].
    + destruct (negb _).
      * injection H as <- <-. split; [exact Hinv1|].
        eexists. split; [reflexivity|discriminate].
      * destruct (NTFSVolume._list_directory fuel vol1 dir_entry) as [[files vol2]|] eqn:L;
          [|discriminate].
        destruct (list_directory_listed _ _ _ _ _ Hinv1 L) as [Hfiles Hinv2].
        destruct (find_component_listed files part Hfiles) as [F|(m & F & Hm)];
          rewrite F in H.
        -- injection H as <- <-. split; [exact Hinv2|].
           eexists. split; [reflexivity|discriminate].
        -- apply (IH _ _ _ _ Hinv2 Hm H).
    + injection H as <- <-. split; [exact Hinv1|].
      eexists. split; [reflexivity|discriminate].
Qed.

Lemma get_file_by_path_sound fuel vol path r vol' :
  cache_inv vol ->
  NTFSVolume.get_file_by_path lower fuel vol path = Some (r, vol') ->
  cache_inv vol' /\
  exists res, r = Some res /\
              forall e, res = ok e -> 0 <= MFTEntry.reference e < 2 ^ 48.
Proof.
  intros Hinv. unfold NTFSVolume.get_file_by_path.
  destruct (NTFSVolume.boot_sector vol) as [b|].
  - destruct (_ || _); apply resolve_sound; try exact Hinv; lia.
  - intros [= <- <-]. split; [exact Hinv|].
    eexists. split; [reflexivity|discriminate].
Qed.

(** X26: on a volume whose cached records are filed under their own
    references, [get_file_by_path] never raises: the names it lower-cases
    are those of listed files, which have one.  What it returns is an error
    or a record whose reference is a 48-bit MFT index, and the volume it
    leaves is again such a volume. *)
Theorem resolution_never_raises fuel vol path r vol' :
  cache_inv vol ->
  NTFSVolume.get_file_by_path lower fuel vol path = Some (r, vol') ->
  cache_inv vol' /\
  exists res, r = Some res /\
              forall e, res = ok e -> 0 <= MFTEntry.reference e < 2 ^ 48.
Proof. apply get_file_by_path_sound. Qed.

(** X27: on a volume whose cached records are filed under their own
    references, the files [list_files] returns all have a name that is not
    empty and a record whose reference is a 48-bit MFT index, and
    [list_files] leaves the volume such a volume whatever it returns. *)
Theorem list_files_yields_named_files fuel vol path r vol' :
  cache_inv vol ->
  NTFSVolume.list_files lower fuel vol path = Some (r, vol') ->
  cache_inv vol' /\ forall files, r = ok files -> Forall listed files.
Proof.
  intros Hinv. unfold NTFSVolume.list_files. destruct (bool_decide _).
  - destruct (NTFSVolume.read_mft_entry fuel vol 5) as [[res vol1]|] eqn:R; [|discriminate].
    destruct (cache_inv_read _ _ _ _ _ Hinv R) as [Hinv1 _].
    destruct res as [root|k]; [|intros [= <- <-]; split; [exact Hinv1|discriminate]].
    destruct (NTFSVolume._list_directory fuel vol1 root) as [[files vol2]|] eqn:L;
      [|discriminate].
    destruct (list_directory_listed _ _ _ _ _ Hinv1 L) as [Hfiles Hinv2].
    intros [= <- <-]. split; [exact Hinv2|]. intros fs [= <-]. exact Hfiles.
  - destruct (NTFSVolume.get_file_by_path lower fuel vol path) as [[res vol1]|] eqn:G;
      [|discriminate].
    destruct (get_file_by_path_sound _ _ _ _ _ Hinv G) as (Hinv1 & res' & -> & _).
    destruct res' as [dir_entry|k]; [|intros [= <- <-]; split; [exact Hinv1|discriminate]].
    destruct (negb _); [intros [= <- <-]; split; [exact Hinv1|discriminate]|].
    destruct (NTFSVolume._list_directory fuel vol1 dir_entry) as [[files vol2]|] eqn:L;
      [|discriminate].
    destruct (list_directory_listed _ _ _ _ _ Hinv1 L) as [Hfiles Hinv2].
    intros [= <- <-]. split; [exact Hinv2|]. intros fs [= <-]. exact Hfiles.
Qed.

End PathResolution.

Lemma cached_volume_inv : cache_inv cached_volume.
Proof.
  intros n e. unfold cached_volume.
  cbn [NTFSVolume.mft_cache NTFSVolume.with_cached].
  rewrite (proj1 test_volume_fields).
  destruct (decide (0 = n)) as [<-|H0]; [rewrite lookup_insert_eq; intros [= <-]; reflexivity|].
  rewrite lookup_insert_ne by exact H0.
  destruct (decide (5 = n)) as [<-|H5]; [rewrite lookup_insert_eq; intros [= <-]; reflexivity|].
  rewrite lookup_insert_ne by exact H5. rewrite lookup_empty. discriminate.
Qed.

Lemma cached_volume_resolves :
  NTFSVolume.get_file_by_path ascii_lower 2 cached_volume dollar_MFT_path
  = Some (Some (ok (MFTEntry.set_reference 0 deleted_MFT_entry)), cached_volume).
Proof. vm_compute. reflexivity. Qed.

Lemma cached_volume_lists :
  NTFSVolume.list_files ascii_lower 2 cached_volume [NTFSVolume.slash]
  = Some (ok [NTFSFile.new (MFTEntry.set_reference 0 deleted_MFT_entry)], cached_volume).
Proof. vm_compute. reflexivity. Qed.

Lemma resolution_by_components_witness :
  NTFSVolume.get_file_by_path ascii_lower 2 cached_volume dollar_MFT_path
  = NTFSVolume.get_file_by_path ascii_lower 2 cached_volume
      (NTFSVolume.slash :: NTFSVolume.slash :: dollar_MFT ++ [NTFSVolume.slash]).
Proof.
  apply (resolution_by_components ascii_lower 2 cached_volume).
  - discriminate.
  - discriminate.
  - vm_compute. reflexivity.
Defined.

Lemma resolution_never_raises_witness :
  cache_inv cached_volume /\
  exists res, Some (ok (MFTEntry.set_reference 0 deleted_MFT_entry)) = Some res /\
              forall e, res = ok e -> 0 <= MFTEntry.reference e < 2 ^ 48.
Proof.
  apply (resolution_never_raises ascii_lower 2 cached_volume dollar_MFT_path).
  - exact cached_volume_inv.
  - exact cached_volume_resolves.
Defined.

Lemma list_files_yields_named_files_witness :
  cache_inv cached_volume /\
  forall files,
    ok [NTFSFile.new (MFTEntry.set_reference 0 deleted_MFT_entry)] = ok files ->
    Forall listed files.
Proof.
  apply (list_files_yields_named_files ascii_lower 2 cached_volume [NTFSVolume.slash]).
  - exact cached_volume_inv.
  - exact cached_volume_lists.
Defined.

(** ** Sector scan *)

Lemma slice_nonneg {A} (d : list A) a b :
  0 <= a -> 0 <= b ->
  slice d a b = take (Z.to_nat b - Z.to_nat a) (drop (Z.to_nat a) d).
Proof.
  intros Ha Hb. unfold slice, clamp. pose proof (len_nonneg d) as Hd.
  destruct (Z.ltb_spec a 0); [lia|]. destruct (Z.ltb_spec b 0); [lia|].
  destruct (Z.le_gt_cases (len d) a) as [Hge|Hlt].
  - rewrite !drop_ge by (unfold len in *; lia). rewrite !take_nil. reflexivity.
  - rewrite (Z.min_l a) by lia.
    destruct (Z.le_gt_cases (len d) b) as [Hgb|Hlb].
    + rewrite Z.min_r by lia.
      rewrite !take_ge by (rewrite length_drop; unfold len in *; lia). reflexivity.
    + rewrite Z.min_l by lia. f_equal. lia.
Qed.

Lemma slice_slice {A} (d : list A) a n x y :
  0 <= a -> 0 <= x -> x <= y -> y <= n ->
  slice (slice d a (a + n)) x y = slice d (a + x) (a + y).
Proof.
  intros Ha Hx Hxy Hyn.
  rewrite (slice_nonneg _ x y), (slice_nonneg d a (a + n)), (slice_nonneg d (a + x) (a + y))
    by lia.
  rewrite skipn_firstn_comm, take_take, drop_drop.
  f_equal; [lia|]. f_equal. lia.
Qed.

Lemma slice_not_empty {A} (d : list A) a n :
  0 <= a < len d -> 0 < n -> slice d a (a + n) <> [].
Proof.
  intros Ha Hn E. apply (f_equal length) in E. revert E.
  rewrite slice_nonneg by lia. rewrite length_take, length_drop. cbn [length].
  unfold len in *. lia.
Qed.

Lemma read_single_segment s c offset size :
  files_of_segments s -> SplitImageFile.segments s = [c] ->
  0 <= offset -> 0 <= size ->
  (SplitImageFile.read s offset size).1
    = (if offset <? len c then Some (slice c offset (offset + size)) else None) /\
  files_of_segments (SplitImageFile.read s offset size).2 /\
  SplitImageFile.segments (SplitImageFile.read s offset size).2 = [c].
Proof.
  intros Hwf Hseg Hoff Hsize.
  pose proof (read_keeps_files_of_segments s offset size Hsize Hwf) as Hwf'.
  pose proof (proj1 (read_invariants s offset size Hsize)) as Hseg'.
  rewrite Hseg in Hseg'. split; [|split; assumption].
  clear Hwf' Hseg'. unfold SplitImageFile.read.
  rewrite (getsize_head s c [] Hseg).
  unfold files_of_segments in Hwf. rewrite Hseg in Hwf.
  destruct (SplitImageFile.files s) as [|h [|h' fs]] eqn:Hfiles; try discriminate Hwf.
  injection Hwf as Hc. pose proof (len_nonneg c) as Hlen.
  destruct (Z.eqb_spec (len c) 0) as [E|E].
  { destruct (Z.ltb_spec offset (len c)); [lia|reflexivity]. }
  destruct (Z.ltb_spec offset (len c)) as [Hlt|Hge].
  - rewrite Z.div_small by lia. rewrite Z.mod_small by lia.
    change (0 >=? len [h]) with false. cbn [norm_index].
    change (norm_index [h] 0) with (Some 0%nat). cbn [lookup list_lookup].
    unfold SplitImageFile.seek. destruct (Z.ltb_spec offset 0); [lia|].
    unfold SplitImageFile.file_read. cbn [SplitImageFile.content SplitImageFile.pos].
    destruct (Z.ltb_spec size 0); [lia|]. rewrite Hc.
    cbn [loop SplitImageFile.span_body insert list_insert length Nat.mul Nat.add].
    change (0 + 1 <? len [_]) with false. rewrite andb_false_r. cbn [negb fst].
    reflexivity.
  - assert (1 <= offset / len c) by (apply Z.div_le_lower_bound; lia).
    rewrite Z.geb_leb. change (len [h]) with 1.
    destruct (Z.leb_spec 1 (offset / len c)); [reflexivity|lia].
Qed.

Lemma range_step_from_bounds a step n x :
  0 < step -> In x (range_step_from a step n) ->
  a <= x < a + step * Z.of_nat n /\ (x - a) mod step = 0.
Proof.
  intros Hs. revert a. induction n as [|n IH]; intros a; cbn [range_step_from]; [intros []|].
  intros [<-|Hin].
  - split; [lia|]. rewrite Z.sub_diag. apply Z.mod_0_l. lia.
  - apply IH in Hin. destruct Hin as [Hb Hm]. split; [lia|].
    replace (x - a) with (x - (a + step) + 1 * step) by lia.
    rewrite Z.mod_add by lia. exact Hm.
Qed.

Lemma scan_sectors_single c offsets : forall s,
  files_of_segments s -> SplitImageFile.segments s = [c] ->
  Forall (fun o => 0 <= o) offsets ->
  (SplitImageFile.scan_sectors s offsets).1 = List.find (tagged_sector c) offsets /\
  files_of_segments (SplitImageFile.scan_sectors s offsets).2 /\
  SplitImageFile.segments (SplitImageFile.scan_sectors s offsets).2 = [c].
Proof.
  induction offsets as [|o rest IH]; intros s Hwf Hseg Hpos; cbn [SplitImageFile.scan_sectors List.find].
  - auto.
  - inversion Hpos as [|? ? Ho Hrest]; subst.
    destruct (read_single_segment s c o 512 Hwf Hseg Ho ltac:(lia)) as (Hr & Hwf' & Hseg').
    destruct (SplitImageFile.read s o 512) as [sector s']. cbn [fst snd] in Hr, Hwf', Hseg'.
    unfold tagged_sector at 1.
    destruct (Z.ltb_spec o (len c)) as [Hlt|Hge]; subst sector; cbn [andb].
    + rewrite (slice_slice c o 512 3 7) by lia.
      pose proof (slice_not_empty c o 512 ltac:(lia) ltac:(lia)) as Hne.
      destruct (slice c o (o + 512)) as [|x d]; [contradiction|].
      destruct (bool_decide _); [auto|]. apply IH; assumption.
    + apply IH; assumption.
Qed.

(** X28: on a reader over a single segment, with its file object opened
    on it, [read_ftk_header] returns the first of the offsets 0, 512, ...,
    15872 that lies inside the segment and has the bytes 'NTFS' at 3..6 of
    its sector, and [None] when there is none or the segment is empty; the
    reader keeps its segment and its file object. *)
Theorem read_ftk_header_single_segment s c :
  files_of_segments s -> SplitImageFile.segments s = [c] ->
  (SplitImageFile.read_ftk_header s).1
    = (if len c =? 0 then None
       else List.find (tagged_sector c) (range_step 0 16384 512)) /\
  files_of_segments (SplitImageFile.read_ftk_header s).2 /\
  SplitImageFile.segments (SplitImageFile.read_ftk_header s).2 = [c].
Proof.
  intros Hwf Hseg. unfold SplitImageFile.read_ftk_header.
  destruct (read_single_segment s c 0 512 Hwf Hseg ltac:(lia) ltac:(lia))
    as (Hr & Hwf' & Hseg').
  destruct (SplitImageFile.read s 0 512) as [header s']. cbn [fst snd] in Hr, Hwf', Hseg'.
  pose proof (len_nonneg c) as Hlen.
  destruct (Z.eqb_spec (len c) 0) as [E|E].
  - destruct (Z.ltb_spec 0 (len c)); [lia|]. subst header. auto.
  - destruct (Z.ltb_spec 0 (len c)); [|lia]. subst header.
    pose proof (slice_not_empty c 0 512 ltac:(lia) ltac:(lia)) as Hne.
    destruct (slice c 0 (0 + 512)) as [|x d]; [contradiction|].
    apply scan_sectors_single; [assumption|assumption|].
    apply List.Forall_forall. intros o Ho.
    apply range_step_from_bounds in Ho; lia.
Qed.

Lemma read_ftk_header_single_segment_witness :
  (SplitImageFile.read_ftk_header (opened test_image)).1 = Some 512.
Proof.
  rewrite (proj1 (read_ftk_header_single_segment (opened test_image)
                    (mbr_sector 0x07 ++ boot NTFSBootSector.NTFS_tag ++ deleted_MFT_record)
                    eq_refl eq_refl)).
  vm_compute. reflexivity.
Defined.

(** ** Attribute builders *)

Lemma byteZ_byte_of_Z z : byteZ (byte_of_Z z) = z mod 256.
Proof.
  unfold byteZ, byte_of_Z.
  pose proof (Z.mod_pos_bound z 256 ltac:(lia)) as Hm.
  destruct (Byte.of_N (Z.to_N (z mod 256))) as [b|] eqn:E.
  - apply Byte.to_of_N in E. rewrite E. lia.
  - apply Byte.of_N_None_iff in E. lia.
Qed.

Lemma int_from_bytes_le w : forall v,
  0 <= v < 2 ^ (8 * Z.of_nat w) -> int_from_bytes (le w v) = v.
Proof.
  induction w as [|w IH]; intros v Hv; cbn [le int_from_bytes].
  - change (2 ^ (8 * Z.of_nat 0)) with 1 in Hv. lia.
  - rewrite byteZ_byte_of_Z, IH.
    + pose proof (Z.div_mod v 256 ltac:(lia)). lia.
    + replace (8 * Z.of_nat (S w)) with (8 * Z.of_nat w + 8) in Hv by lia.
      rewrite Z.pow_add_r in Hv by lia. change (2 ^ 8) with 256 in Hv.
      split; [apply Z.div_pos; lia|]. apply Z.div_lt_upper_bound; lia.
Qed.

Lemma set_slice_app (pre mid post patch : bytes) :
  len mid = len patch ->
  set_slice (pre ++ mid ++ post) (len pre) (len pre + len patch) patch
  = pre ++ patch ++ post.
Proof.
  intros Hlen. unfold set_slice, clamp. rewrite !len_app.
  pose proof (len_nonneg pre). pose proof (len_nonneg mid). pose proof (len_nonneg post).
  destruct (Z.ltb_spec (len pre) 0); [lia|].
  destruct (Z.ltb_spec (len pre + len patch) 0); [lia|].
  rewrite (Z.min_l (len pre)) by lia.
  rewrite (Z.min_l (len pre + len patch)) by lia.
  rewrite Z.max_r by lia.
  replace (Z.to_nat (len pre)) with (length pre) by (unfold len; lia).
  replace (Z.to_nat (len pre + len patch)) with (length pre + length mid)%nat
    by (unfold len in *; lia).
  rewrite take_app_length. rewrite <- drop_drop, drop_app_length, drop_app_length.
  reflexivity.
Qed.

Lemma file_name_attr_layout (nb : bytes) lb t0 t1 t2 t3 c0 c1 c2 c3 p0 p1 p2 p3 p4 p5 p6 p7 :
  set_slice
    (<[67%nat := x01]>
       (<[66%nat := lb]>
          (poke 24 [p0; p1; p2; p3; p4; p5; p6; p7]
             (poke 20 (le 2 24)
                (poke 16 [c0; c1; c2; c3]
                   (poke 14 (le 2 0)
                      (poke 12 (le 2 0)
                         (poke 10 (le 2 0)
                            (<[9%nat := byte_of_Z 0]>
                               (<[8%nat := byte_of_Z 0]>
                                  (poke 4 [t0; t1; t2; t3]
                                     (poke 0 (le 4 0x30)
                                        (zeros (88 + length nb))))))))))))))
    68 (68 + len nb) nb
  = [x30; x00; x00; x00; t0; t1; t2; t3; x00; x00; x00; x00; x00; x00; x00; x00;
     c0; c1; c2; c3; x18; x00; x00; x00; p0; p1; p2; p3; p4; p5; p6; p7]
    ++ zeros 34 ++ [lb; x01] ++ nb ++ zeros 20.
Proof.
  unfold zeros.
  replace (88 + length nb)%nat with (68 + (length nb + 20))%nat by lia.
  rewrite (repeat_app x00 68), (repeat_app x00 (length nb)).
  change (le 2 24) with [x18; x00]. change (le 2 0) with [x00; x00].
  change (le 4 48) with [x30; x00; x00; x00]. change (byte_of_Z 0) with x00.
  cbn [repeat app poke take drop length Nat.add insert list_insert].
  apply (set_slice_app
           ([x30; x00; x00; x00; t0; t1; t2; t3; x00; x00; x00; x00; x00; x00; x00; x00;
             c0; c1; c2; c3; x18; x00; x00; x00; p0; p1; p2; p3; p4; p5; p6; p7]
            ++ repeat x00 34 ++ [lb; x01])
           (repeat x00 (length nb)) (repeat x00 20) nb).
  unfold len. rewrite repeat_length. reflexivity.
Qed.

Lemma pack_into_Some w attr off v attr' :
  pack_into w attr off v = Some attr' ->
  0 <= v < 2 ^ (8 * Z.of_nat w) /\ attr' = poke off (le w v) attr.
Proof.
  unfold pack_into. destruct (_ && _) eqn:C; [|discriminate].
  intros [= <-]. apply andb_true_iff in C. destruct C as [C _].
  apply andb_true_iff in C. destruct C as [C1 C2]. split; [lia|reflexivity].
Qed.

Lemma setitem_Some attr i v attr' :
  setitem attr i v = Some attr' ->
  0 <= v < 256 /\ attr' = <[i := byte_of_Z v]> attr.
Proof.
  unfold setitem. destruct (_ && _) eqn:C; [|discriminate].
  intros [= <-]. apply andb_true_iff in C. destruct C as [C _].
  apply andb_true_iff in C. destruct C as [C1 C2]. split; [lia|reflexivity].
Qed.

Lemma getitem_nonneg {A} (d : list A) i :
  0 <= i -> getitem d i = d !! Z.to_nat i.
Proof.
  intros Hi. unfold getitem, norm_index.
  destruct (Z.ltb_spec i 0); [lia|]. destruct (Z.leb_spec 0 i); [|lia].
  destruct (Z.ltb_spec i (len d)) as [Hlt|Hge]; cbn [andb]; [reflexivity|].
  symmetry. apply lookup_ge_None. unfold len in *. lia.
Qed.

(** The bytes [create_file_name_attr] returns, laid out. *)
Lemma create_file_name_attr_bytes name parent_ref attr :
  Attributes.create_file_name_attr name parent_ref = Some attr ->
  exists name_bytes,
    encode_utf16le name = Some name_bytes /\
    0 <= 88 + len name_bytes < 2 ^ 32 /\
    0 <= parent_ref < 2 ^ 64 /\
    0 <= len name < 256 /\
    attr = (le 4 0x30 ++ le 4 (88 + len name_bytes) ++ zeros 8
            ++ le 4 (64 + len name_bytes) ++ le 2 24 ++ zeros 2 ++ le 8 parent_ref)
           ++ zeros 34 ++ [byte_of_Z (len name); x01] ++ name_bytes ++ zeros 20.
Proof.
  unfold Attributes.create_file_name_attr. intros H.
  apply bind_Some in H. destruct H as (nb & Henc & H). exists nb.
  split; [exact Henc|].
  repeat match type of H with
  | (pack_into _ _ _ _ ≫= _) = Some _ =>
      let a := fresh "a" in let Hp := fresh "Hp" in let Hr := fresh "Hr" in
      apply bind_Some in H; destruct H as (a & Hp & H);
      apply pack_into_Some in Hp; destruct Hp as [Hr ->]
  | (setitem _ _ _ ≫= _) = Some _ =>
      let a := fresh "a" in let Hp := fresh "Hp" in let Hr := fresh "Hr" in
      apply bind_Some in H; destruct H as (a & Hp & H);
      apply setitem_Some in Hp; destruct Hp as [Hr ->]
  end.
  injection H as <-.
  pose proof (len_nonneg nb) as Hnb.
  change (8 * Z.of_nat 4) with 32 in *. change (8 * Z.of_nat 8) with 64 in *.
  repeat split; try lia.
  replace (Z.to_nat (88 + len nb)) with (88 + length nb)%nat by (unfold len; lia).
  replace (88 + len nb - 24) with (64 + len nb) by lia.
  cbn [le]. apply file_name_attr_layout.
Qed.

Lemma file_name_attr_decoded name parent_ref attr :
  Attributes.create_file_name_attr name parent_ref = Some attr ->
  exists name_bytes,
    encode_utf16le name = Some name_bytes /\
    len attr = 88 + len name_bytes /\
    int_from_bytes (slice attr 0 4) = 0x30 /\
    MFTEntry.parse_attribute attr 0 0x30
      = Some (MFTAttribute.mk 0x30 None true (slice attr 24 (len attr)) []
                (64 + len name_bytes),
              len attr) /\
    int_from_bytes (slice attr 24 32) = parent_ref /\
    getitem attr 66 = Some (byte_of_Z (len name)) /\
    slice attr 68 (68 + len name_bytes) = name_bytes.
Proof.
  intros H. destruct (create_file_name_attr_bytes _ _ _ H)
    as (nb & Henc & Htotal & Hparent & Hname & ->).
  exists nb. split; [exact Henc|].
  pose proof (len_nonneg nb) as Hnb.
  set (attr := (_ ++ _) ++ _).
  assert (Hlen : len attr = 88 + len nb).
  { unfold attr, len, zeros. rewrite !length_app, !repeat_length. cbn [length le].
    unfold len. lia. }
  split; [exact Hlen|].
  assert (H4 : int_from_bytes (slice attr 4 8) = 88 + len nb).
  { rewrite slice_nonneg by lia.
    transitivity (int_from_bytes (le 4 (88 + len nb))); [reflexivity|].
    apply int_from_bytes_le. lia. }
  assert (H16 : int_from_bytes (slice attr 16 20) = 64 + len nb).
  { rewrite slice_nonneg by lia.
    transitivity (int_from_bytes (le 4 (64 + len nb))); [reflexivity|].
    apply int_from_bytes_le. lia. }
  assert (H24 : int_from_bytes (slice attr 24 32) = parent_ref).
  { rewrite slice_nonneg by lia.
    transitivity (int_from_bytes (le 8 (parent_ref))); [reflexivity|].
    apply int_from_bytes_le. lia. }
  split; [rewrite slice_nonneg by lia; reflexivity|].
  split; [|split; [exact H24|split]].
  - unfold MFTEntry.parse_attribute.
    rewrite (getitem_nonneg attr (0 + 8)), (getitem_nonneg attr (0 + 9)) by lia.
    change (attr !! Z.to_nat (0 + 8)) with (Some x00).
    change (attr !! Z.to_nat (0 + 9)) with (Some x00).
    cbn [mbind option_bind]. change (byteZ x00) with 0.
    change (0 >? 0) with false. cbn [mbind option_bind]. change (0 =? 0) with true.
    cbv iota. change (0 + 4) with 4. change (0 + 8) with 8.
    change (0 + 16) with 16. change (0 + 20) with 20. change (0 + 22) with 22.
    rewrite H4, H16.
    assert (H20 : int_from_bytes (slice attr 20 22) = 24)
      by (rewrite slice_nonneg by lia; reflexivity).
    rewrite H20. replace (0 + 24 + (64 + len nb)) with (len attr) by lia.
    change (0 + 24) with 24.
    unfold MFTAttribute.from_raw_data.
    assert (Hd : len (slice attr 24 (len attr)) = 64 + len nb).
    { rewrite Hlen. replace (88 + len nb) with (24 + (64 + len nb)) by lia.
      apply len_slice_exact; lia. }
    rewrite Hd, Hlen. reflexivity.
  - rewrite getitem_nonneg by lia. reflexivity.
  - exact (slice_inside
             ((le 4 0x30 ++ le 4 (88 + len nb) ++ zeros 8 ++ le 4 (64 + len nb)
               ++ le 2 24 ++ zeros 2 ++ le 8 parent_ref)
              ++ zeros 34 ++ [byte_of_Z (len name); x01])
             nb (zeros 20)).
Qed.

Lemma a_txt_file_name_attr :
  Attributes.create_file_name_attr a_txt 5
  = Some ((le 4 0x30 ++ le 4 98 ++ zeros 8 ++ le 4 74 ++ le 2 24 ++ zeros 2 ++ le 8 5)
          ++ zeros 34 ++ [x05; x01] ++ utf16 a_txt ++ zeros 20).
Proof. vm_compute. reflexivity. Qed.

(** X29: the record decoder reads back what the builders build.
    [create_standard_information_attr] returns 96 bytes that
    [MFTEntry.parse_attribute] decodes to a resident, unnamed attribute of
    type 0x10 with 48 zero bytes of content.  Whenever
    [create_file_name_attr] returns, its bytes form an attribute header of
    type 0x30 that is decoded to a resident, unnamed attribute whose length
    is the length of the bytes and whose content is the bytes from offset 24
    on; the parent reference lies at 24..31, the number of characters of the
    name at 66 and its UTF-16 bytes from 68 on. *)
Theorem decoder_reads_built_attributes :
  (exists attr,
     Attributes.create_standard_information_attr = Some attr /\
     len attr = 96 /\
     MFTEntry.parse_attribute attr 0 (int_from_bytes (slice attr 0 4))
       = Some (MFTAttribute.mk 0x10 None true (zeros 48) [] 48, 96)) /\
  (forall name parent_ref attr,
     Attributes.create_file_name_attr name parent_ref = Some attr ->
     exists name_bytes,
       encode_utf16le name = Some name_bytes /\
       len attr = 88 + len name_bytes /\
       int_from_bytes (slice attr 0 4) = 0x30 /\
       MFTEntry.parse_attribute attr 0 0x30
         = Some (MFTAttribute.mk 0x30 None true (slice attr 24 (len attr)) []
                   (64 + len name_bytes),
                 len attr) /\
       int_from_bytes (slice attr 24 32) = parent_ref /\
       getitem attr 66 = Some (byte_of_Z (len name)) /\
       slice attr 68 (68 + len name_bytes) = name_bytes).
Proof.
  split.
  - exists (le 4 0x10 ++ le 4 96 ++ zeros 8 ++ le 4 48 ++ le 2 24 ++ zeros 74).
    split; [vm_compute; reflexivity|].
    split; vm_compute; reflexivity.
  - apply file_name_attr_decoded.
Qed.

Lemma decoder_reads_built_attributes_witness :
  exists name_bytes,
    encode_utf16le a_txt = Some name_bytes /\
    len ((le 4 0x30 ++ le 4 98 ++ zeros 8 ++ le 4 74 ++ le 2 24 ++ zeros 2 ++ le 8 5)
         ++ zeros 34 ++ [x05; x01] ++ utf16 a_txt ++ zeros 20)
      = 88 + len name_bytes.
Proof.
  destruct (proj2 decoder_reads_built_attributes a_txt 5 _ a_txt_file_name_attr)
    as (nb & Henc & Hlen & _).
  exists nb. split; assumption.
Defined.

(** ** System files in listings *)

Lemma system_entries_kept :
  NTFSVolume.index_block_entries system_block = [(2 ^ 48, dollar_MFT)] /\
  NTFSVolume.index_block_entries system_block_sequence_0 = [] /\
  NTFSVolume.index_root_entries system_root_payload = [(2 ^ 48, dollar_MFT)].
Proof. vm_compute. repeat split. Qed.

Lemma system_entry_looked_up :
  NTFSVolume.lookup_entries 2 test_volume [(2 ^ 48, dollar_MFT)] []
  = Some ([NTFSFile.new (MFTEntry.set_reference 0 deleted_MFT_entry)],
          NTFSVolume.with_cached
            (NTFSVolume.with_split_image test_volume (test_reader 2048))
            0 (MFTEntry.set_reference 0 deleted_MFT_entry)).
Proof.
  destruct test_volume_after_first_read as [R0 _].
  assert (E : truthy (NTFSFile.name
                        (NTFSFile.new (MFTEntry.set_reference 0 deleted_MFT_entry)))
              = true) by (vm_compute; reflexivity).
  cbn [NTFSVolume.lookup_entries].
  change (Z.land (2 ^ 48) 0xFFFFFFFFFFFF) with 0. rewrite R0, E. reflexivity.
Qed.

Lemma system_root_dir_listing :
  NTFSVolume._list_directory 2 test_volume system_root_dir
  = NTFSVolume.lookup_entries 2 test_volume [(2 ^ 48, dollar_MFT)] [].
Proof.
  destruct system_entries_kept as (_ & _ & E3).
  assert (E1 : NTFSVolume.last_of_type 0x90 (MFTEntry.attributes system_root_dir)
               = Some (MFTAttribute.mk 0x90 None true system_root_payload [] 144))
    by reflexivity.
  assert (E2 : NTFSVolume.last_of_type 0xA0 (MFTEntry.attributes system_root_dir) = None)
    by reflexivity.
  assert (E4 : (len system_root_payload <? 32) = false) by (vm_compute; reflexivity).
  unfold NTFSVolume._list_directory. rewrite E1, E2.
  cbn [MFTAttribute.resident MFTAttribute.data]. rewrite E4, E3.
  destruct (NTFSVolume.lookup_entries 2 test_volume _ []) as [[files vol']|]; reflexivity.
Qed.

(** C3, at the input on which it fails.  The entry of "$MFT" has the file
    reference 0x0001000000000000: its lower 48 bits, the MFT index, are 0,
    and its sequence number is 1.  Both walks keep the entry, because they
    compare the whole file reference with 11; the INDX walk drops the same
    entry when the sequence number is 0.  The entry is then looked up at
    MFT index 0, and the listing of a directory with this entry in its
    $INDEX_ROOT holds a file named "$MFT"; so does the recovery output of
    the test volume, which no filter is applied to. *)
Theorem index_walks_list_system_file :
  Z.land (2 ^ 48) 0xFFFFFFFFFFFF = 0 /\
  startswith_dollar dollar_MFT = true /\
  NTFSVolume.index_block_entries system_block = [(2 ^ 48, dollar_MFT)] /\
  NTFSVolume.index_block_entries system_block_sequence_0 = [] /\
  NTFSVolume.index_root_entries system_root_payload = [(2 ^ 48, dollar_MFT)] /\
  exists files vol',
    NTFSVolume.lookup_entries 2 test_volume
      (NTFSVolume.index_block_entries system_block) [] = Some (files, vol') /\
    NTFSVolume._list_directory 2 test_volume system_root_dir = Some (files, vol') /\
    NTFSVolume.list_deleted_files 2 test_volume = Some (ok files, vol') /\
    exists f, In f files /\
              NTFSFile.name f = Some dollar_MFT /\
              MFTEntry.reference (NTFSFile.mft_entry f) = 0.
Proof.
  destruct system_entries_kept as (E1 & E2 & E3).
  destruct deleted_MFT_record_decoded as (_ & _ & Hname).
  split; [reflexivity|]. split; [reflexivity|].
  split; [exact E1|]. split; [exact E2|]. split; [exact E3|].
  eexists _, _.
  rewrite E1, system_root_dir_listing, system_entry_looked_up,
          test_volume_deleted_listing.
  split; [reflexivity|]. split; [reflexivity|]. split; [reflexivity|].
  eexists. split; [left; reflexivity|]. rewrite mft_entry_new.
  split; [exact Hname|reflexivity].
Qed.

(** ** Recovery scan *)

Lemma looping_record_undecoded fuel :
  MFTEntry.from_bytes fuel looping_record 0 = None.
Proof.
  unfold MFTEntry.from_bytes.
  replace (bool_decide (slice looping_record 0 (0 + 4) = MFTEntry.FILE_tag))
    with true by (vm_compute; reflexivity).
  replace (int_from_bytes (slice looping_record (0 + 24) (0 + 28)))
    with 1024 by (vm_compute; reflexivity).
  replace (0 + int_from_bytes (slice looping_record (0 + 20) (0 + 22)))
    with 56 by (vm_compute; reflexivity).
  cbn [negb]. rewrite looping_record_loop. reflexivity.
Qed.

Lemma looping_volume_fields :
  NTFSVolume.mft_cache looping_volume = ∅ /\
  NTFSVolume.boot_sector looping_volume = Some test_boot /\
  NTFSVolume.partition_offset looping_volume = Some 512 /\
  NTFSVolume.split_image looping_volume = Some (looping_reader 1024).
Proof. vm_compute. repeat split. Qed.

Lemma looping_reader_records :
  SplitImageFile.read (looping_reader 1024) 1024 1024
    = (Some looping_record, looping_reader 2048) /\
  SplitImageFile.read (looping_reader 1024) 2048 1024
    = (Some deleted_MFT_record, looping_reader 3072).
Proof. vm_compute. split; reflexivity. Qed.

Lemma looping_volume_record_0 fuel :
  NTFSVolume.read_mft_entry fuel looping_volume 0 = None.
Proof.
  destruct looping_volume_fields as (Hc & Hb & Hp & Hs).
  destruct looping_reader_records as [R0 _].
  rewrite (read_mft_entry_miss_data fuel looping_volume 0 test_boot 512
             (looping_reader 1024) looping_record).
  - rewrite looping_record_undecoded. reflexivity.
  - rewrite Hc. apply lookup_empty.
  - exact Hb.
  - exact Hp.
  - exact Hs.
  - change (512 + _ + 0 * 1024) with 1024. rewrite R0. reflexivity.
  - vm_compute. discriminate.
Qed.

Lemma looping_volume_record_1 :
  NTFSVolume.read_mft_entry 2 looping_volume 1
  = Some (ok (MFTEntry.set_reference 1 deleted_MFT_entry),
          NTFSVolume.with_cached
            (NTFSVolume.with_split_image looping_volume (looping_reader 3072))
            1 (MFTEntry.set_reference 1 deleted_MFT_entry)).
Proof.
  destruct looping_volume_fields as (Hc & Hb & Hp & Hs).
  destruct looping_reader_records as [_ R1].
  destruct deleted_MFT_record_decoded as (Hd & Hl & _).
  rewrite (read_mft_entry_miss_data 2 looping_volume 1 test_boot 512
             (looping_reader 1024) deleted_MFT_record).
  - rewrite Hd. change (512 + _ + 1 * 1024) with 2048. rewrite R1. reflexivity.
  - rewrite Hc. apply lookup_empty.
  - exact Hb.
  - exact Hp.
  - exact Hs.
  - change (512 + _ + 1 * 1024) with 2048. rewrite R1. reflexivity.
  - intros E. rewrite E in Hl. discriminate Hl.
Qed.

(** C9, at the input on which it fails.  On the volume whose MFT holds
    [looping_record] at index 0 and [deleted_MFT_record] at index 1, the
    record at index 1 is read and decoded, bit 0 of its flags is clear and
    it has an attribute of type 0x30; yet for no number of iterations does
    the recovery scan return: it reads the record at index 0 first, and the
    attribute loop of the decoder does not end on it. *)
Theorem recovery_scan_never_returns :
  (exists vol',
     NTFSVolume.read_mft_entry 2 looping_volume 1
       = Some (ok (MFTEntry.set_reference 1 deleted_MFT_entry), vol')) /\
  Z.land (MFTEntry.flags (MFTEntry.set_reference 1 deleted_MFT_entry)) 0x01 = 0 /\
  (exists attr,
     In attr (MFTEntry.attributes (MFTEntry.set_reference 1 deleted_MFT_entry)) /\
     MFTAttribute.type_id attr = 0x30) /\
  (forall fuel, MFTEntry.from_bytes fuel looping_record 0 = None) /\
  forall fuel, NTFSVolume.list_deleted_files fuel looping_volume = None.
Proof.
  split; [eexists; exact looping_volume_record_1|].
  split; [reflexivity|].
  split; [eexists; split; [left; reflexivity|reflexivity]|].
  split; [exact looping_record_undecoded|].
  intros fuel. unfold NTFSVolume.list_deleted_files.
  rewrite range_cons by lia. cbn [NTFSVolume.scan_deleted].
  rewrite looping_volume_record_0. reflexivity.
Qed.

Lemma is_in_use_bit entry :
  MFTEntry.is_in_use entry = false <-> Z.land (MFTEntry.flags entry) 0x01 = 0.
Proof.
  unfold MFTEntry.is_in_use. rewrite negb_false_iff. apply Z.eqb_eq.
Qed.

Lemma has_file_name_attribute entry :
  MFTEntry.has_file_name entry = true <->
  exists attr, In attr (MFTEntry.attributes entry) /\ MFTAttribute.type_id attr = 0x30.
Proof.
  unfold MFTEntry.has_file_name. rewrite existsb_exists.
  split; intros (attr & Hin & H); exists attr; (split; [exact Hin|]);
    [apply Z.eqb_eq|apply Z.eqb_eq]; exact H.
Qed.

(** X30: the recovery scan reads the records 0 to 99999 in order, each on
    the volume as the reads before it left it, and returns exactly when all
    these reads return.  Its result then holds, in the order of the records,
    the view of every record that was read and decoded, has bit 0 of its
    flags clear and has an attribute of type 0x30, and nothing else; a read
    that returns an error adds nothing and does not stop the scan. *)
Theorem recovery_scan_filter fuel vol :
  match read_all fuel vol (range 0 100000) with
  | None => NTFSVolume.list_deleted_files fuel vol = None
  | Some (results, vol') =>
      NTFSVolume.list_deleted_files fuel vol
        = Some (ok (omap deleted_view results), vol') /\
      forall f, In f (omap deleted_view results) <->
                exists entry,
                  In (ok entry) results /\
                  Z.land (MFTEntry.flags entry) 0x01 = 0 /\
                  (exists attr, In attr (MFTEntry.attributes entry) /\
                                MFTAttribute.type_id attr = 0x30) /\
                  f = NTFSFile.new entry
  end.
Proof.
  unfold NTFSVolume.list_deleted_files. rewrite scan_deleted_read_all.
  destruct (read_all fuel vol (range 0 100000)) as [[results vol']|]; [|reflexivity].
  split; [reflexivity|].
  intros f. rewrite <- list_elem_of_In, list_elem_of_omap. split.
  - intros (r & Hr & Hv). apply deleted_view_Some in Hv.
    destruct Hv as (entry & -> & U & N & ->).
    exists entry. rewrite <- list_elem_of_In.
    split; [exact Hr|]. split; [apply is_in_use_bit, U|].
    split; [apply has_file_name_attribute, N|reflexivity].
  - intros (entry & He & U & N & ->). exists (ok entry).
    rewrite <- list_elem_of_In in He. split; [assumption|].
    apply deleted_view_Some. exists entry.
    split; [reflexivity|]. split; [apply is_in_use_bit, U|].
    split; [apply has_file_name_attribute, N|reflexivity].
Qed.
